(** * A shallow embedding of the REST backend (server + models.js)

    The server is an Express application over mongoose collections and an
    S3 bucket.  The embedding follows the source file by file:

    - [models.js]: the five schemas and the exported models;
    - the server file: [connectToDatabase], the S3 configuration,
      [generateId], [modelMap], [getModel], the route handlers in their
      registration order and the global error handler.

    The repository holds two versions of the server file.  Their generic
    handlers read the same; the later one adds the three activity-log
    routes in front of the generic ones and builds its S3 client with
    another default region and with signature version 4.  The embedding
    follows the later file; what the older file ([part_000]) does with its
    own S3 client is embedded in the module [Part_000].

    The collaborators (mongoose, the S3 client, multer, the JS runtime) are
    not part of the repository.  They are modelled by explicit state
    passing as far as the handlers rely on them, and everything in them
    that the program cannot decide (clock, random source, network
    failures, string parsing of the runtime) is read from an environment
    record. *)

From Stdlib Require Import ZArith String List Ascii Bool Lia.
From stdpp Require Import base option gmap strings list sorting pretty.

Local Open Scope Z_scope.

(* ===================================================================== *)
(** ** JavaScript values *)
(* ===================================================================== *)

(** The values a request body (parsed JSON) or a handler-built object can
    hold.  Numbers are integers: a body with a fractional number is outside
    the inputs of the model.  [VDate] is a [Date] object, which only the
    handlers create ([new Date()]), never the JSON parser.  A request
    body is a JSON object; its keys are read as field names (see
    [plain_keys] for the keys mongoose reads as paths into a field). *)
#[local] Unset Elimination Schemes.
Inductive jsval :=
| VNull
| VBool (b : bool)
| VNum (n : Z)
| VStr (s : string)
| VDate (t : Z)
| VArr (xs : list jsval)
| VObj (kvs : list (string * jsval)).
#[local] Set Elimination Schemes.

(** A JS object read as a map; an absent key reads as [undefined]. *)
Abbreviation jsobj := (gmap string jsval).

(** Truthiness of [o.k] where the property may be undefined. *)
Definition truthy (v : option jsval) : bool :=
  match v with
  | None => false
  | Some VNull => false
  | Some (VBool b) => b
  | Some (VNum n) => negb (n =? 0)
  | Some (VStr s) => negb (String.eqb s "")
  | Some (VDate _) | Some (VArr _) | Some (VObj _) => true
  end.

(** [a || b] where [a] is a possibly undefined property. *)
Definition js_or (a : option jsval) (b : jsval) : jsval :=
  match a with
  | Some v => if truthy a then v else b
  | None => b
  end.

(** Truthiness of a possibly undefined string (env variables, params). *)
Definition truthy_str (s : option string) : bool :=
  match s with
  | Some s => negb (String.eqb s "")
  | None => false
  end.

(** [a || b] on possibly undefined strings. *)
Definition str_or (a b : option string) : option string :=
  if truthy_str a then a else b.

(** Errors are objects with a [name] and a [message]. *)
Record Error := mkError { ename : string; message : string }.

Definition new_Error (msg : string) : Error := mkError "Error" msg.
Definition TypeError (msg : string) : Error := mkError "TypeError" msg.

(* ===================================================================== *)
(** ** models.js: schemas and exported models *)
(* ===================================================================== *)

Inductive SchemaType := TString | TNumber | TDate | TStringArray | TObjectId.

(** The defaults of a path: [Date.now], the only one in models.js, and
    the two of the paths mongoose adds itself (a fresh ObjectId, zero). *)
Inductive Default := Default_Date_now | Default_ObjectId | Default_zero.

(** One schema path: [{ type, unique, required, default }]. *)
Record SchemaPath := mkPath {
  ptype : SchemaType;
  unique : bool;
  required : bool;
  pdefault : option Default
}.

Definition Schema := list (string * SchemaPath).

Definition plain (t : SchemaType) : SchemaPath := mkPath t false false None.
Definition id_path : SchemaPath := mkPath TString true true None.
Definition required_String : SchemaPath := mkPath TString false true None.
Definition date_path : SchemaPath := mkPath TDate false false (Some Default_Date_now).

Definition fileSchema : Schema :=
  [ ("id", id_path);
    ("title", plain TString);
    ("description", plain TString);
    ("tags", plain TStringArray);
    ("filename", plain TString);
    ("originalname", plain TString);
    ("path", plain TString);
    ("mimetype", plain TString);
    ("size", plain TNumber);
    ("date", date_path) ].

Definition noteSchema : Schema :=
  [ ("id", id_path);
    ("title", required_String);
    ("content", plain TString);
    ("date", date_path) ].

Definition projectSchema : Schema :=
  [ ("id", id_path);
    ("name", required_String);
    ("description", plain TString);
    ("date", date_path) ].

Definition contactSchema : Schema :=
  [ ("id", id_path);
    ("name", required_String);
    ("email", plain TString);
    ("phone", plain TString);
    ("notes", plain TString);
    ("date", date_path) ].

Definition codeSchema : Schema :=
  [ ("id", id_path);
    ("title", required_String);
    ("content", plain TString);
    ("date", date_path) ].

(** A model is a named collection with its schema. *)
Record Model := mkModel { modelName : string; schema : Schema }.

(** The paths mongoose adds to every schema: the primary key [_id], an
    ObjectId generated when undefined (it has a unique index and no
    [required] validator: a client may send [null]), and the version key
    [__v]. *)
Definition oid_path : SchemaPath := mkPath TObjectId true false (Some Default_ObjectId).
Definition version_path : SchemaPath := mkPath TNumber false false (Some Default_zero).

(** [mongoose.model(name, schema)] *)
Definition mongoose_model (name : string) (sch : Schema) : Model :=
  mkModel name (("_id", oid_path) :: sch ++ [("__v", version_path)]).

(** [module.exports] of models.js, in source order. *)
Definition module_exports : list (string * Model) :=
  [ ("File", mongoose_model "File" fileSchema);
    ("Note", mongoose_model "Note" noteSchema);
    ("Project", mongoose_model "Project" projectSchema);
    ("Contact", mongoose_model "Contact" contactSchema);
    ("PythonCode", mongoose_model "PythonCode" codeSchema);
    ("JavascriptCode", mongoose_model "JavascriptCode" codeSchema);
    ("HtmlCode", mongoose_model "HtmlCode" codeSchema);
    ("CssCode", mongoose_model "CssCode" codeSchema);
    ("OtherCode", mongoose_model "OtherCode" codeSchema) ].

(** Property lookup in an object literal given as a list of entries. *)
Fixpoint assoc {A} (k : string) (l : list (string * A)) : option A :=
  match l with
  | [] => None
  | (k', v) :: l' => if String.eqb k k' then Some v else assoc k l'
  end.

(** [const { File, Note, ..., Activity } = require('./models')]: each name
    is bound to the export of that name, or to [undefined]. *)
Definition import (name : string) : option Model := assoc name module_exports.

Definition File : option Model := import "File".
Definition Note : option Model := import "Note".
Definition Project : option Model := import "Project".
Definition Contact : option Model := import "Contact".
Definition PythonCode : option Model := import "PythonCode".
Definition JavascriptCode : option Model := import "JavascriptCode".
Definition HtmlCode : option Model := import "HtmlCode".
Definition CssCode : option Model := import "CssCode".
Definition OtherCode : option Model := import "OtherCode".
Definition Activity : option Model := import "Activity".

(* ===================================================================== *)
(** ** Stored documents and schema casting (mongoose) *)
(* ===================================================================== *)

(** What a path of a stored document holds once it went through its
    schema type. *)
Inductive fval :=
| FNull
| FStr (s : string)
| FNum (n : Z)
| FDate (t : Z)
| FStrs (xs : list (option string))
| FObjectId (hex : string).

Global Instance fval_eq_dec : EqDecision fval.
Proof. solve_decision. Defined.

(** A document: its schema paths, [_id] and [__v] among them. *)
Abbreviation Doc := (gmap string fval).

(** The part of the JS runtime and of the driver that casting relies on
    and that the model does not compute: [Number(s)] on a string ([None]
    for [NaN]), [new Date(v)] on a non-number ([None] for an invalid
    date), [date.toString()], [new ObjectId(v)] ([None] when the value
    is no ObjectId), and [n.toString()] on a number beyond the safe
    integers. *)
Record Runtime := mkRuntime {
  Number_of_string : string -> option Z;
  new_Date : jsval -> option Z;
  Date_toString : Z -> string;
  ObjectId_of : jsval -> option string;
  Number_toString : Z -> string
}.

(** [Number.MAX_SAFE_INTEGER] *)
Definition MAX_SAFE_INTEGER : Z := 9007199254740991.

(** [String(n)] on an integer: its decimal digits for a safe integer;
    beyond, the runtime prints the shortest digits that read back as the
    same double, in exponent form from 1e21. *)
Definition String_of_number (rt : Runtime) (n : Z) : string :=
  if Z.abs n <=? MAX_SAFE_INTEGER then pretty n else Number_toString rt n.

(** The largest time value of a valid [Date]. *)
Definition max_time : Z := 8640000000000000.

Definition valid_time (t : Z) : bool := (- max_time <=? t) && (t <=? max_time).

(** mongoose [castString]: [null] stays, strings, numbers, booleans and
    dates go through [toString()], an object with a string [_id] casts to
    it, arrays and other objects are cast errors ([None]). *)
Definition castString (rt : Runtime) (v : jsval) : option fval :=
  match v with
  | VNull => Some FNull
  | VStr s => Some (FStr s)
  | VNum n => Some (FStr (String_of_number rt n))
  | VBool b => Some (FStr (if b then "true" else "false"))
  | VDate t => Some (FStr (Date_toString rt t))
  | VArr _ => None
  | VObj kvs =>
      match assoc "_id" kvs with
      | Some (VStr s) => if String.eqb s "" then None else Some (FStr s)
      | _ => None
      end
  end.

(** mongoose [castNumber]. *)
Definition castNumber (rt : Runtime) (v : jsval) : option fval :=
  match v with
  | VNull => Some FNull
  | VStr s => if String.eqb s "" then Some FNull
              else FNum <$> Number_of_string rt s
  | VBool b => Some (FNum (if b then 1 else 0))
  | VNum n => Some (FNum n)
  | VDate t => Some (FNum t)
  | VArr _ | VObj _ => None
  end.

(** [new Date(n)] on a number: valid inside the time range only. *)
Definition Date_of_number (n : Z) : option fval :=
  if valid_time n then Some (FDate n) else None.

(** mongoose [castDate]: [null] and the empty string give [null], booleans
    fail, numbers are milliseconds, a numeric string outside the year
    range is read as milliseconds, everything else goes through
    [new Date(v)]. *)
Definition castDate (rt : Runtime) (v : jsval) : option fval :=
  match v with
  | VNull => Some FNull
  | VBool _ => None
  | VDate t => Some (FDate t)
  | VNum n => Date_of_number n
  | VStr s =>
      if String.eqb s "" then Some FNull
      else match Number_of_string rt s with
           | Some n =>
               if (275761 <=? n) || (n <? -271820) then Date_of_number n
               else FDate <$> new_Date rt v
           | None => FDate <$> new_Date rt v
           end
  | VArr _ | VObj _ => FDate <$> new_Date rt v
  end.

(** One element of a [[String]] path. *)
Definition castElement (rt : Runtime) (v : jsval) : option (option string) :=
  match castString rt v with
  | Some (FStr s) => Some (Some s)
  | Some FNull => Some None
  | _ => None
  end.

(** A [[String]] path: an array is cast element by element, a single value
    is wrapped into an array. *)
Definition castStringArray (rt : Runtime) (v : jsval) : option fval :=
  match v with
  | VNull => Some FNull
  | VArr xs => FStrs <$> mapM (castElement rt) xs
  | _ => (fun e => FStrs [e]) <$> castElement rt v
  end.

(** mongoose [castObjectId]: [null] stays, the rest is left to the
    driver. *)
Definition castObjectId (rt : Runtime) (v : jsval) : option fval :=
  match v with
  | VNull => Some FNull
  | _ => FObjectId <$> ObjectId_of rt v
  end.

Definition castPath (rt : Runtime) (t : SchemaType) (v : jsval) : option fval :=
  match t with
  | TString => castString rt v
  | TNumber => castNumber rt v
  | TDate => castDate rt v
  | TStringArray => castStringArray rt v
  | TObjectId => castObjectId rt v
  end.

(** The default of a path whose value is undefined: the one the schema
    names ([now] is [Date.now()], [oid] a fresh ObjectId), the empty array
    for an array path, nothing otherwise. *)
Definition apply_default (now : Z) (oid : string) (p : string) (sp : SchemaPath) (d : Doc)
  : Doc :=
  match pdefault sp with
  | Some Default_Date_now => <[p := FDate now]> d
  | Some Default_ObjectId => <[p := FObjectId oid]> d
  | Some Default_zero => <[p := FNum 0]> d
  | None =>
      match ptype sp with
      | TStringArray => <[p := FStrs []]> d
      | _ => d
      end
  end.

(** [new Model(obj)]: strict mode keeps the schema paths only; each given
    value is cast, each undefined path takes its default.  [None] when a
    value does not cast.  The keys of the object are read as field names:
    what mongoose does with a key that is a dotted path into a field
    (see [plain_keys]) is not modelled. *)
Fixpoint cast_doc (rt : Runtime) (now : Z) (oid : string) (sch : Schema) (obj : jsobj)
  : option Doc :=
  match sch with
  | [] => Some ∅
  | (p, sp) :: rest =>
      match cast_doc rt now oid rest obj with
      | None => None
      | Some d =>
          match obj !! p with
          | Some v =>
              match castPath rt (ptype sp) v with
              | Some fv => Some (<[p := fv]> d)
              | None => None
              end
          | None => Some (apply_default now oid p sp d)
          end
      end
  end.

(** The [required] validator: a value, and for a string a non-empty
    one. *)
Definition checkRequired (v : option fval) : bool :=
  match v with
  | Some (FStr s) => negb (String.eqb s "")
  | Some (FNum _) | Some (FDate _) | Some (FStrs _) | Some (FObjectId _) => true
  | Some FNull | None => false
  end.

Definition validate (sch : Schema) (d : Doc) : bool :=
  forallb (fun '(p, sp) => implb (required sp) (checkRequired (d !! p))) sch.

(** The key of a document in the index of a path: a missing field is
    indexed as [null]. *)
Definition index_key (d : Doc) (p : string) : fval := default FNull (d !! p).

(** The unique indexes: a document clashes with a stored one when they
    agree on a unique path. *)
Definition clashes (sch : Schema) (d d' : Doc) : bool :=
  existsb (fun '(p, sp) => unique sp && bool_decide (index_key d p = index_key d' p)) sch.

Definition duplicate_key (sch : Schema) (d : Doc) (c : list Doc) : bool :=
  existsb (clashes sch d) c.

(** The filter [{ id: id }]. *)
Definition has_id (id : string) (d : Doc) : bool :=
  bool_decide (d !! "id" = Some (FStr id)).

(** [sort({ date: -1 })]: dates descending; a document whose date is null
    or missing sorts after every dated one. *)
Definition date_key (d : Doc) : option Z :=
  match d !! "date" with
  | Some (FDate t) => Some t
  | _ => None
  end.

Definition newer_or_equal (a b : Doc) : Prop :=
  match date_key a, date_key b with
  | _, None => True
  | None, Some _ => False
  | Some x, Some y => y <= x
  end.

Global Instance newer_or_equal_dec a b : Decision (newer_or_equal a b).
Proof.
  unfold newer_or_equal.
  destruct (date_key a), (date_key b); try apply _.
Defined.

Definition sort_date_desc (c : list Doc) : list Doc := merge_sort newer_or_equal c.

(* ===================================================================== *)
(** ** The world around the server *)
(* ===================================================================== *)

(** [process.env], read once at startup. *)
Record ProcessEnv := mkProcessEnv {
  MONGODB_URI : option string;
  AWS_ACCESS_KEY_ID : option string;
  AWS_SECRET_ACCESS_KEY : option string;
  AWS_REGION : option string;
  S3_BUCKET_NAME : option string
}.

(** What one request finds outside the program: the clock when the
    handler (or mongoose, for a default) reads it, the ObjectId the driver
    generates, the random source ([Math_random k] is the k-th value of
    [Math.random() * 16 | 0]), the state of the database connection and
    the outcome of the network calls it will make ([None]: the call
    succeeds).  Once connected, the database itself fails a call only for
    the reasons modelled below (validation, cast, duplicate key).

    For an upload: the clock when multer-s3 names the key, which is read
    before the handler runs; whether the installed multer refuses a part
    of exactly the size limit (its versions differ on this); and the
    [Location] S3 reports for an object, given the region of the client,
    the bucket and the key. *)
Record Env := mkEnv {
  runtime : Runtime;
  Date_now : Z;
  new_ObjectId : string;
  Math_random : nat -> Z;
  readyState : Z;
  connect_failure : option Error;
  deleteObject_failure : option Error;
  upload_failure : option Error;
  disk_filename : string;
  key_Date_now : Z;
  refuses_at_limit : bool;
  S3_Location : string -> string -> string -> string
}.

(** The calls that leave the process, in the order they are issued. *)
Inductive Event :=
| MongooseConnect
| DbFind (model : string)
| DbFindOne (model id : string)
| DbCreate (model : string)
| DbFindOneAndUpdate (model id : string)
| DbDeleteOne (model id : string)
| DbDeleteMany (model : string)
| S3Upload (key : string)
| S3DeleteObject (key : option fval)
| S3GetSignedUrl (key : option fval)
| DiskWrite (name : string)
| ConsoleLog (msg : string)
| ConsoleError (tag : string) (e : Error).

(** The mutable state: the module variable [cachedDb], the collections of
    the database by model name, the keys of the S3 bucket, the files of the
    scratch directory, and the trace of calls. *)
Record State := mkState {
  cachedDb : bool;
  db : gmap string (list Doc);
  bucket : gset string;
  tmp : list string;
  trace : list Event
}.

Definition collection (st : State) (m : Model) : list Doc :=
  db st !!! modelName m.

Arguments collection : simpl never.

Definition set_cachedDb (b : bool) (st : State) : State :=
  mkState b (db st) (bucket st) (tmp st) (trace st).

Definition set_collection (m : Model) (c : list Doc) (st : State) : State :=
  mkState (cachedDb st) (<[modelName m := c]> (db st)) (bucket st) (tmp st) (trace st).

Definition set_bucket (b : gset string) (st : State) : State :=
  mkState (cachedDb st) (db st) b (tmp st) (trace st).

Definition add_tmp (name : string) (st : State) : State :=
  mkState (cachedDb st) (db st) (bucket st) (tmp st ++ [name]) (trace st).

Definition emit (e : Event) (st : State) : State :=
  mkState (cachedDb st) (db st) (bucket st) (tmp st) (trace st ++ [e]).

(** *** Async code: state passing with exceptions *)

Inductive Result (A : Type) :=
| Ok (a : A)
| Throw (e : Error).
Arguments Ok {A} a.
Arguments Throw {A} e.

Definition M (A : Type) : Type := State -> Result A * State.

Definition ret {A} (a : A) : M A := fun st => (Ok a, st).

Definition throw {A} (e : Error) : M A := fun st => (Throw e, st).

Definition bind {A B} (m : M A) (k : A -> M B) : M B :=
  fun st =>
    match m st with
    | (Ok a, st') => k a st'
    | (Throw e, st') => (Throw e, st')
    end.

Definition effect (f : State -> State) : M unit := fun st => (Ok tt, f st).

Definition read {A} (f : State -> A) : M A := fun st => (Ok (f st), st).

Declare Scope async_scope.
Delimit Scope async_scope with async.
Notation "'let*' x ':=' m 'in' k" := (bind m (fun x => k))
  (at level 10, x name, m at level 200, k at level 200) : async_scope.
Notation "m >> k" := (bind m (fun _ => k))
  (at level 100, k at level 200, right associativity) : async_scope.
Local Open Scope async_scope.

(* ===================================================================== *)
(** ** The document store (mongoose model methods) *)
(* ===================================================================== *)

Section Mongoose.
Variable env : Env.

Definition ValidationError (m : Model) : Error :=
  mkError "ValidationError" (modelName m +:+ " validation failed").

Definition CastError (m : Model) : Error :=
  mkError "CastError" ("Cast failed for model " +:+ modelName m).

Definition DuplicateKeyError (m : Model) : Error :=
  mkError "MongoServerError" ("E11000 duplicate key error collection: " +:+ modelName m).

(** [Model.find().sort({ date: -1 })] *)
Definition find_sorted (m : Model) : M (list Doc) :=
  effect (emit (DbFind (modelName m))) >>
  read (fun st => sort_date_desc (collection st m)).

(** [Model.find().sort({ date: -1 }).limit(n)] *)
Definition find_sorted_limit (m : Model) (n : nat) : M (list Doc) :=
  effect (emit (DbFind (modelName m))) >>
  read (fun st => take n (sort_date_desc (collection st m))).

(** [Model.findOne({ id })]: the first match or [null]. *)
Definition findOne (m : Model) (id : string) : M (option Doc) :=
  effect (emit (DbFindOne (modelName m) id)) >>
  read (fun st => List.find (has_id id) (collection st m)).

(** On insert mongoose sets the version key to 0, whatever the client
    sent for it. *)
Definition versioned (sch : Schema) (d : Doc) : Doc :=
  if bool_decide ("__v" ∈ sch.*1) then <["__v" := FNum 0]> d else d.

(** [Model.create(obj)]: cast and default, validate, then insert, with
    the version key reset, under the unique indexes.  A rejected create
    stores nothing.  The document is stored as mongoose built it: what
    the driver does with a primary key that the body set to [null] is
    not modelled. *)
Definition create (m : Model) (obj : jsobj) : M Doc :=
  match cast_doc (runtime env) (Date_now env) (new_ObjectId env) (schema m) obj with
  | None => throw (ValidationError m)
  | Some d0 =>
      if negb (validate (schema m) d0) then throw (ValidationError m)
      else
        let d := versioned (schema m) d0 in
        effect (emit (DbCreate (modelName m))) >>
        let* c := read (fun st => collection st m) in
        if duplicate_key (schema m) d c then throw (DuplicateKeyError m)
        else effect (set_collection m (c ++ [d])) >> ret d
  end.

(** The first document that satisfies [f], removed. *)
Fixpoint remove_first (f : Doc -> bool) (c : list Doc) : list Doc :=
  match c with
  | [] => []
  | d :: c' => if f d then c' else d :: remove_first f c'
  end.

(** [Model.deleteOne({ id })] *)
Definition deleteOne (m : Model) (id : string) : M unit :=
  effect (emit (DbDeleteOne (modelName m) id)) >>
  let* c := read (fun st => collection st m) in
  effect (set_collection m (remove_first (has_id id) c)).

(** [Model.deleteMany({})] *)
Definition deleteMany (m : Model) : M unit :=
  effect (emit (DbDeleteMany (modelName m))) >>
  effect (set_collection m []).

(** The update document [{ $set: obj }] cast against the schema: paths
    outside the schema are dropped, the others are cast; no default and
    no validator runs on an update.  As for [cast_doc], the keys of the
    object are read as field names. *)
Fixpoint cast_update (sch : Schema) (obj : jsobj) : option Doc :=
  match sch with
  | [] => Some ∅
  | (p, sp) :: rest =>
      match cast_update rest obj with
      | None => None
      | Some u =>
          match obj !! p with
          | Some v =>
              match castPath (runtime env) (ptype sp) v with
              | Some fv => Some (<[p := fv]> u)
              | None => None
              end
          | None => Some u
          end
      end
  end.

(** The schema paths an update writes: only they are checked against the
    unique indexes. *)
Definition written (u : Doc) (sch : Schema) : Schema :=
  List.filter (fun '(p, _) => bool_decide (is_Some (u !! p))) sch.

(** The primary key cannot change: an update that sets [_id] to another
    value is refused by the server. *)
Definition changes_oid (u d : Doc) : bool :=
  match u !! "_id" with
  | Some v => negb (bool_decide (d !! "_id" = Some v))
  | None => false
  end.

Definition ImmutableFieldError : Error :=
  mkError "MongoServerError"
    "Performing an update on the path '_id' would modify the immutable field '_id'".

(** The first document that satisfies [f], replaced. *)
Fixpoint replace_first (f : Doc -> bool) (d' : Doc) (c : list Doc) : list Doc :=
  match c with
  | [] => []
  | d :: c' => if f d then d' :: c' else d :: replace_first f d' c'
  end.

(** [Model.findOneAndUpdate({ id }, { $set: obj }, { new: true })]: the
    update is cast first; without a match the result is [null] and
    nothing is written; with one, the given paths overwrite the
    document's, unless [_id] would change or a unique index is violated,
    and the new document is returned. *)
Definition findOneAndUpdate (m : Model) (id : string) (obj : jsobj) : M (option Doc) :=
  match cast_update (schema m) obj with
  | None => throw (CastError m)
  | Some u =>
      effect (emit (DbFindOneAndUpdate (modelName m) id)) >>
      let* c := read (fun st => collection st m) in
      match List.find (has_id id) c with
      | None => ret None
      | Some d =>
          let d' := u ∪ d in
          if changes_oid u d then throw ImmutableFieldError
          else if duplicate_key (written u (schema m)) d' (remove_first (has_id id) c)
          then throw (DuplicateKeyError m)
          else effect (set_collection m (replace_first (has_id id) d' c)) >>
               ret (Some d')
      end
  end.
End Mongoose.

(* ===================================================================== *)
(** ** Requests and responses (Express) *)
(* ===================================================================== *)

Inductive Method := GET | POST | PUT | DELETE.

Global Instance Method_eq_dec : EqDecision Method.
Proof. solve_decision. Defined.

(** The multipart part named [file]. *)
Record FilePart := mkFilePart {
  part_originalname : string;
  part_mimetype : string;
  part_size : Z
}.

(** [req.file] as multer leaves it: [location] and [key] are set by the S3
    storage only, the disk storage sets neither. *)
Record MulterFile := mkMulterFile {
  originalname : string;
  mimetype : string;
  f_size : Z;
  location : option string;
  key : option string
}.

(** A request: the method, the decoded path segments, the parsed body
    (JSON, or the text fields of a multipart form), the uploaded part if
    any, and [req.file], undefined until multer sets it. *)
Record Request := mkRequest {
  method : Method;
  path : list string;
  body : jsobj;
  file_part : option FilePart;
  file : option MulterFile
}.

Definition set_file (f : MulterFile) (req : Request) : Request :=
  mkRequest (method req) (path req) (body req) (file_part req) (Some f).

(** [req.params] of the routes of this server. *)
Record Params := mkParams {
  p_type : option string;
  p_subtype : option string;
  p_id : option string
}.

(** The client built by [new AWS.S3({...})]; [signatureVersion] is
    undefined unless the configuration names one. *)
Record S3Client := mkS3Client {
  accessKeyId : string;
  secretAccessKey : option string;
  region : string;
  signatureVersion : option string
}.

(** A signed URL: the client that signs (its region and signature
    version shape the URL) and the arguments of [s3.getSignedUrl]. *)
Record SignedUrl := mkSignedUrl {
  signer : S3Client;
  operation : string;
  Bucket : option string;
  Key : string;
  Expires : Z
}.

Inductive Body :=
| Json_list (items : list Doc)
| Json_doc (d : Doc)
| Json_null
| Json_error (error : string)
| No_body
| Location (url : SignedUrl)
| Html (text : string).

Record Response := mkResponse { status : Z; rbody : Body }.

(** [res.json(x)] with the default status, [res.status(n).json(x)],
    [res.status(n).send()] and [res.redirect(url)]. *)
Definition json (b : Body) : Response := mkResponse 200 b.
Definition status_json (n : Z) (b : Body) : Response := mkResponse n b.
Definition status_send (n : Z) : Response := mkResponse n No_body.
Definition redirect (url : SignedUrl) : Response := mkResponse 302 (Location url).

(** A handler either answers or calls [next], with an error or without. *)
Inductive Outcome :=
| Respond (r : Response)
| Next (err : option Error) (req : Request).

(** Express compares the fixed parts of a route without regard to case. *)
Definition toLowerCase_ascii (c : ascii) : ascii :=
  let n := nat_of_ascii c in
  if Nat.leb 65 n && Nat.leb n 90 then ascii_of_nat (n + 32) else c.

Fixpoint toLowerCase (s : string) : string :=
  match s with
  | EmptyString => EmptyString
  | String c s' => String (toLowerCase_ascii c) (toLowerCase s')
  end.

Definition lit (l : string) (seg : string) : bool := String.eqb (toLowerCase seg) l.

(** A named segment [:x] matches one or more characters. *)
Definition named (seg : string) : bool := negb (String.eqb seg "").

Definition no_params : Params := mkParams None None None.

(** ['/api/activity'] *)
Definition match_activity (p : list string) : option Params :=
  match p with
  | [a; b] => if lit "api" a && lit "activity" b then Some no_params else None
  | _ => None
  end.

(** [['/api/:type', '/api/codes/:subtype']] *)
Definition match_type (p : list string) : option Params :=
  match p with
  | [a; t] =>
      if lit "api" a && named t then Some (mkParams (Some t) None None) else None
  | [a; c; st] =>
      if lit "api" a && lit "codes" c && named st
      then Some (mkParams None (Some st) None) else None
  | _ => None
  end.

(** ['/api/files/upload'] *)
Definition match_upload (p : list string) : option Params :=
  match p with
  | [a; f; u] =>
      if lit "api" a && lit "files" f && lit "upload" u then Some no_params else None
  | _ => None
  end.

(** ['/api/files/download/:id'] *)
Definition match_download (p : list string) : option Params :=
  match p with
  | [a; f; d; i] =>
      if lit "api" a && lit "files" f && lit "download" d && named i
      then Some (mkParams None None (Some i)) else None
  | _ => None
  end.

(** [['/api/:type/:id', '/api/codes/:subtype/:id']] *)
Definition match_type_id (p : list string) : option Params :=
  match p with
  | [a; t; i] =>
      if lit "api" a && named t && named i
      then Some (mkParams (Some t) None (Some i)) else None
  | [a; c; st; i] =>
      if lit "api" a && lit "codes" c && named st && named i
      then Some (mkParams None (Some st) (Some i)) else None
  | _ => None
  end.

(** [req.path] *)
Definition path_string (p : list string) : string :=
  fold_right (fun seg acc => "/" +:+ seg +:+ acc) "" p.

(** [s.includes(sub)] *)
Definition includes (s sub : string) : bool :=
  match String.index 0 sub s with
  | Some _ => true
  | None => false
  end.

(** A string read where JS expects one; [undefined] prints as such. *)
Definition String_of (s : option string) : string := default "undefined" s.

(* ===================================================================== *)
(** ** The server *)
(* ===================================================================== *)

(** *** Helper: [generateId] *)

Definition id_template : string := "xxxxxxxx-xxxx-4xxx-yxxx-xxxxxxxxxxxx".

(** [v.toString(16)] for one hexadecimal digit. *)
Definition toString16 (v : Z) : ascii :=
  nth (Z.to_nat v) (list_ascii_of_string "0123456789abcdef") "0"%char.

(** The callback of [replace(/[xy]/g, ...)], applied to the characters of
    the template from left to right; [k] counts the draws made so far.
    [Math.random() * 16 | 0] is an integer of 0..15: the draw of the
    environment is reduced to that range. *)
Fixpoint replace_xy (random : nat -> Z) (k : nat) (s : string) : string :=
  match s with
  | EmptyString => EmptyString
  | String c s' =>
      if Ascii.eqb c "x" || Ascii.eqb c "y" then
        let r := random k mod 16 in
        let v := if Ascii.eqb c "x" then r else Z.lor (Z.land r 3) 8 in
        String (toString16 v) (replace_xy random (S k) s')
      else String c (replace_xy random k s')
  end.

Definition generateId (env : Env) : string :=
  replace_xy (Math_random env) 0 id_template.

(** *** [modelMap] and [getModel] *)

Definition modelMap : list (string * option Model) :=
  [ ("files", File); ("notes", Note); ("projects", Project); ("contacts", Contact);
    ("pythonCodes", PythonCode); ("javascriptCodes", JavascriptCode);
    ("htmlCodes", HtmlCode); ("cssCodes", CssCode); ("otherCodes", OtherCode) ].

(** The properties every object literal inherits from [Object.prototype]. *)
Definition Object_prototype : list string :=
  [ "constructor"; "__proto__"; "hasOwnProperty"; "isPrototypeOf";
    "propertyIsEnumerable"; "toLocaleString"; "toString"; "valueOf";
    "__defineGetter__"; "__defineSetter__"; "__lookupGetter__"; "__lookupSetter__" ].

(** What [modelMap[k]] evaluates to: [undefined], one of the models, or a
    member of [Object.prototype] (a function or object: truthy, and not a
    model). *)
Inductive Lookup :=
| Undefined
| AModel (m : Model)
| Inherited (name : string).

Definition get_property (o : list (string * option Model)) (k : string) : Lookup :=
  match assoc k o with
  | Some (Some m) => AModel m
  | Some None => Undefined
  | None => if existsb (String.eqb k) Object_prototype then Inherited k else Undefined
  end.

Definition getModel (type : string) : Lookup :=
  if existsb (String.eqb type) ["python"; "javascript"; "html"; "css"; "other"]
  then get_property modelMap (type +:+ "Codes")
  else get_property modelMap type.

Section Server.
Variable pe : ProcessEnv.
Variable env : Env.

(** *** 1. Database connection *)

Definition DB_URI : option string := MONGODB_URI pe.

Definition connectToDatabase : M unit :=
  fun st =>
    if cachedDb st && (readyState env =? 1) then (Ok tt, st)
    else if negb (truthy_str DB_URI)
    then (Throw (new_Error "MONGODB_URI is missing in Environment Variables"), st)
    else
      match connect_failure env with
      | None =>
          (Ok tt, emit (ConsoleLog "Connected to MongoDB Atlas")
                    (set_cachedDb true (emit MongooseConnect st)))
      | Some err =>
          (Throw err, emit (ConsoleError "MongoDB connection error:" err)
                        (emit MongooseConnect st))
      end.

(** *** 2. AWS S3 configuration *)

Definition s3 : option S3Client :=
  match AWS_ACCESS_KEY_ID pe with
  | Some k =>
      if truthy_str (AWS_ACCESS_KEY_ID pe) && truthy_str (S3_BUCKET_NAME pe)
      then Some (mkS3Client k (AWS_SECRET_ACCESS_KEY pe)
                   (String_of (str_or (AWS_REGION pe) (Some "ap-south-2"))) (Some "v4"))
      else None
  | None => None
  end.

(** A key the S3 client accepts: a non-empty string. *)
Definition valid_key (k : option fval) : option string :=
  match k with
  | Some (FStr s) => if String.eqb s "" then None else Some s
  | _ => None
  end.

Definition ParamError : Error :=
  mkError "InvalidParameter" "Missing or invalid required key 'Key' in params".

(** [s3.deleteObject({ Bucket, Key }).promise()]: the parameters are
    checked, then the request is sent; deleting an absent key succeeds. *)
Definition s3_deleteObject (k : option fval) : M unit :=
  match valid_key k with
  | None => throw ParamError
  | Some s =>
      effect (emit (S3DeleteObject k)) >>
      match deleteObject_failure env with
      | Some err => throw err
      | None => effect (fun st => set_bucket (bucket st ∖ {[s]}) st)
      end
  end.

(** [s3.getSignedUrl('getObject', { Bucket, Key, Expires })]: computed
    locally by the client from its configuration. *)
Definition s3_getSignedUrl (client : S3Client) (op : string) (k : option fval) (expires : Z)
  : M SignedUrl :=
  match valid_key k with
  | None => throw ParamError
  | Some s =>
      effect (emit (S3GetSignedUrl k)) >>
      ret (mkSignedUrl client op (S3_BUCKET_NAME pe) s expires)
  end.

Definition fileSize_limit : Z := 50 * 1024 * 1024.

Definition MulterError (msg : string) : Error := mkError "MulterError" msg.

(** Whether multer refuses a part of this size: over the limit always,
    at the limit depending on the installed version. *)
Definition over_limit (size : Z) : bool :=
  (fileSize_limit <? size) || ((size =? fileSize_limit) && refuses_at_limit env).

(** The key callback of the storage:
    ['uploads/' + Date.now() + '-' + file.originalname]. *)
Definition storage_key (part : FilePart) : string :=
  "uploads/" +:+ String_of_number (runtime env) (key_Date_now env) +:+ "-"
  +:+ part_originalname part.

(** What multer-s3 does with a part that multer refuses for its size: the
    truncated part has been stored by then, and multer has the storage
    remove it again before it reports the error. *)
Definition store_and_remove (k : string) : M unit :=
  effect (emit (S3Upload k)) >>
  effect (fun st => set_bucket ({[k]} ∪ bucket st) st) >>
  effect (emit (S3DeleteObject (Some (FStr k)))) >>
  match deleteObject_failure env with
  | Some _ => ret tt
  | None => effect (fun st => set_bucket (bucket st ∖ {[k]}) st)
  end.

(** [upload.single('file')] of a multer built on the client [client] (or
    on the disk storage without one): with S3 configured the part is
    stored in the bucket under the key of the callback, up to the size
    limit, and [req.file] carries the key and the location S3 reports;
    otherwise the part is written to [/tmp/].  Without a part [req.file]
    stays undefined. *)
Definition single (client : option S3Client) (req : Request) : M Request :=
  match upload_failure env with
  | Some err => throw err
  | None =>
      match file_part req with
      | None => ret req
      | Some part =>
          match client with
          | Some client =>
              let k := storage_key part in
              if over_limit (part_size part)
              then store_and_remove k >> throw (MulterError "File too large")
              else
                let loc := S3_Location env (region client)
                             (String_of (S3_BUCKET_NAME pe)) k in
                effect (emit (S3Upload k)) >>
                effect (fun st => set_bucket ({[k]} ∪ bucket st) st) >>
                ret (set_file (mkMulterFile (part_originalname part) (part_mimetype part)
                                 (part_size part) (Some loc) (Some k)) req)
          | None =>
              effect (emit (DiskWrite (disk_filename env))) >>
              effect (add_tmp (disk_filename env)) >>
              ret (set_file (mkMulterFile (part_originalname part) (part_mimetype part)
                               (part_size part) None None) req)
          end
      end
  end.

(** [const uploadMiddleware = upload.single('file');] *)
Definition uploadMiddleware : Request -> M Request := single s3.

(** *** Handlers *)

(** [try { ... } catch (err) { next(err); }] around an async body. *)
Definition try_next (m : M Response) (req : Request) (st : State) : Outcome * State :=
  match m st with
  | (Ok r, st') => (Respond r, st')
  | (Throw e, st') => (Next (Some e) req, st')
  end.

(** [req.params.subtype || req.params.type] *)
Definition type_of (p : Params) : string := String_of (str_or (p_subtype p) (p_type p)).

(** An object literal whose values may be undefined. *)
Fixpoint object (l : list (string * option jsval)) : jsobj :=
  match l with
  | [] => ∅
  | (k, Some v) :: l' => <[k := v]> (object l')
  | (_, None) :: l' => object l'
  end.

(** A method call on an import that may be undefined. *)
Definition the_model (m : option Model) (meth : string) : M Model :=
  match m with
  | Some m => ret m
  | None => throw (TypeError ("Cannot read properties of undefined (reading '"
                              +:+ meth +:+ "')"))
  end.

Definition not_a_function (meth : string) : Error :=
  TypeError ("Model." +:+ meth +:+ " is not a function").

(** [GET /api/activity], over the binding [A] of the import [Activity]. *)
Definition get_activity (A : option Model) (p : Params) (req : Request)
  : State -> Outcome * State :=
  try_next
    (connectToDatabase >>
     match A with
     | None => throw (new_Error "Activity Model is not defined. Check models.js exports.")
     | Some act =>
         let* activities := find_sorted_limit act 20 in
         ret (json (Json_list activities))
     end) req.

(** [POST /api/activity] *)
Definition post_activity (A : option Model) (p : Params) (req : Request)
  : State -> Outcome * State :=
  try_next
    (connectToDatabase >>
     match A with
     | None => throw (new_Error "Activity Model is not defined. Check models.js exports.")
     | Some act =>
         let newActivity :=
           object [ ("id", Some (VStr (generateId env)));
                    ("action", body req !! "action");
                    ("itemType", body req !! "itemType");
                    ("itemName", body req !! "itemName");
                    ("date", Some (VDate (Date_now env))) ] in
         let* saved := create env act newActivity in
         ret (status_json 201 (Json_doc saved))
     end) req.

(** [DELETE /api/activity] *)
Definition delete_activity (A : option Model) (p : Params) (req : Request)
  : State -> Outcome * State :=
  try_next
    (connectToDatabase >>
     match A with
     | None => throw (new_Error "Activity Model is not defined.")
     | Some act => deleteMany act >> ret (status_send 204)
     end) req.

(** [GET /api/:type], [GET /api/codes/:subtype] *)
Definition get_items (p : Params) (req : Request) : State -> Outcome * State :=
  try_next
    (connectToDatabase >>
     let type := type_of p in
     match getModel type with
     | Undefined => ret (status_json 404 (Json_error ("Invalid type: " +:+ type)))
     | Inherited _ => throw (not_a_function "find")
     | AModel m =>
         let* items := find_sorted m in
         ret (json (Json_list items))
     end) req.

(** [POST /api/:type], [POST /api/codes/:subtype].  On the inherited
    [constructor], [Model.create] is [Object.create]: it returns a fresh
    object without own properties and stores nothing. *)
Definition post_item (p : Params) (req : Request) : State -> Outcome * State :=
  if bool_decide (p_type p = Some "files") && includes (path_string (path req)) "upload"
  then fun st => (Next None req, st)
  else
    try_next
      (connectToDatabase >>
       let type := type_of p in
       match getModel type with
       | Undefined => ret (status_json 404 (Json_error ("Invalid type: " +:+ type)))
       | Inherited name =>
           if String.eqb name "constructor" then ret (status_json 201 (Json_doc ∅))
           else throw (not_a_function "create")
       | AModel m =>
           let newItemData :=
             <["id" := js_or (body req !! "id") (VStr (generateId env))]> (body req) in
           let* savedItem := create env m newItemData in
           ret (status_json 201 (Json_doc savedItem))
       end) req.

(** [POST /api/files/upload], first handler: the multer wrapper. *)
Definition upload_wrapper (p : Params) (req : Request) : State -> Outcome * State :=
  fun st =>
    match uploadMiddleware req st with
    | (Ok req', st') => (Next None req', st')
    | (Throw err, st') => (Next (Some err) req, st')
    end.

(** [req.body.title || req.file.originalname] and the like. *)
Definition upload_entry (req : Request) (f : MulterFile) : jsobj :=
  object [ ("id", Some (VStr (generateId env)));
           ("title", Some (js_or (body req !! "title") (VStr (originalname f))));
           ("description", Some (js_or (body req !! "description") (VStr "")));
           ("path", VStr <$> location f);
           ("filename", VStr <$> key f);
           ("originalname", Some (VStr (originalname f)));
           ("mimetype", Some (VStr (mimetype f)));
           ("size", Some (VNum (f_size f)));
           ("date", Some (VDate (Date_now env))) ].

(** [POST /api/files/upload], second handler. *)
Definition upload_file (p : Params) (req : Request) : State -> Outcome * State :=
  try_next
    (connectToDatabase >>
     match s3 with
     | None => throw (new_Error "AWS S3 not configured. Check environment variables.")
     | Some _ =>
         match file req with
         | None => throw (new_Error "No file uploaded.")
         | Some f =>
             let fileEntry := upload_entry req f in
             let* F := the_model File "create" in
             let* savedFile := create env F fileEntry in
             ret (status_json 201 (Json_doc savedFile))
         end
     end) req.

(** [GET /api/files/download/:id] *)
Definition download_file (p : Params) (req : Request) : State -> Outcome * State :=
  try_next
    (connectToDatabase >>
     match s3 with
     | None => throw (new_Error "AWS S3 not configured")
     | Some client =>
         let* F := the_model File "findOne" in
         let* fileEntry := findOne F (String_of (p_id p)) in
         match fileEntry with
         | None => ret (status_json 404 (Json_error "File not found"))
         | Some fileEntry =>
             let* url := s3_getSignedUrl client "getObject" (fileEntry !! "filename") 60 in
             ret (redirect url)
         end
     end) req.

(** [DELETE /api/:type/:id], [DELETE /api/codes/:subtype/:id] *)
Definition delete_item (p : Params) (req : Request) : State -> Outcome * State :=
  try_next
    (connectToDatabase >>
     let type := type_of p in
     let id := String_of (p_id p) in
     match getModel type with
     | Undefined => ret (status_json 404 (Json_error "Invalid type"))
     | Inherited _ => throw (not_a_function "findOne")
     | AModel m =>
         let* item := findOne m id in
         match item with
         | None => ret (status_json 404 (Json_error "Not found"))
         | Some item =>
             (if String.eqb type "files" && bool_decide (is_Some s3)
              then s3_deleteObject (item !! "filename")
              else ret tt) >>
             deleteOne m id >>
             ret (status_send 204)
         end
     end) req.

(** [PUT /api/:type/:id], [PUT /api/codes/:subtype/:id] *)
Definition update_item (p : Params) (req : Request) : State -> Outcome * State :=
  try_next
    (connectToDatabase >>
     let type := type_of p in
     let id := String_of (p_id p) in
     match getModel type with
     | Undefined => ret (status_json 404 (Json_error "Invalid type"))
     | Inherited _ => throw (not_a_function "findOneAndUpdate")
     | AModel m =>
         let* updated := findOneAndUpdate env m id (body req) in
         ret (json (match updated with
                    | Some d => Json_doc d
                    | None => Json_null
                    end))
     end) req.

(** *** Global error handler *)

Definition error_handler (err : Error) (st : State) : Response * State :=
  (status_json 500
     (Json_error (if String.eqb (message err) "" then "Internal Server Error"
                  else message err)),
   emit (ConsoleError "Server Error:" err) st).

(** *** The application: the routes in registration order *)

Definition Handler : Type := Params -> Request -> State -> Outcome * State.

Record Route := mkRoute {
  route_method : Method;
  route_match : list string -> option Params;
  route_handlers : list Handler
}.

Definition routes (A : option Model) : list Route :=
  [ mkRoute GET match_activity [get_activity A];
    mkRoute POST match_activity [post_activity A];
    mkRoute DELETE match_activity [delete_activity A];
    mkRoute GET match_type [get_items];
    mkRoute POST match_type [post_item];
    mkRoute POST match_upload [upload_wrapper; upload_file];
    mkRoute GET match_download [download_file];
    mkRoute DELETE match_type_id [delete_item];
    mkRoute PUT match_type_id [update_item] ].

(** The handlers of one route, each run when the one before called
    [next()]. *)
Fixpoint run_handlers (hs : list Handler) (p : Params) (req : Request) (st : State)
  : Outcome * State :=
  match hs with
  | [] => (Next None req, st)
  | h :: hs' =>
      match h p req st with
      | (Next None req', st') => run_handlers hs' p req' st'
      | out => out
      end
  end.

Definition Method_name (m : Method) : string :=
  match m with GET => "GET" | POST => "POST" | PUT => "PUT" | DELETE => "DELETE" end.

(** No route answered: the default 404 page of Express. *)
Definition not_found (req : Request) : Response :=
  mkResponse 404 (Html ("Cannot " +:+ Method_name (method req) +:+ " "
                        +:+ path_string (path req))).

Fixpoint dispatch (rs : list Route) (req : Request) (st : State) : Response * State :=
  match rs with
  | [] => (not_found req, st)
  | r :: rs' =>
      if bool_decide (route_method r = method req) then
        match route_match r (path req) with
        | Some p =>
            match run_handlers (route_handlers r) p req st with
            | (Respond res, st') => (res, st')
            | (Next (Some err) _, st') => error_handler err st'
            | (Next None req', st') => dispatch rs' req' st'
            end
        | None => dispatch rs' req st
        end
      else dispatch rs' req st
  end.

(** The server with the binding [A] for the import [Activity]. *)
Definition app_with (A : option Model) (req : Request) (st : State) : Response * State :=
  dispatch (routes A) req st.

(** The server as the repository builds it. *)
Definition app (req : Request) (st : State) : Response * State :=
  app_with Activity req st.

(** The database answers: the cached connection is ready, or a
    connection string is configured and connecting succeeds. *)
Definition connects (st : State) : bool :=
  (cachedDb st && (readyState env =? 1))
  || (truthy_str DB_URI && bool_decide (connect_failure env = None)).
End Server.

(* ===================================================================== *)
(** ** The older server file, [part_000] *)
(* ===================================================================== *)

(** [part_000] has no activity route and builds its S3 client with the
    default region [us-east-1] and without a signature version.
    [connectToDatabase], [generateId], [modelMap], [getModel], the generic
    GET, POST and PUT handlers and the error handler read as in the later
    file and depend on nothing that differs: they are the definitions
    above.  What mentions [s3] or [upload] is embedded here on the
    client of this file. *)
Module Part_000.
Section Server.
Variable pe : ProcessEnv.
Variable env : Env.

Definition s3 : option S3Client :=
  match AWS_ACCESS_KEY_ID pe with
  | Some k =>
      if truthy_str (AWS_ACCESS_KEY_ID pe) && truthy_str (S3_BUCKET_NAME pe)
      then Some (mkS3Client k (AWS_SECRET_ACCESS_KEY pe)
                   (String_of (str_or (AWS_REGION pe) (Some "us-east-1"))) None)
      else None
  | None => None
  end.

(** [const uploadMiddleware = upload.single('file');] *)
Definition uploadMiddleware : Request -> M Request := single pe env s3.

(** [POST /api/files/upload], first handler: the multer wrapper. *)
Definition upload_wrapper (p : Params) (req : Request) : State -> Outcome * State :=
  fun st =>
    match uploadMiddleware req st with
    | (Ok req', st') => (Next None req', st')
    | (Throw err, st') => (Next (Some err) req, st')
    end.

(** [POST /api/files/upload], second handler. *)
Definition upload_file (p : Params) (req : Request) : State -> Outcome * State :=
  try_next
    (connectToDatabase pe env >>
     match s3 with
     | None => throw (new_Error "AWS S3 not configured. Check environment variables.")
     | Some _ =>
         match file req with
         | None => throw (new_Error "No file uploaded.")
         | Some f =>
             let fileEntry := upload_entry env req f in
             let* F := the_model File "create" in
             let* savedFile := create env F fileEntry in
             ret (status_json 201 (Json_doc savedFile))
         end
     end) req.

(** [GET /api/files/download/:id] *)
Definition download_file (p : Params) (req : Request) : State -> Outcome * State :=
  try_next
    (connectToDatabase pe env >>
     match s3 with
     | None => throw (new_Error "AWS S3 not configured")
     | Some client =>
         let* F := the_model File "findOne" in
         let* fileEntry := findOne F (String_of (p_id p)) in
         match fileEntry with
         | None => ret (status_json 404 (Json_error "File not found"))
         | Some fileEntry =>
             let* url := s3_getSignedUrl pe client "getObject" (fileEntry !! "filename") 60 in
             ret (redirect url)
         end
     end) req.

(** [DELETE /api/:type/:id], [DELETE /api/codes/:subtype/:id] *)
Definition delete_item (p : Params) (req : Request) : State -> Outcome * State :=
  try_next
    (connectToDatabase pe env >>
     let type := type_of p in
     let id := String_of (p_id p) in
     match getModel type with
     | Undefined => ret (status_json 404 (Json_error "Invalid type"))
     | Inherited _ => throw (not_a_function "findOne")
     | AModel m =>
         let* item := findOne m id in
         match item with
         | None => ret (status_json 404 (Json_error "Not found"))
         | Some item =>
             (if String.eqb type "files" && bool_decide (is_Some s3)
              then s3_deleteObject env (item !! "filename")
              else ret tt) >>
             deleteOne m id >>
             ret (status_send 204)
         end
     end) req.

(** The routes of [part_000] in registration order. *)
Definition routes : list Route :=
  [ mkRoute GET match_type [get_items pe env];
    mkRoute POST match_type [post_item pe env];
    mkRoute POST match_upload [upload_wrapper; upload_file];
    mkRoute GET match_download [download_file];
    mkRoute DELETE match_type_id [delete_item];
    mkRoute PUT match_type_id [update_item pe env] ].
End Server.
End Part_000.

(* ===================================================================== *)
(** ** Vocabulary of the statements *)
(* ===================================================================== *)

(** A request as it arrives: [req.file] is undefined. *)
Definition request (m : Method) (p : list string) (b : jsobj) (fp : option FilePart)
  : Request := mkRequest m p b fp None.

(** The two path forms of a generic route on the token [t]: [/api/t] and
    [/api/codes/t]. *)
Definition type_path (nested : bool) (t : string) : list string :=
  if nested then ["api"; "codes"; t] else ["api"; t].

(** The same with a record id: [/api/t/id] and [/api/codes/t/id]. *)
Definition item_path (nested : bool) (t id : string) : list string :=
  if nested then ["api"; "codes"; t; id] else ["api"; t; id].

(** The parameters a generic route extracts from its two path forms. *)
Definition params (nested : bool) (t : string) (i : option string) : Params :=
  if nested then mkParams None (Some t) i else mkParams (Some t) None i.

(** The state a successful [connectToDatabase] leaves. *)
Definition connected (env : Env) (st : State) : State :=
  if cachedDb st && (readyState env =? 1) then st
  else emit (ConsoleLog "Connected to MongoDB Atlas")
         (set_cachedDb true (emit MongooseConnect st)).

(** The calls that go to the object store or the scratch directory. *)
Definition is_blob_event (e : Event) : bool :=
  match e with
  | S3Upload _ | S3DeleteObject _ | S3GetSignedUrl _ | DiskWrite _ => true
  | _ => false
  end.

(** The calls that write to the database. *)
Definition is_db_write (e : Event) : bool :=
  match e with
  | DbCreate _ | DbFindOneAndUpdate _ _ | DbDeleteOne _ _ | DbDeleteMany _ => true
  | _ => false
  end.

(** The tokens [getModel] resolves to a model: the keys of [modelMap] and
    the five code subtypes. *)
Definition tokens : list string :=
  [ "files"; "notes"; "projects"; "contacts";
    "pythonCodes"; "javascriptCodes"; "htmlCodes"; "cssCodes"; "otherCodes";
    "python"; "javascript"; "html"; "css"; "other" ].

(** An async handler body under [try]/[catch] and the error handler: its
    answer, or the answer of the global error handler to what it threw. *)
Definition run (m : M Response) (st : State) : Response * State :=
  match m st with
  | (Ok r, st') => (r, st')
  | (Throw e, st') => error_handler e st'
  end.

(** A request is rejected from the state [st]: the answer is 500 with a
    JSON error body whose message is not empty, no collection changed and
    no write reached the database. *)
Definition rejected (st : State) (out : Response * State) : Prop :=
  status out.1 = 500 /\
  (exists msg, rbody out.1 = Json_error msg /\ msg <> "") /\
  db out.2 = db st /\
  filter is_db_write (trace out.2) = filter is_db_write (trace st).

(** The model behind the import [File]. *)
Definition FileModel : Model := mongoose_model "File" fileSchema.

(** From [st] to [st'] the object store and the scratch directory were
    neither changed nor called. *)
Definition blob_untouched (st st' : State) : Prop :=
  bucket st' = bucket st /\
  tmp st' = tmp st /\
  filter is_blob_event (trace st') = filter is_blob_event (trace st).

(** A computation that never touches the object store. *)
Definition quiet {A} (m : M A) : Prop := forall st, blob_untouched st (m st).2.

(** No two documents of a collection share their [id]: what the unique
    index of every schema maintains. *)
Definition unique_ids (c : list Doc) : Prop := NoDup ((fun d : Doc => d !! "id") <$> c).

(** One hexadecimal digit. *)
Definition is_hex (c : ascii) : bool :=
  existsb (Ascii.eqb c) (list_ascii_of_string "0123456789abcdef").

(** The invariant of the database: unique ids in every collection. *)
Definition unique_ids_everywhere (st : State) : Prop :=
  forall name, unique_ids (db st !!! name).

(** A computation that maintains the invariant. *)
Definition keeps {A} (m : M A) : Prop :=
  forall st, unique_ids_everywhere st -> unique_ids_everywhere (m st).2.

(** A schema with a unique [id] path. *)
Definition has_unique_id (sch : Schema) : Prop :=
  exists sp, ("id", sp) ∈ sch /\ unique sp = true.

(** A handler that maintains the invariant. *)
Definition keeps_handler (h : Handler) : Prop :=
  forall p req st, unique_ids_everywhere st -> unique_ids_everywhere (h p req st).2.

(** The database calls proper; a connection attempt is not one. *)
Definition is_db_call (e : Event) : bool :=
  match e with
  | DbFind _ | DbFindOne _ _ | DbCreate _ | DbFindOneAndUpdate _ _
  | DbDeleteOne _ _ | DbDeleteMany _ => true
  | _ => false
  end.

(** The connection attempts. *)
Definition is_connect (e : Event) : bool :=
  match e with
  | MongooseConnect => true
  | _ => false
  end.

(** The shapes a response of this server has: a list with 200, a record
    with 200 or 201, [null] with 200, an error object with a non-empty
    message and 404 or 500, no body with 204, a redirect with 302 to a URL
    that expires after 60 seconds, and the default page of Express with
    404. *)
Definition envelope (r : Response) : bool :=
  match rbody r with
  | Json_list _ => status r =? 200
  | Json_doc _ => (status r =? 200) || (status r =? 201)
  | Json_null => status r =? 200
  | Json_error msg => ((status r =? 404) || (status r =? 500)) && negb (String.eqb msg "")
  | No_body => status r =? 204
  | Location url => (status r =? 302) && (Expires url =? 60)
  | Html _ => status r =? 404
  end.

(** The server of the older file. *)
Definition routes_part_000 (pe : ProcessEnv) (env : Env) : list Route :=
  Part_000.routes pe env.

Definition app_part_000 (pe : ProcessEnv) (env : Env) (req : Request) (st : State)
  : Response * State :=
  dispatch (routes_part_000 pe env) req st.

(** The key multer-s3 gives an uploaded part, and the location S3
    reports for it to the client [client]. *)
Definition upload_key (env : Env) (part : FilePart) : string := storage_key env part.

Definition upload_location (pe : ProcessEnv) (env : Env) (client : S3Client) (part : FilePart)
  : string :=
  S3_Location env (region client) (String_of (S3_BUCKET_NAME pe)) (upload_key env part).

(** A handler body all of whose answers have one of the shapes. *)
Definition answers_in_envelope (m : M Response) : Prop :=
  forall st, match m st with
             | (Ok res, _) => envelope res = true
             | (Throw _, _) => True
             end.

(** From [st] to [st'] nothing was written: the collections, the bucket
    and the scratch directory are the same and no write reached the
    database. *)
Definition unchanged (st st' : State) : Prop :=
  db st' = db st /\
  bucket st' = bucket st /\
  tmp st' = tmp st /\
  filter is_db_write (trace st') = filter is_db_write (trace st).

(** A computation that writes nothing. *)
Definition stable {A} (m : M A) : Prop := forall st, unchanged st (m st).2.

(** From [st] to [st'] no connection was attempted and the cached
    connection is the same. *)
Definition no_connect (st st' : State) : Prop :=
  cachedDb st' = cachedDb st /\
  filter is_connect (trace st') = filter is_connect (trace st).

(** A computation that never connects. *)
Definition calm {A} (m : M A) : Prop := forall st, no_connect st (m st).2.

(** What one request may add to the connection attempts of [st]: nothing
    when a cached connection is ready or no connection string is set, one
    attempt at most otherwise; a cached connection stays cached. *)
Definition connects_once (pe : ProcessEnv) (env : Env) (st st' : State) : Prop :=
  exists attempts,
    filter is_connect (trace st') = filter is_connect (trace st) ++ attempts /\
    (length attempts <= 1)%nat /\
    (cachedDb st && (readyState env =? 1) = true \/ truthy_str (MONGODB_URI pe) = false ->
     attempts = []) /\
    (cachedDb st = true -> cachedDb st' = true).

(** The File record an upload stores for a part, given the casts of the
    title and of the description: the key carries the time multer-s3 read
    when it named it, the [date] is the time the handler read later. *)
Definition uploaded_record (pe : ProcessEnv) (env : Env) (client : S3Client) (part : FilePart)
  (title description : fval) : Doc :=
  <["_id" := FObjectId (new_ObjectId env)]>
    (<["id" := FStr (generateId env)]>
      (<["title" := title]>
        (<["description" := description]>
          (<["tags" := FStrs []]>
            (<["filename" := FStr (upload_key env part)]>
              (<["originalname" := FStr (part_originalname part)]>
                (<["path" := FStr (upload_location pe env client part)]>
                  (<["mimetype" := FStr (part_mimetype part)]>
                    (<["size" := FNum (part_size part)]>
                      (<["date" := FDate (Date_now env)]>
                        (<["__v" := FNum 0]> ∅))))))))))).

(** The calls that change something outside the process. *)
Definition is_store_event (e : Event) : bool :=
  match e with
  | S3Upload _ | S3DeleteObject _ | DiskWrite _ => true
  | _ => is_db_write e
  end.

(** The keys of a body are field names: none is a dotted path.  mongoose
    reads a key such as [tags.0] as a path into the field [tags]; what it
    then stores depends on the order of the keys of the body, which a map
    does not keep.  The statements that pin the content of a stored
    record to the body are made for bodies with plain keys. *)
Definition plain_keys (b : jsobj) : bool :=
  forallb (fun k => negb (includes k ".")) (map_to_list b).*1.

(** Ordered by [date] descending, in the terms of the records
    themselves: whenever a record of the list has a date, every record
    before it has a date that is not older.  So the dated records come
    newest first, and the records without a date after all of them. *)
Definition newest_first (l : list Doc) : Prop :=
  forall (i j : nat) (x y : Doc) (ty : Z),
    (i < j)%nat -> l !! i = Some x -> l !! j = Some y ->
    y !! "date" = Some (FDate ty) ->
    exists tx, x !! "date" = Some (FDate tx) /\ ty <= tx.

(** *** Concrete inputs *)

Module Sample.
(** A runtime that parses no string; enough where no string is cast to a
    number, a date or an ObjectId. *)
Definition rt : Runtime :=
  mkRuntime (fun _ => None) (fun _ => None) (fun _ => "Thu Jan 01 1970") (fun _ => None)
    (fun _ => "1e+21").

(** The location S3 reports in these examples. *)
Definition location (region bucket key : string) : string :=
  "https://" +:+ bucket +:+ ".s3." +:+ region +:+ ".amazonaws.com/" +:+ key.

(** Clock at 1000 ms when the handler reads it, at 990 ms when multer
    named the key; the k-th random draw is k, every call succeeds, and
    multer refuses a part of exactly the size limit. *)
Definition env : Env :=
  mkEnv rt 1000 "65f0c0ffee0000000000abcd" (fun k => Z.of_nat k) 0 None None None "a1b2c3"
    990 true location.

(** The same world, where [s3.deleteObject] fails. *)
Definition env_s3_down : Env :=
  mkEnv rt 1000 "65f0c0ffee0000000000abcd" (fun k => Z.of_nat k) 0 None
    (Some (mkError "NetworkingError" "connect ETIMEDOUT")) None "a1b2c3"
    990 true location.

(** Object storage configured. *)
Definition pe_s3 : ProcessEnv :=
  mkProcessEnv (Some "mongodb://db") (Some "AKIA") (Some "secret") None (Some "bucket").

(** The client the later file builds from [pe_s3]. *)
Definition client : S3Client := mkS3Client "AKIA" (Some "secret") "ap-south-2" (Some "v4").

(** Degraded mode: no storage credentials. *)
Definition pe_degraded : ProcessEnv :=
  mkProcessEnv (Some "mongodb://db") None None None None.

Definition empty : State := mkState false ∅ ∅ [] [].

Definition note_model : Model := mongoose_model "Note" noteSchema.

(** A File record whose object [uploads/1-a.txt] is in the bucket. *)
Definition file_doc : Doc :=
  <["_id" := FObjectId "65f0c0ffee00000000000001"]>
    (<["id" := FStr "f1"]> (<["filename" := FStr "uploads/1-a.txt"]>
      (<["tags" := FStrs []]> (<["date" := FDate 7]> (<["__v" := FNum 0]> ∅))))).

Definition with_file : State :=
  mkState false {["File" := [file_doc]]} {["uploads/1-a.txt"]} [] [].

(** Three notes, stored in an order that is not the order of their
    dates. *)
Definition note (id : string) (t : Z) : Doc :=
  <["_id" := FObjectId ("65f0c0ffee000000000000" +:+ id +:+ "0")]>
    (<["id" := FStr id]> (<["title" := FStr "n"]> (<["date" := FDate t]>
      (<["__v" := FNum 0]> ∅)))).

Definition three_notes : State :=
  mkState true {["Note" := [note "a" 3; note "b" 9; note "c" 1]]} ∅ [] [].

(** A note body with a client-side date. *)
Definition dated_note : jsobj := <["title" := VStr "t"]> (<["date" := VNum 5]> ∅).

Definition dated_note_doc : Doc :=
  <["_id" := FObjectId "65f0c0ffee0000000000abcd"]>
    (<["id" := FStr "01234567-89ab-4cde-b012-3456789abcde"]>
      (<["title" := FStr "t"]> (<["date" := FDate 5]> (<["__v" := FNum 0]> ∅)))).

(** A file body that names an object nobody stored. *)
Definition ghost_file : jsobj := <["filename" := VStr "ghost"]> ∅.

Definition ghost_doc : Doc :=
  <["_id" := FObjectId "65f0c0ffee0000000000abcd"]>
    (<["id" := FStr "01234567-89ab-4cde-b012-3456789abcde"]>
      (<["filename" := FStr "ghost"]> (<["tags" := FStrs []]> (<["date" := FDate 1000]>
        (<["__v" := FNum 0]> ∅))))).

(** The database cannot be reached: no connection string. *)
Definition pe_no_uri : ProcessEnv :=
  mkProcessEnv None (Some "AKIA") (Some "secret") None (Some "bucket").

(** A small text file as the multipart part. *)
Definition part : FilePart := mkFilePart "a.txt" "text/plain" 3.

(** A part over the size limit. *)
Definition big_part : FilePart := mkFilePart "big.bin" "application/octet-stream" 52428801.

(** A part of exactly the size limit. *)
Definition limit_part : FilePart := mkFilePart "edge.bin" "application/octet-stream" 52428800.
End Sample.

(* ===================================================================== *)
(** * Properties *)
(* ===================================================================== *)

(** ** The registry *)

Lemma getModel_AModel_tokens t m : getModel t = AModel m -> t ∈ tokens.
Proof.
  intros H. unfold getModel in H. cbn [existsb] in H.
  repeat match type of H with
  | context [String.eqb t ?s] =>
      destruct (String.eqb_spec t s);
        [subst t; unfold tokens; apply list_elem_of_In; cbn; tauto |]
  end.
  cbn in H. unfold get_property in H. cbn [assoc modelMap] in H.
  repeat match type of H with
  | context [String.eqb t ?s] =>
      destruct (String.eqb_spec t s);
        [subst t; unfold tokens; apply list_elem_of_In; cbn; tauto |]
  end.
  cbn [orb] in H.
  match type of H with context [if ?c then _ else _] => destruct c end; discriminate.
Qed.

Lemma tokens_named t : t ∈ tokens -> named t = true /\ lit "activity" t = false.
Proof.
  intros H. apply list_elem_of_In in H. cbn in H.
  repeat (destruct H as [<- | H]; [split; reflexivity |]). destruct H.
Qed.

(** Every model of the registry has the [id] and [date] paths of
    models.js, and no path twice. *)
Lemma registry_schema t m :
  getModel t = AModel m ->
  NoDup (schema m).*1 /\ ("id", id_path) ∈ schema m /\ ("date", date_path) ∈ schema m.
Proof.
  intros H. pose proof (getModel_AModel_tokens _ _ H) as Ht.
  apply list_elem_of_In in Ht. cbn in Ht.
  repeat (destruct Ht as [<- | Ht];
          [vm_compute in H; injection H as <-;
           split; [apply NoDup_ListNoDup; cbn; repeat constructor; cbn; intuition discriminate |];
           split; apply list_elem_of_In; cbn; tauto |]).
  destruct Ht.
Qed.

(** ** Routing *)

Section Routing.
Implicit Types (nested : bool) (t id : string).

Lemma dispatch_skip_method r rs req st :
  route_method r <> method req ->
  dispatch (r :: rs) req st = dispatch rs req st.
Proof. intros H. cbn [dispatch]. by rewrite bool_decide_eq_false_2. Qed.

Lemma dispatch_skip_path r rs req st :
  route_match r (path req) = None ->
  dispatch (r :: rs) req st = dispatch rs req st.
Proof. intros H. cbn [dispatch]. rewrite H. by destruct (bool_decide _). Qed.

Lemma dispatch_hit r rs req st p h m :
  route_method r = method req ->
  route_match r (path req) = Some p ->
  route_handlers r = [h] ->
  h p req = try_next m req ->
  dispatch (r :: rs) req st = run m st.
Proof.
  intros Hm Hp Hh Hb. cbn [dispatch]. rewrite bool_decide_eq_true_2 by done.
  rewrite Hp, Hh. cbn [run_handlers]. rewrite Hb. unfold try_next, run.
  by destruct (m st) as [[r0|e] st'].
Qed.

Lemma type_of_params nested t i : named t = true -> type_of (params nested t i) = t.
Proof.
  intros H. unfold type_of, params, str_or, named in *.
  destruct nested; cbn; by rewrite ?H.
Qed.

Lemma match_activity_type_path nested t :
  lit "activity" t = false -> match_activity (type_path nested t) = None.
Proof. intros H. destruct nested; cbn; [done | by rewrite H]. Qed.

Lemma match_type_type_path nested t :
  named t = true -> match_type (type_path nested t) = Some (params nested t None).
Proof. intros H. destruct nested; cbn; by rewrite H. Qed.

Lemma match_activity_item_path nested t id : match_activity (item_path nested t id) = None.
Proof. by destruct nested. Qed.

Lemma match_type_id_item_path nested t id :
  named t = true -> named id = true ->
  match_type_id (item_path nested t id) = Some (params nested t (Some id)).
Proof. intros H1 H2. destruct nested; cbn; by rewrite H1, H2. Qed.

(** The generic POST never defers: a path of the form [/api/:type] does
    not contain [upload] when the type is [files]. *)
Lemma upload_guard nested t :
  bool_decide (p_type (params nested t None) = Some "files")
  && includes (path_string (type_path nested t)) "upload" = false.
Proof.
  destruct nested; [done |]. cbn [params p_type].
  case_bool_decide as H; [| done]. by injection H as ->.
Qed.
End Routing.

(** ** The database connection *)

Section Connection.
Variable pe : ProcessEnv.
Variable env : Env.

Lemma connect_ok st :
  connects pe env st = true ->
  connectToDatabase pe env st = (Ok tt, connected env st).
Proof.
  unfold connects, connectToDatabase, connected. intros H.
  destruct (cachedDb st && (readyState env =? 1)); [done |].
  cbn [orb] in H. apply andb_true_iff in H as [H1 H2].
  rewrite H1. cbn [negb]. apply bool_decide_eq_true_1 in H2. by rewrite H2.
Qed.

(** Connecting never touches the collections, the bucket or the scratch
    directory, whether it succeeds or not. *)
Lemma connect_frame st :
  let st' := (connectToDatabase pe env st).2 in
  db st' = db st /\ bucket st' = bucket st /\ tmp st' = tmp st /\
  filter is_db_write (trace st') = filter is_db_write (trace st) /\
  filter is_blob_event (trace st') = filter is_blob_event (trace st).
Proof.
  unfold connectToDatabase.
  destruct (cachedDb st && (readyState env =? 1)); [done |].
  destruct (negb (truthy_str (DB_URI pe))); [done |].
  destruct (connect_failure env); cbn;
    by rewrite !filter_app, !app_nil_r.
Qed.

Lemma connected_frame st :
  db (connected env st) = db st /\ bucket (connected env st) = bucket st /\
  tmp (connected env st) = tmp st.
Proof. unfold connected. by destruct (cachedDb st && (readyState env =? 1)). Qed.

Lemma collection_connected st m : collection (connected env st) m = collection st m.
Proof. unfold collection. by rewrite (proj1 (connected_frame st)). Qed.

Lemma bind_connect_ok {A} (k : M A) st :
  connects pe env st = true ->
  (connectToDatabase pe env >> k) st = k (connected env st).
Proof. intros H. unfold bind. by rewrite connect_ok. Qed.
End Connection.

(** ** Sorting by date *)

Global Instance newer_or_equal_total : Total newer_or_equal.
Proof.
  intros a b. unfold newer_or_equal.
  destruct (date_key a), (date_key b); try tauto. lia.
Qed.

Global Instance newer_or_equal_trans : Transitive newer_or_equal.
Proof.
  intros a b c. unfold newer_or_equal.
  destruct (date_key a), (date_key b), (date_key c); try tauto. lia.
Qed.

Lemma sort_date_desc_sorted c : StronglySorted newer_or_equal (sort_date_desc c).
Proof. apply StronglySorted_merge_sort; apply _. Qed.

Lemma sort_date_desc_perm c : sort_date_desc c ≡ₚ c.
Proof. apply merge_sort_Permutation. Qed.

(** What the order of the sort says of the dates of the records. *)
Lemma newer_or_equal_dates (x y : Doc) ty :
  newer_or_equal x y -> y !! "date" = Some (FDate ty) ->
  exists tx, x !! "date" = Some (FDate tx) /\ ty <= tx.
Proof.
  unfold newer_or_equal, date_key. intros H Hy. rewrite Hy in H.
  destruct (x !! "date") as [[| | |tx| |]|]; try done. by exists tx.
Qed.

Lemma sorted_newest_first l : StronglySorted newer_or_equal l -> newest_first l.
Proof.
  induction 1 as [|x l Hs IH Hall]; intros i j a c ty Hij Ha Hc Hty.
  - by rewrite lookup_nil in Ha.
  - destruct j as [|j]; [lia |]. cbn in Hc. destruct i as [|i]; cbn in Ha.
    + injection Ha as <-. eapply newer_or_equal_dates; [| done].
      rewrite List.Forall_forall in Hall. apply Hall.
      apply list_elem_of_In. by eapply list_elem_of_lookup_2.
    + apply (IH i j a c ty); [lia | done | done | done].
Qed.

Lemma sort_date_desc_newest_first c : newest_first (sort_date_desc c).
Proof. apply sorted_newest_first, sort_date_desc_sorted. Qed.

(** ** What each request runs *)

Ltac skip_by_method := rewrite dispatch_skip_method by (cbn; discriminate).
Ltac skip_by_path lem := rewrite dispatch_skip_path by (cbn [route_match path request]; apply lem; assumption).

Section Requests.
Variable pe : ProcessEnv.
Variable env : Env.
Variable A : option Model.
Implicit Types (nested : bool) (t id : string) (b : jsobj) (fp : option FilePart).

Lemma app_get_items nested t b fp st :
  named t = true -> lit "activity" t = false ->
  app_with pe env A (request GET (type_path nested t) b fp) st
  = run (connectToDatabase pe env >>
         match getModel t with
         | Undefined => ret (status_json 404 (Json_error ("Invalid type: " +:+ t)))
         | Inherited _ => throw (not_a_function "find")
         | AModel m => let* items := find_sorted m in ret (json (Json_list items))
         end) st.
Proof.
  intros Hn Ha. unfold app_with, routes.
  skip_by_path match_activity_type_path. do 2 skip_by_method.
  erewrite dispatch_hit;
    [| reflexivity | by apply match_type_type_path | reflexivity | reflexivity].
  by rewrite type_of_params.
Qed.

Lemma app_post_item_gen nested t b fp st :
  named t = true -> nested || negb (lit "activity" t) = true ->
  app_with pe env A (request POST (type_path nested t) b fp) st
  = run (connectToDatabase pe env >>
         match getModel t with
         | Undefined => ret (status_json 404 (Json_error ("Invalid type: " +:+ t)))
         | Inherited name =>
             if String.eqb name "constructor" then ret (status_json 201 (Json_doc ∅))
             else throw (not_a_function "create")
         | AModel m =>
             let newItemData :=
               <["id" := js_or (b !! "id") (VStr (generateId env))]> b in
             let* savedItem := create env m newItemData in
             ret (status_json 201 (Json_doc savedItem))
         end) st.
Proof.
  intros Hn Ha. unfold app_with, routes.
  skip_by_method.
  rewrite dispatch_skip_path.
  2:{ cbn [route_match path request]. destruct nested; [done |].
      cbn in *. by destruct (lit "activity" t). }
  do 2 skip_by_method.
  erewrite dispatch_hit;
    [| reflexivity | by apply match_type_type_path | reflexivity |].
  2:{ unfold post_item. cbn [path request]. rewrite upload_guard. reflexivity. }
  by rewrite type_of_params.
Qed.

Lemma app_post_item nested t b fp st :
  named t = true -> lit "activity" t = false ->
  app_with pe env A (request POST (type_path nested t) b fp) st
  = run (connectToDatabase pe env >>
         match getModel t with
         | Undefined => ret (status_json 404 (Json_error ("Invalid type: " +:+ t)))
         | Inherited name =>
             if String.eqb name "constructor" then ret (status_json 201 (Json_doc ∅))
             else throw (not_a_function "create")
         | AModel m =>
             let newItemData :=
               <["id" := js_or (b !! "id") (VStr (generateId env))]> b in
             let* savedItem := create env m newItemData in
             ret (status_json 201 (Json_doc savedItem))
         end) st.
Proof.
  intros Hn Ha. apply app_post_item_gen; [done |]. rewrite Ha. apply orb_true_r.
Qed.

Lemma app_delete_item nested t id b fp st :
  named t = true -> named id = true ->
  app_with pe env A (request DELETE (item_path nested t id) b fp) st
  = run (connectToDatabase pe env >>
         match getModel t with
         | Undefined => ret (status_json 404 (Json_error "Invalid type"))
         | Inherited _ => throw (not_a_function "findOne")
         | AModel m =>
             let* item := findOne m id in
             match item with
             | None => ret (status_json 404 (Json_error "Not found"))
             | Some item =>
                 (if String.eqb t "files" && bool_decide (is_Some (s3 pe))
                  then s3_deleteObject env (item !! "filename")
                  else ret tt) >>
                 deleteOne m id >>
                 ret (status_send 204)
             end
         end) st.
Proof.
  intros Hn Hi. unfold app_with, routes.
  do 2 skip_by_method.
  rewrite dispatch_skip_path by (cbn; apply match_activity_item_path).
  do 4 skip_by_method.
  erewrite dispatch_hit;
    [| reflexivity | by apply match_type_id_item_path | reflexivity | reflexivity].
  rewrite type_of_params by done. by destruct nested.
Qed.

Lemma app_update_item nested t id b fp st :
  named t = true -> named id = true ->
  app_with pe env A (request PUT (item_path nested t id) b fp) st
  = run (connectToDatabase pe env >>
         match getModel t with
         | Undefined => ret (status_json 404 (Json_error "Invalid type"))
         | Inherited _ => throw (not_a_function "findOneAndUpdate")
         | AModel m =>
             let* updated := findOneAndUpdate env m id b in
             ret (json (match updated with
                        | Some d => Json_doc d
                        | None => Json_null
                        end))
         end) st.
Proof.
  intros Hn Hi. unfold app_with, routes.
  do 8 skip_by_method.
  erewrite dispatch_hit;
    [| reflexivity | by apply match_type_id_item_path | reflexivity | reflexivity].
  rewrite type_of_params by done. by destruct nested.
Qed.

Lemma app_download id b fp st :
  named id = true ->
  app_with pe env A (request GET ["api"; "files"; "download"; id] b fp) st
  = run (connectToDatabase pe env >>
         match s3 pe with
         | None => throw (new_Error "AWS S3 not configured")
         | Some client =>
             let* F := the_model File "findOne" in
             let* fileEntry := findOne F id in
             match fileEntry with
             | None => ret (status_json 404 (Json_error "File not found"))
             | Some fileEntry =>
                 let* url := s3_getSignedUrl pe client "getObject" (fileEntry !! "filename") 60 in
                 ret (redirect url)
             end
         end) st.
Proof.
  intros Hi. unfold app_with, routes.
  rewrite dispatch_skip_path by reflexivity. do 2 skip_by_method.
  rewrite dispatch_skip_path by reflexivity. do 2 skip_by_method.
  erewrite dispatch_hit; [| reflexivity | | reflexivity | reflexivity].
  2:{ cbn. by rewrite Hi. }
  reflexivity.
Qed.

Lemma app_get_activity b fp st :
  app_with pe env A (request GET ["api"; "activity"] b fp) st
  = run (connectToDatabase pe env >>
         match A with
         | None => throw (new_Error "Activity Model is not defined. Check models.js exports.")
         | Some act =>
             let* activities := find_sorted_limit act 20 in
             ret (json (Json_list activities))
         end) st.
Proof.
  unfold app_with, routes.
  by erewrite dispatch_hit; [| reflexivity | reflexivity | reflexivity | reflexivity].
Qed.

(** The upload route: the multer wrapper, then the handler on the
    request multer left. *)
Lemma app_upload b fp st :
  app_with pe env A (request POST ["api"; "files"; "upload"] b fp) st
  = match uploadMiddleware pe env (request POST ["api"; "files"; "upload"] b fp) st with
    | (Ok req', st') =>
        run (connectToDatabase pe env >>
             match s3 pe with
             | None => throw (new_Error "AWS S3 not configured. Check environment variables.")
             | Some _ =>
                 match file req' with
                 | None => throw (new_Error "No file uploaded.")
                 | Some f =>
                     let* F := the_model File "create" in
                     let* savedFile := create env F (upload_entry env req' f) in
                     ret (status_json 201 (Json_doc savedFile))
                 end
             end) st'
    | (Throw err, st') => error_handler err st'
    end.
Proof.
  unfold app_with, routes.
  skip_by_method. rewrite dispatch_skip_path by reflexivity. do 2 skip_by_method.
  rewrite dispatch_skip_path by reflexivity.
  cbn [dispatch]. rewrite bool_decide_eq_true_2 by done.
  cbn [route_match route_handlers path request match_upload lit].
  change (match_upload ["api"; "files"; "upload"]) with (Some no_params).
  cbn [run_handlers]. unfold upload_wrapper.
  destruct (uploadMiddleware _ _ _ _) as [[req'|err] st']; [| done].
  unfold upload_file, try_next, run.
  match goal with |- context [?m st'] => destruct (m st') as [[r0|e] st''] end; done.
Qed.
End Requests.

(** ** Listing a collection *)

Example list_three_notes :
  (app Sample.pe_s3 Sample.env (request GET ["api"; "notes"] ∅ None) Sample.three_notes).1
  = json (Json_list [Sample.note "b" 9; Sample.note "a" 3; Sample.note "c" 1]).
Proof. vm_compute. reflexivity. Qed.

(** C8: for every registered type token [t] (resolved to the model [m]) and
    every state of its collection, [GET /api/t] and [GET /api/codes/t]
    answer 200 with all the records of the collection (a permutation of
    it), ordered by [date] descending (whenever a record of the answer
    has a date, every record before it has a date that is not older),
    and with the empty list when the collection is empty. *)
Theorem C8_list_all_by_date_descending pe env st nested t m b fp :
  getModel t = AModel m ->
  connects pe env st = true ->
  exists items,
    (app pe env (request GET (type_path nested t) b fp) st).1 = json (Json_list items) /\
    items ≡ₚ collection st m /\
    (forall (i j : nat) (x y : Doc) (ty : Z),
       (i < j)%nat -> items !! i = Some x -> items !! j = Some y ->
       y !! "date" = Some (FDate ty) ->
       exists tx, x !! "date" = Some (FDate tx) /\ ty <= tx) /\
    (collection st m = [] -> items = []).
Proof.
  intros Hm Hc.
  destruct (tokens_named t (getModel_AModel_tokens _ _ Hm)) as [Hn Ha].
  exists (sort_date_desc (collection st m)).
  unfold app. rewrite app_get_items by done. rewrite Hm.
  unfold run. rewrite bind_connect_ok by done.
  unfold find_sorted, bind, effect, read, ret. cbn.
  change (collection (emit (DbFind (modelName m)) (connected env st)) m)
    with (collection (connected env st) m).
  rewrite collection_connected.
  split; [done |]. split; [apply sort_date_desc_perm |].
  split; [apply sort_date_desc_newest_first |].
  intros ->. reflexivity.
Qed.

Lemma C8_list_three_notes_witness :
  exists items,
    (app Sample.pe_s3 Sample.env (request GET ["api"; "notes"] ∅ None) Sample.three_notes).1
    = json (Json_list items) /\
    items ≡ₚ collection Sample.three_notes Sample.note_model /\
    (forall (i j : nat) (x y : Doc) (ty : Z),
       (i < j)%nat -> items !! i = Some x -> items !! j = Some y ->
       y !! "date" = Some (FDate ty) ->
       exists tx, x !! "date" = Some (FDate tx) /\ ty <= tx) /\
    (collection Sample.three_notes Sample.note_model = [] -> items = []).
Proof.
  apply (C8_list_all_by_date_descending Sample.pe_s3 Sample.env Sample.three_notes
           false "notes" Sample.note_model ∅ None); reflexivity.
Defined.

(** ** The activity log *)

Lemma app_post_activity_lit pe env A t b fp st :
  lit "activity" t = true ->
  app_with pe env A (request POST ["api"; t] b fp) st
  = run (connectToDatabase pe env >>
         match A with
         | None => throw (new_Error "Activity Model is not defined. Check models.js exports.")
         | Some act =>
             let newActivity :=
               object [ ("id", Some (VStr (generateId env)));
                        ("action", b !! "action");
                        ("itemType", b !! "itemType");
                        ("itemName", b !! "itemName");
                        ("date", Some (VDate (Date_now env))) ] in
             let* saved := create env act newActivity in
             ret (status_json 201 (Json_doc saved))
         end) st.
Proof.
  intros Ha. unfold app_with, routes. skip_by_method.
  erewrite dispatch_hit; [| reflexivity | | reflexivity | reflexivity]; [done |].
  cbn. by rewrite Ha.
Qed.

Lemma app_post_activity pe env A b fp st :
  app_with pe env A (request POST ["api"; "activity"] b fp) st
  = run (connectToDatabase pe env >>
         match A with
         | None => throw (new_Error "Activity Model is not defined. Check models.js exports.")
         | Some act =>
             let newActivity :=
               object [ ("id", Some (VStr (generateId env)));
                        ("action", b !! "action");
                        ("itemType", b !! "itemType");
                        ("itemName", b !! "itemName");
                        ("date", Some (VDate (Date_now env))) ] in
             let* saved := create env act newActivity in
             ret (status_json 201 (Json_doc saved))
         end) st.
Proof. by apply app_post_activity_lit. Qed.

(** A body that throws right after connecting is answered with 500, and
    the collections are left as they were. *)
Lemma run_connect_throw pe env e st :
  let out := run (connectToDatabase pe env >> throw e) st in
  status out.1 = 500 /\ db out.2 = db st.
Proof.
  unfold run, bind, throw.
  pose proof (connect_frame pe env st) as (Hdb & _).
  destruct (connectToDatabase pe env st) as [[[]|e'] st']; cbn in *; done.
Qed.

(** models.js exports no [Activity]: the import is undefined. *)
Lemma Activity_undefined : Activity = None.
Proof. reflexivity. Qed.

(** C1 (as the code behaves): with the exports of models.js the import
    [Activity] is undefined, so for every state, body and world
    [GET /api/activity] answers 500 instead of a list of entries, and
    [POST /api/activity] answers 500 and stores nothing. *)
Theorem C1_activity_routes_answer_500 pe env st b fp :
  status (app pe env (request GET ["api"; "activity"] b fp) st).1 = 500 /\
  status (app pe env (request POST ["api"; "activity"] b fp) st).1 = 500 /\
  db (app pe env (request POST ["api"; "activity"] b fp) st).2 = db st.
Proof.
  unfold app. rewrite app_get_activity, app_post_activity, Activity_undefined.
  pose proof (run_connect_throw pe env
    (new_Error "Activity Model is not defined. Check models.js exports.") st) as [H1 H2].
  done.
Qed.

Example get_activity_message :
  (app Sample.pe_s3 Sample.env (request GET ["api"; "activity"] ∅ None) Sample.empty).1
  = status_json 500 (Json_error "Activity Model is not defined. Check models.js exports.").
Proof. reflexivity. Qed.

(** The query of [GET /api/activity] does what C1 asks for once a model
    is bound to [Activity]: while the database answers, the view holds
    at most 20 entries, and the entries of the view followed by the
    entries left out are the whole log ordered by [date] descending
    (whenever an entry has a date, every entry before it has a date that
    is not older).  So the view is newest first, and every entry left out
    is no newer than any entry of the view. *)
Theorem activity_view_with_a_model pe env st act b fp :
  connects pe env st = true ->
  exists items rest,
    (app_with pe env (Some act) (request GET ["api"; "activity"] b fp) st).1
    = json (Json_list items) /\
    length items = Nat.min 20 (length (collection st act)) /\
    items ++ rest ≡ₚ collection st act /\
    (forall (i j : nat) (x y : Doc) (ty : Z),
       (i < j)%nat -> (items ++ rest) !! i = Some x -> (items ++ rest) !! j = Some y ->
       y !! "date" = Some (FDate ty) ->
       exists tx, x !! "date" = Some (FDate tx) /\ ty <= tx).
Proof.
  intros Hc.
  set (sorted := sort_date_desc (collection st act)).
  exists (take 20 sorted), (drop 20 sorted).
  rewrite app_get_activity. unfold run. rewrite bind_connect_ok by done.
  unfold find_sorted_limit, bind, effect, read, ret. cbn.
  change (collection (emit (DbFind (modelName act)) (connected env st)) act)
    with (collection (connected env st) act).
  rewrite collection_connected. fold sorted.
  split; [done |].
  split; [rewrite length_take; unfold sorted;
          by rewrite (Permutation_length (sort_date_desc_perm _)) |].
  rewrite take_drop.
  split; [apply sort_date_desc_perm | apply sort_date_desc_newest_first].
Qed.

Lemma activity_view_witness :
  exists items rest,
    (app_with Sample.pe_s3 Sample.env (Some Sample.note_model)
       (request GET ["api"; "activity"] ∅ None) Sample.three_notes).1
    = json (Json_list items) /\
    length items = Nat.min 20 (length (collection Sample.three_notes Sample.note_model)) /\
    items ++ rest ≡ₚ collection Sample.three_notes Sample.note_model /\
    (forall (i j : nat) (x y : Doc) (ty : Z),
       (i < j)%nat -> (items ++ rest) !! i = Some x -> (items ++ rest) !! j = Some y ->
       y !! "date" = Some (FDate ty) ->
       exists tx, x !! "date" = Some (FDate tx) /\ ty <= tx).
Proof.
  apply (activity_view_with_a_model Sample.pe_s3 Sample.env Sample.three_notes
           Sample.note_model ∅ None); reflexivity.
Defined.

(** ** Records by id *)

Lemma findOne_eq m id st :
  findOne m id st
  = (Ok (List.find (has_id id) (collection st m)), emit (DbFindOne (modelName m) id) st).
Proof. reflexivity. Qed.

Lemma CastError_message m :
  String.eqb (message (CastError m)) "" = false.
Proof. reflexivity. Qed.

(** C3 (as the code behaves): for a registered type and an id that matches
    no record of it, [DELETE] answers 404 with the error body
    [Not found], but [PUT] answers 200 with the body [null] (or 500 when
    the request body does not cast against the schema): the update
    handler never checks the [null] that [findOneAndUpdate] returns. *)
Theorem C3_missing_id_delete_404_put_200_null pe env st nested t m id b fp :
  getModel t = AModel m ->
  connects pe env st = true ->
  named id = true ->
  List.find (has_id id) (collection st m) = None ->
  (app pe env (request DELETE (item_path nested t id) b fp) st).1
  = status_json 404 (Json_error "Not found") /\
  (app pe env (request PUT (item_path nested t id) b fp) st).1
  = match cast_update env (schema m) b with
    | Some _ => json Json_null
    | None => status_json 500 (Json_error (message (CastError m)))
    end.
Proof.
  intros Hm Hc Hi Hf.
  destruct (tokens_named t (getModel_AModel_tokens _ _ Hm)) as [Hn _].
  unfold app. rewrite app_delete_item, app_update_item by done. rewrite Hm.
  unfold run. rewrite !bind_connect_ok by done. split.
  - unfold bind at 1. rewrite findOne_eq.
    rewrite collection_connected, Hf. reflexivity.
  - unfold findOneAndUpdate. destruct (cast_update env (schema m) b) as [u|].
    + unfold bind, effect, read, ret. cbn.
      change (collection (emit _ (connected env st)) m) with (collection (connected env st) m).
      rewrite collection_connected, Hf. reflexivity.
    + unfold bind, throw, error_handler. cbn [fst]. by rewrite CastError_message.
Qed.

Lemma C3_put_unknown_note_witness :
  (app Sample.pe_s3 Sample.env (request DELETE ["api"; "notes"; "no-such-id"] ∅ None)
     Sample.three_notes).1
  = status_json 404 (Json_error "Not found") /\
  (app Sample.pe_s3 Sample.env (request PUT ["api"; "notes"; "no-such-id"] ∅ None)
     Sample.three_notes).1
  = json Json_null.
Proof.
  pose proof (C3_missing_id_delete_404_put_200_null Sample.pe_s3 Sample.env
                Sample.three_notes false "notes" Sample.note_model "no-such-id" ∅ None
                eq_refl eq_refl eq_refl eq_refl) as H.
  vm_compute cast_update in H. exact H.
Defined.

(** ** Unregistered tokens *)

(** C6 (as the code behaves): for a token that [modelMap] does not resolve
    ([getModel] gives [undefined]), [GET] and [POST] answer 404 with the
    error [Invalid type: <token>], while [DELETE] and [PUT] answer 404
    with the fixed error [Invalid type], which does not name the token. *)
Theorem C6_undefined_token_answers pe env st nested t id b fp :
  getModel t = Undefined ->
  named t = true ->
  lit "activity" t = false ->
  named id = true ->
  connects pe env st = true ->
  (app pe env (request GET (type_path nested t) b fp) st).1
  = status_json 404 (Json_error ("Invalid type: " +:+ t)) /\
  (app pe env (request POST (type_path nested t) b fp) st).1
  = status_json 404 (Json_error ("Invalid type: " +:+ t)) /\
  (app pe env (request DELETE (item_path nested t id) b fp) st).1
  = status_json 404 (Json_error "Invalid type") /\
  (app pe env (request PUT (item_path nested t id) b fp) st).1
  = status_json 404 (Json_error "Invalid type").
Proof.
  intros Hm Hn Ha Hi Hc. unfold app.
  rewrite app_get_items, app_post_item, app_delete_item, app_update_item by done.
  rewrite Hm. unfold run. by rewrite !bind_connect_ok.
Qed.

Lemma C6_unknown_token_witness :
  (app Sample.pe_s3 Sample.env (request GET ["api"; "widgets"] ∅ None) Sample.empty).1
  = status_json 404 (Json_error "Invalid type: widgets") /\
  (app Sample.pe_s3 Sample.env (request POST ["api"; "widgets"] ∅ None) Sample.empty).1
  = status_json 404 (Json_error "Invalid type: widgets") /\
  (app Sample.pe_s3 Sample.env (request DELETE ["api"; "widgets"; "1"] ∅ None) Sample.empty).1
  = status_json 404 (Json_error "Invalid type") /\
  (app Sample.pe_s3 Sample.env (request PUT ["api"; "widgets"; "1"] ∅ None) Sample.empty).1
  = status_json 404 (Json_error "Invalid type").
Proof.
  apply (C6_undefined_token_answers Sample.pe_s3 Sample.env Sample.empty
           false "widgets" "1" ∅ None); reflexivity.
Defined.

(** A token that names a member of [Object.prototype] passes the
    [!Model] guard: the model methods are missing on it and the request
    ends in the error handler with 500; on [constructor] the generic POST
    calls [Object.create] and answers 201 with an empty object. *)
Theorem inherited_token_answers pe env st nested t name id b fp :
  getModel t = Inherited name ->
  named t = true ->
  lit "activity" t = false ->
  named id = true ->
  connects pe env st = true ->
  (app pe env (request GET (type_path nested t) b fp) st).1
  = status_json 500 (Json_error "Model.find is not a function") /\
  (app pe env (request POST (type_path nested t) b fp) st).1
  = (if String.eqb name "constructor" then status_json 201 (Json_doc ∅)
     else status_json 500 (Json_error "Model.create is not a function")) /\
  (app pe env (request DELETE (item_path nested t id) b fp) st).1
  = status_json 500 (Json_error "Model.findOne is not a function") /\
  (app pe env (request PUT (item_path nested t id) b fp) st).1
  = status_json 500 (Json_error "Model.findOneAndUpdate is not a function").
Proof.
  intros Hm Hn Ha Hi Hc. unfold app.
  rewrite app_get_items, app_post_item, app_delete_item, app_update_item by done.
  rewrite Hm. unfold run. rewrite !bind_connect_ok by done.
  repeat split; try reflexivity. by destruct (String.eqb name "constructor").
Qed.

Lemma inherited_token_witness :
  (app Sample.pe_s3 Sample.env (request GET ["api"; "toString"] ∅ None) Sample.empty).1
  = status_json 500 (Json_error "Model.find is not a function") /\
  (app Sample.pe_s3 Sample.env (request POST ["api"; "toString"] ∅ None) Sample.empty).1
  = status_json 500 (Json_error "Model.create is not a function") /\
  (app Sample.pe_s3 Sample.env (request DELETE ["api"; "toString"; "1"] ∅ None) Sample.empty).1
  = status_json 500 (Json_error "Model.findOne is not a function") /\
  (app Sample.pe_s3 Sample.env (request PUT ["api"; "toString"; "1"] ∅ None) Sample.empty).1
  = status_json 500 (Json_error "Model.findOneAndUpdate is not a function").
Proof.
  apply (inherited_token_answers Sample.pe_s3 Sample.env Sample.empty
           false "toString" "toString" "1" ∅ None); reflexivity.
Defined.

(** ** Upload *)

Lemma error_handler_rejected e st0 st :
  db st = db st0 ->
  filter is_db_write (trace st) = filter is_db_write (trace st0) ->
  rejected st0 (error_handler e st).
Proof.
  intros Hdb Htr. unfold rejected, error_handler. cbn.
  split; [done |]. split.
  - destruct (String.eqb_spec (message e) ""); eexists; split; try reflexivity; done.
  - split; [done |]. by rewrite filter_app, app_nil_r.
Qed.

Lemma run_connect_throw_rejected pe env e st0 st :
  db st = db st0 ->
  filter is_db_write (trace st) = filter is_db_write (trace st0) ->
  rejected st0 (run (connectToDatabase pe env >> throw e) st).
Proof.
  intros Hdb Htr. unfold run, bind, throw.
  pose proof (connect_frame pe env st) as (Hdb' & _ & _ & Htr' & _).
  destruct (connectToDatabase pe env st) as [[[]|e'] st']; cbn in *;
    apply error_handler_rejected; congruence.
Qed.

(** Storing and removing a refused part always goes through. *)
Lemma store_and_remove_eq env k st :
  store_and_remove env k st
  = (Ok tt,
     set_bucket (match deleteObject_failure env with
                 | Some _ => {[k]} ∪ bucket st
                 | None => ({[k]} ∪ bucket st) ∖ {[k]}
                 end)
       (emit (S3DeleteObject (Some (FStr k))) (emit (S3Upload k) st))).
Proof. unfold store_and_remove. by destruct (deleteObject_failure env). Qed.

Lemma refused_part_eq env k e st :
  (store_and_remove env k >> throw (A:=Request) e) st
  = (Throw e,
     set_bucket (match deleteObject_failure env with
                 | Some _ => {[k]} ∪ bucket st
                 | None => ({[k]} ∪ bucket st) ∖ {[k]}
                 end)
       (emit (S3DeleteObject (Some (FStr k))) (emit (S3Upload k) st))).
Proof. unfold bind. by rewrite store_and_remove_eq. Qed.

(** multer stores the part, if any; it never writes to the database, and
    without a part it leaves the request as it came. *)
Lemma single_frame pe env client req st :
  let out := single pe env client req st in
  db out.2 = db st /\
  filter is_db_write (trace out.2) = filter is_db_write (trace st) /\
  (file_part req = None -> forall req', out.1 = Ok req' -> req' = req).
Proof.
  unfold single.
  destruct (upload_failure env); [done |].
  destruct (file_part req) as [part|].
  - destruct client.
    + destruct (over_limit env (part_size part)).
      * rewrite refused_part_eq. cbn. by rewrite !filter_app, !app_nil_r.
      * cbn. by rewrite filter_app, app_nil_r.
    + cbn. by rewrite filter_app, app_nil_r.
  - cbn. repeat split; congruence.
Qed.

(** multer changes nothing of the request but [req.file]. *)
Lemma single_request pe env client req st req' st' :
  single pe env client req st = (Ok req', st') ->
  method req' = method req /\ path req' = path req /\ body req' = body req.
Proof.
  unfold single.
  destruct (upload_failure env); [done |].
  destruct (file_part req) as [part|]; [| by intros [= <- _]].
  destruct client.
  - destruct (over_limit env (part_size part)); [by rewrite refused_part_eq |].
    by intros [= <- _].
  - by intros [= <- _].
Qed.

Lemma uploadMiddleware_frame pe env req st :
  let out := uploadMiddleware pe env req st in
  db out.2 = db st /\
  filter is_db_write (trace out.2) = filter is_db_write (trace st) /\
  (file_part req = None -> forall req', out.1 = Ok req' -> req' = req).
Proof. apply single_frame. Qed.

(** C7: a [POST /api/files/upload] without a file part, or while object
    storage is unconfigured, is answered with 500 and a JSON error body
    with a non-empty message; no collection changes and no write reaches
    the database, so no File record is created. *)
Theorem C7_upload_fails_before_any_record pe env st b fp :
  fp = None \/ s3 pe = None ->
  let out := app pe env (request POST ["api"; "files"; "upload"] b fp) st in
  status out.1 = 500 /\
  (exists msg, rbody out.1 = Json_error msg /\ msg <> "") /\
  db out.2 = db st /\
  filter is_db_write (trace out.2) = filter is_db_write (trace st).
Proof.
  intros H. cbv zeta. fold (rejected st (app pe env (request POST ["api"; "files"; "upload"] b fp) st)).
  unfold app. rewrite app_upload.
  pose proof (uploadMiddleware_frame pe env (request POST ["api"; "files"; "upload"] b fp) st)
    as (Hdb & Htr & Hreq).
  destruct (uploadMiddleware _ _ _ _) as [[req'|err] st']; cbn [fst snd] in *.
  - destruct (s3 pe) as [client|] eqn:Hs3.
    + destruct H as [-> | H]; [| done].
      rewrite (Hreq eq_refl req' eq_refl). cbn [file request].
      by apply run_connect_throw_rejected.
    + by apply run_connect_throw_rejected.
  - by apply error_handler_rejected.
Qed.

Lemma C7_upload_without_part_witness :
  let out := app Sample.pe_s3 Sample.env
               (request POST ["api"; "files"; "upload"] ∅ None) Sample.with_file in
  status out.1 = 500 /\
  (exists msg, rbody out.1 = Json_error msg /\ msg <> "") /\
  db out.2 = db Sample.with_file /\
  filter is_db_write (trace out.2) = filter is_db_write (trace Sample.with_file).
Proof.
  apply (C7_upload_fails_before_any_record Sample.pe_s3 Sample.env Sample.with_file ∅ None).
  left. reflexivity.
Defined.

Example upload_without_part_message :
  (app Sample.pe_s3 Sample.env (request POST ["api"; "files"; "upload"] ∅ None)
     Sample.with_file).1
  = status_json 500 (Json_error "No file uploaded.").
Proof. reflexivity. Qed.

Example upload_unconfigured_message :
  (app Sample.pe_degraded Sample.env
     (request POST ["api"; "files"; "upload"] ∅ (Some (mkFilePart "a.txt" "text/plain" 3)))
     Sample.empty).1
  = status_json 500 (Json_error "AWS S3 not configured. Check environment variables.").
Proof. reflexivity. Qed.

(** ** Files: download and delete *)

Lemma collection_emit e st m : collection (emit e st) m = collection st m.
Proof. reflexivity. Qed.

Lemma collection_set_collection m c st : collection (set_collection m c st) m = c.
Proof. unfold collection, set_collection. cbn. apply lookup_total_insert_eq. Qed.

Example download_existing_file :
  (app Sample.pe_s3 Sample.env (request GET ["api"; "files"; "download"; "f1"] ∅ None)
     Sample.with_file).1
  = redirect (mkSignedUrl Sample.client "getObject" (Some "bucket") "uploads/1-a.txt" 60).
Proof. reflexivity. Qed.

(** C9 (as stated) fails in degraded mode: without storage credentials a
    download of an id that no File record has is answered with 500, not
    404, and a download of an existing record is answered with 500, not
    with a redirect. *)
Lemma C9_download_unconfigured_counterexample :
  s3 Sample.pe_degraded = None /\
  List.find (has_id "nope") (collection Sample.with_file FileModel) = None /\
  (app Sample.pe_degraded Sample.env (request GET ["api"; "files"; "download"; "nope"] ∅ None)
     Sample.with_file).1
  = status_json 500 (Json_error "AWS S3 not configured") /\
  List.find (has_id "f1") (collection Sample.with_file FileModel) = Some Sample.file_doc /\
  (app Sample.pe_degraded Sample.env (request GET ["api"; "files"; "download"; "f1"] ∅ None)
     Sample.with_file).1
  = status_json 500 (Json_error "AWS S3 not configured").
Proof. repeat split; vm_compute; reflexivity. Qed.

(** C9 (amended): while the database answers, a download with object
    storage configured is answered with 404 [File not found] when no File
    record has the id, and with a 302 redirect to the URL the client signs
    for [getObject] on the record's [filename], expiring after 60
    seconds, when a record with a non-empty [filename] has it (500 when
    the first such record has no [filename]: the client refuses the
    key); with object storage unconfigured the answer is 500
    [AWS S3 not configured] either way.  The
    response never carries the bytes, and nothing is written. *)
Theorem C9_download_amended pe env st id b fp :
  connects pe env st = true ->
  named id = true ->
  let out := app pe env (request GET ["api"; "files"; "download"; id] b fp) st in
  match s3 pe with
  | None => out.1 = status_json 500 (Json_error "AWS S3 not configured")
  | Some client =>
      match List.find (has_id id) (collection st FileModel) with
      | None => out.1 = status_json 404 (Json_error "File not found")
      | Some f =>
          match f !! "filename" with
          | Some (FStr k) =>
              if String.eqb k "" then status out.1 = 500
              else out.1 = redirect (mkSignedUrl client "getObject" (S3_BUCKET_NAME pe) k 60)
          | _ => status out.1 = 500
          end
      end
  end /\
  db out.2 = db st /\ bucket out.2 = bucket st.
Proof.
  intros Hc Hi. cbv zeta. unfold app. rewrite app_download by done.
  unfold run. rewrite bind_connect_ok by done.
  destruct (connected_frame env st) as (Hdb & Hb & _).
  destruct (s3 pe) as [client|]; [| done].
  change (the_model File "findOne") with (ret (A:=Model) FileModel).
  unfold bind, ret, findOne, effect, read, s3_getSignedUrl. cbn.
  rewrite collection_emit, collection_connected.
  destruct (List.find (has_id id) (collection st FileModel)) as [f|]; [| done].
  destruct (f !! "filename") as [[|k| | | |]|]; cbn; try done.
  by destruct (String.eqb k "").
Qed.

Lemma C9_download_witness :
  let out := app Sample.pe_s3 Sample.env
               (request GET ["api"; "files"; "download"; "f1"] ∅ None) Sample.with_file in
  out.1 = redirect (mkSignedUrl Sample.client "getObject" (Some "bucket") "uploads/1-a.txt" 60) /\
  db out.2 = db Sample.with_file /\ bucket out.2 = bucket Sample.with_file.
Proof.
  exact (C9_download_amended Sample.pe_s3 Sample.env Sample.with_file "f1" ∅ None
           eq_refl eq_refl).
Defined.

Lemma deleteOne_eq m id st :
  deleteOne m id st
  = (Ok tt, set_collection m (remove_first (has_id id) (collection st m))
              (emit (DbDeleteOne (modelName m) id) st)).
Proof. reflexivity. Qed.

Example delete_file_with_object :
  let out := app Sample.pe_s3 Sample.env (request DELETE ["api"; "files"; "f1"] ∅ None)
               Sample.with_file in
  out.1 = status_send 204 /\ collection out.2 FileModel = [] /\ bucket out.2 = ∅.
Proof. repeat split; vm_compute; reflexivity. Qed.

(** C5 (as stated) fails: in degraded mode a [DELETE /api/files/f1] of an
    existing record is answered with 204, the record is removed, and no
    call at all goes to the object store: the object deletion is skipped
    without any error. *)
Lemma C5_degraded_delete_counterexample :
  let out := app Sample.pe_degraded Sample.env (request DELETE ["api"; "files"; "f1"] ∅ None)
               Sample.with_file in
  s3 Sample.pe_degraded = None /\
  out.1 = status_send 204 /\
  collection out.2 FileModel = [] /\
  bucket out.2 = bucket Sample.with_file /\
  filter is_blob_event (trace out.2) = [].
Proof. repeat split; vm_compute; reflexivity. Qed.

(** C5 (amended): in degraded mode, while the database answers, every
    download is answered with 500 and the configuration error
    [AWS S3 not configured]; [DELETE /api/files/:id] issues no call to the
    object store: for an existing record it removes the record and answers
    204, leaving the bucket as it was, and for an unknown id it answers
    404. *)
Theorem C5_degraded_mode_amended pe env st nested id b fp :
  s3 pe = None ->
  connects pe env st = true ->
  named id = true ->
  (app pe env (request GET ["api"; "files"; "download"; id] b fp) st).1
  = status_json 500 (Json_error "AWS S3 not configured") /\
  let out := app pe env (request DELETE (item_path nested "files" id) b fp) st in
  out.1 = match List.find (has_id id) (collection st FileModel) with
          | Some _ => status_send 204
          | None => status_json 404 (Json_error "Not found")
          end /\
  collection out.2 FileModel = remove_first (has_id id) (collection st FileModel) /\
  bucket out.2 = bucket st /\
  filter is_blob_event (trace out.2) = filter is_blob_event (trace (connected env st)).
Proof.
  intros Hs3 Hc Hi. split.
  - unfold app. rewrite app_download by done.
    unfold run. rewrite bind_connect_ok by done. by rewrite Hs3.
  - cbv zeta. unfold app. rewrite app_delete_item by done.
    change (getModel "files") with (AModel FileModel). rewrite Hs3.
    unfold run. rewrite bind_connect_ok by done.
    destruct (connected_frame env st) as (Hdb & Hb & _).
    unfold bind, ret, findOne, deleteOne, effect, read. cbn.
    rewrite !collection_emit, collection_connected.
    destruct (List.find (has_id id) (collection st FileModel)) as [f|] eqn:Hf; cbn.
    + rewrite collection_set_collection, !collection_emit, collection_connected, !filter_app.
      cbn. by rewrite !app_nil_r.
    + rewrite ?collection_emit, ?collection_connected, ?filter_app. cbn. rewrite ?app_nil_r.
      split; [done |]. split; [| done].
      clear -Hf. induction (collection st FileModel) as [|d c IH]; [done |].
      cbn in *. destruct (has_id id d); [done |]. by rewrite <- IH.
Qed.

Lemma C5_degraded_mode_witness :
  (app Sample.pe_degraded Sample.env (request GET ["api"; "files"; "download"; "f1"] ∅ None)
     Sample.with_file).1
  = status_json 500 (Json_error "AWS S3 not configured") /\
  let out := app Sample.pe_degraded Sample.env (request DELETE ["api"; "files"; "f1"] ∅ None)
               Sample.with_file in
  out.1 = status_send 204 /\
  collection out.2 FileModel
  = remove_first (has_id "f1") (collection Sample.with_file FileModel) /\
  bucket out.2 = bucket Sample.with_file /\
  filter is_blob_event (trace out.2)
  = filter is_blob_event (trace (connected Sample.env Sample.with_file)).
Proof.
  exact (C5_degraded_mode_amended Sample.pe_degraded Sample.env Sample.with_file false "f1"
           ∅ None eq_refl eq_refl eq_refl).
Defined.

(** C4 (as stated) fails: with object storage configured, when
    [s3.deleteObject] fails the request is answered with 500 and the File
    record is still there; no delete reached the database. *)
Lemma C4_object_delete_failure_counterexample :
  let out := app Sample.pe_s3 Sample.env_s3_down (request DELETE ["api"; "files"; "f1"] ∅ None)
               Sample.with_file in
  out.1 = status_json 500 (Json_error "connect ETIMEDOUT") /\
  collection out.2 FileModel = [Sample.file_doc] /\
  filter is_db_write (trace out.2) = [].
Proof. repeat split; vm_compute; reflexivity. Qed.

(** C4 (amended): deleting an existing File record (with a non-empty
    [filename]) while object storage is configured first asks the object
    store to delete the object and only then deletes the record, answering
    204.  When the object-store deletion fails, the failure is logged by
    the error handler and escalated: the answer is 500 with the error's
    message, the record is not deleted and no delete reaches the
    database. *)
Theorem C4_delete_file_amended pe env st nested id b fp client item k :
  s3 pe = Some client ->
  connects pe env st = true ->
  named id = true ->
  List.find (has_id id) (collection st FileModel) = Some item ->
  valid_key (item !! "filename") = Some k ->
  let out := app pe env (request DELETE (item_path nested "files" id) b fp) st in
  match deleteObject_failure env with
  | None =>
      out.1 = status_send 204 /\
      bucket out.2 = bucket st ∖ {[k]} /\
      collection out.2 FileModel = remove_first (has_id id) (collection st FileModel) /\
      trace out.2 = trace (connected env st)
                    ++ [ DbFindOne "File" id; S3DeleteObject (item !! "filename");
                         DbDeleteOne "File" id ]
  | Some err =>
      out.1 = status_json 500
                (Json_error (if String.eqb (message err) "" then "Internal Server Error"
                             else message err)) /\
      bucket out.2 = bucket st /\
      collection out.2 FileModel = collection st FileModel /\
      trace out.2 = trace (connected env st)
                    ++ [ DbFindOne "File" id; S3DeleteObject (item !! "filename");
                         ConsoleError "Server Error:" err ]
  end.
Proof.
  intros Hs3 Hc Hi Hf Hk. cbv zeta. unfold app. rewrite app_delete_item by done.
  change (getModel "files") with (AModel FileModel). rewrite Hs3.
  unfold run. rewrite bind_connect_ok by done.
  destruct (connected_frame env st) as (Hdb & Hb & _).
  unfold bind, ret, findOne, deleteOne, effect, read. cbn.
  rewrite !collection_emit, collection_connected, Hf. cbn.
  unfold s3_deleteObject. rewrite Hk.
  unfold bind, ret, throw, effect, error_handler.
  destruct (deleteObject_failure env) as [err|]; cbn.
  - rewrite !collection_emit, collection_connected, Hb, <- !app_assoc. done.
  - rewrite collection_set_collection. unfold set_bucket, emit; cbn.
    rewrite Hb, <- !app_assoc. split; [done |]. split; [done |]. split; [| done].
    unfold collection. cbn. by rewrite Hdb.
Qed.

Lemma C4_delete_file_witness :
  let out := app Sample.pe_s3 Sample.env_s3_down (request DELETE ["api"; "files"; "f1"] ∅ None)
               Sample.with_file in
  out.1 = status_json 500 (Json_error "connect ETIMEDOUT") /\
  bucket out.2 = bucket Sample.with_file /\
  collection out.2 FileModel = collection Sample.with_file FileModel /\
  trace out.2 = trace (connected Sample.env_s3_down Sample.with_file)
                ++ [ DbFindOne "File" "f1"; S3DeleteObject (Sample.file_doc !! "filename");
                     ConsoleError "Server Error:"
                       (mkError "NetworkingError" "connect ETIMEDOUT") ].
Proof.
  exact (C4_delete_file_amended Sample.pe_s3 Sample.env_s3_down Sample.with_file false "f1"
           ∅ None (mkS3Client "AKIA" (Some "secret") "ap-south-2" (Some "v4")) Sample.file_doc
           "uploads/1-a.txt" eq_refl eq_refl eq_refl eq_refl eq_refl).
Defined.

(** ** Creating records *)

(** A created document holds schema paths only. *)
Lemma cast_doc_strict rt now oid sch obj d p :
  cast_doc rt now oid sch obj = Some d -> p ∉ sch.*1 -> d !! p = None.
Proof.
  revert d. induction sch as [|[q sq] sch IH]; intros d H Hp.
  - injection H as <-. apply lookup_empty.
  - cbn in H. apply not_elem_of_cons in Hp as [Hne Hp]. cbn in Hne.
    destruct (cast_doc rt now oid sch obj) as [d'|]; [| done].
    specialize (IH d' eq_refl Hp).
    destruct (obj !! q) as [v|].
    + destruct (castPath rt (ptype sq) v) as [fv|]; [| done].
      injection H as <-. by rewrite lookup_insert_ne.
    + injection H as <-. unfold apply_default.
      destruct (pdefault sq) as [[]|]; rewrite ?lookup_insert_ne by done; try done.
      destruct (ptype sq); try done. by rewrite lookup_insert_ne.
Qed.

(** Each schema path of a created document is the cast of the given value,
    or the default of the path when none was given. *)
Lemma cast_doc_lookup rt now oid sch obj d p sp :
  cast_doc rt now oid sch obj = Some d ->
  NoDup sch.*1 ->
  (p, sp) ∈ sch ->
  d !! p = match obj !! p with
           | Some v => castPath rt (ptype sp) v
           | None => apply_default now oid p sp ∅ !! p
           end.
Proof.
  revert d. induction sch as [|[q sq] sch IH]; intros d H Hnd Hin.
  - by apply elem_of_nil in Hin.
  - cbn in H, Hnd. apply NoDup_cons in Hnd as [Hq Hnd].
    destruct (cast_doc rt now oid sch obj) as [d'|] eqn:Hd'; [| done].
    apply elem_of_cons in Hin as [[= -> ->] | Hin].
    + pose proof (cast_doc_strict _ _ _ _ _ _ _ Hd' Hq) as Hnone.
      destruct (obj !! q) as [v|].
      * destruct (castPath rt (ptype sq) v) as [fv|]; [| done].
        injection H as <-. by rewrite lookup_insert_eq.
      * injection H as <-. unfold apply_default.
        destruct (pdefault sq) as [[]|]; rewrite ?lookup_insert_eq; try done.
        destruct (ptype sq); rewrite ?lookup_insert_eq, ?lookup_empty; done.
    + assert (p <> q) as Hne.
      { intros ->. apply Hq. apply list_elem_of_fmap. by exists (q, sp). }
      specialize (IH d' eq_refl Hnd Hin).
      destruct (obj !! q) as [v|].
      * destruct (castPath rt (ptype sq) v) as [fv|]; [| done].
        injection H as <-. by rewrite lookup_insert_ne.
      * injection H as <-. unfold apply_default.
        destruct (pdefault sq) as [[]|]; rewrite ?lookup_insert_ne by done; try done.
        destruct (ptype sq); try done. by rewrite lookup_insert_ne.
Qed.

Lemma ValidationError_message m : String.eqb (message (ValidationError m)) "" = false.
Proof. unfold ValidationError. cbn. by destruct (modelName m). Qed.

Lemma DuplicateKeyError_message m : String.eqb (message (DuplicateKeyError m)) "" = false.
Proof. reflexivity. Qed.

(** What [Model.create] does, case by case. *)
Lemma create_eq env m obj st :
  create env m obj st
  = match cast_doc (runtime env) (Date_now env) (new_ObjectId env) (schema m) obj with
    | None => (Throw (ValidationError m), st)
    | Some d0 =>
        if negb (validate (schema m) d0) then (Throw (ValidationError m), st)
        else if duplicate_key (schema m) (versioned (schema m) d0) (collection st m)
             then (Throw (DuplicateKeyError m), emit (DbCreate (modelName m)) st)
             else (Ok (versioned (schema m) d0),
                   set_collection m (collection st m ++ [versioned (schema m) d0])
                     (emit (DbCreate (modelName m)) st))
    end.
Proof.
  unfold create.
  destruct (cast_doc _ _ _ _ _) as [d|]; [| done].
  destruct (negb _); [done |].
  unfold bind, effect, read, throw, ret. cbn. rewrite collection_emit.
  by destruct (duplicate_key _ _ _).
Qed.

(** The version key is the only path an insert rewrites. *)
Lemma versioned_lookup_ne sch (d : Doc) p : p <> "__v" -> versioned sch d !! p = d !! p.
Proof.
  intros H. unfold versioned. case_bool_decide; [| done]. by rewrite lookup_insert_ne.
Qed.

Lemma versioned_registry t m (d : Doc) :
  getModel t = AModel m -> versioned (schema m) d = <["__v" := FNum 0]> d.
Proof.
  intros H. unfold versioned. rewrite bool_decide_eq_true_2; [done |].
  pose proof (getModel_AModel_tokens _ _ H) as Ht.
  apply list_elem_of_In in Ht. cbn in Ht.
  repeat (destruct Ht as [<- | Ht];
          [vm_compute in H; injection H as <-; apply list_elem_of_In; cbn; tauto |]).
  destruct Ht.
Qed.

(** The answer of the generic POST on a registered token, case by case. *)
Lemma post_item_registered pe env st nested t m b fp :
  getModel t = AModel m ->
  connects pe env st = true ->
  let obj := <["id" := js_or (b !! "id") (VStr (generateId env))]> b in
  app pe env (request POST (type_path nested t) b fp) st
  = match cast_doc (runtime env) (Date_now env) (new_ObjectId env) (schema m) obj with
    | None => error_handler (ValidationError m) (connected env st)
    | Some d0 =>
        if negb (validate (schema m) d0)
        then error_handler (ValidationError m) (connected env st)
        else
          let d := <["__v" := FNum 0]> d0 in
          if duplicate_key (schema m) d (collection st m)
          then error_handler (DuplicateKeyError m)
                 (emit (DbCreate (modelName m)) (connected env st))
          else (status_json 201 (Json_doc d),
                set_collection m (collection st m ++ [d])
                  (emit (DbCreate (modelName m)) (connected env st)))
    end.
Proof.
  intros Hm Hc obj.
  destruct (tokens_named t (getModel_AModel_tokens _ _ Hm)) as [Hn Ha].
  unfold app. rewrite app_post_item by done. rewrite Hm.
  unfold run. rewrite bind_connect_ok by done. unfold bind at 1.
  rewrite create_eq, collection_connected. fold obj.
  destruct (cast_doc _ _ _ _ obj) as [d|]; [| done].
  destruct (negb _); [done |]. cbv zeta. rewrite (versioned_registry t m d Hm).
  by destruct (duplicate_key _ _ _).
Qed.






(** ** The generic create and the object store *)

Lemma blob_untouched_refl st : blob_untouched st st.
Proof. by unfold blob_untouched. Qed.

Lemma blob_untouched_trans st1 st2 st3 :
  blob_untouched st1 st2 -> blob_untouched st2 st3 -> blob_untouched st1 st3.
Proof. unfold blob_untouched. intros (-> & -> & ->) (-> & -> & ->). done. Qed.

Lemma quiet_ret {A} (a : A) : quiet (ret a).
Proof. intros st. apply blob_untouched_refl. Qed.

Lemma quiet_throw {A} e : quiet (throw (A:=A) e).
Proof. intros st. apply blob_untouched_refl. Qed.

Lemma quiet_bind {A B} (m : M A) (k : A -> M B) :
  quiet m -> (forall a, quiet (k a)) -> quiet (bind m k).
Proof.
  intros Hm Hk st. unfold bind. specialize (Hm st).
  destruct (m st) as [[a|e] st']; cbn in *; [| done].
  eapply blob_untouched_trans; [done | apply Hk].
Qed.

Lemma quiet_connect pe env : quiet (connectToDatabase pe env).
Proof.
  intros st. pose proof (connect_frame pe env st) as (_ & Hb & Ht & _ & He).
  by unfold blob_untouched.
Qed.

Lemma quiet_create env m obj : quiet (create env m obj).
Proof.
  intros st. rewrite create_eq.
  destruct (cast_doc _ _ _ _ _) as [d|]; [| apply blob_untouched_refl].
  destruct (negb _); [apply blob_untouched_refl |].
  destruct (duplicate_key _ _ _); unfold blob_untouched; cbn;
    by rewrite filter_app, app_nil_r.
Qed.

Lemma quiet_run m st : quiet m -> blob_untouched st (run m st).2.
Proof.
  intros Hm. unfold run. specialize (Hm st).
  destruct (m st) as [[r|e] st']; cbn in *; [done |].
  eapply blob_untouched_trans; [done |].
  unfold blob_untouched. cbn. by rewrite filter_app, app_nil_r.
Qed.

(** A POST on a path of the generic form never touches the object store,
    whichever route answers it. *)
Lemma post_generic_quiet pe env st nested t b fp :
  blob_untouched st (app pe env (request POST (type_path nested t) b fp) st).2.
Proof.
  unfold app.
  destruct (named t) eqn:Hn.
  - destruct (nested || negb (lit "activity" t)) eqn:Ha.
    + rewrite app_post_item_gen by done. apply quiet_run.
      apply quiet_bind; [apply quiet_connect | intros _].
      destruct (getModel t) as [|m|name]; [apply quiet_ret | |].
      * apply quiet_bind; [apply quiet_create | intros d; apply quiet_ret].
      * destruct (String.eqb name "constructor"); [apply quiet_ret | apply quiet_throw].
    + apply orb_false_iff in Ha as [-> Ha]. apply negb_false_iff in Ha.
      cbn [type_path]. rewrite app_post_activity_lit by done. apply quiet_run.
      apply quiet_bind; [apply quiet_connect | intros _].
      rewrite Activity_undefined. apply quiet_throw.
  - unfold named in Hn. apply negb_false_iff, String.eqb_eq in Hn as ->.
    unfold app_with, routes.
    destruct nested; cbn [type_path].
    + skip_by_method. rewrite dispatch_skip_path by reflexivity. do 2 skip_by_method.
      do 2 rewrite dispatch_skip_path by reflexivity. do 3 skip_by_method.
      apply blob_untouched_refl.
    + skip_by_method. rewrite dispatch_skip_path by reflexivity. do 2 skip_by_method.
      do 2 rewrite dispatch_skip_path by reflexivity. do 3 skip_by_method.
      apply blob_untouched_refl.
Qed.

Example post_ghost_file :
  let out := app Sample.pe_s3 Sample.env (request POST ["api"; "files"] Sample.ghost_file None)
               Sample.empty in
  out.1 = status_json 201 (Json_doc Sample.ghost_doc) /\
  collection out.2 FileModel = [Sample.ghost_doc] /\
  Sample.ghost_doc !! "filename" = Some (FStr "ghost") /\
  bucket out.2 = ∅.
Proof. repeat split; vm_compute; reflexivity. Qed.

(** C10: the generic POST, on either path form and for every token,
    leaves the bucket and the scratch directory as they were and issues
    no call to the object store.  On the token [files] a 201 answer to a
    body that leaves the primary key [_id] to mongoose means that the
    File record of the answer was inserted; when the keys of the body are
    plain field names it is the body cast against the File schema with
    the (given or generated) id and the version key reset, its
    [filename] and [path] being those of the body.  So a File record can name an object that was never
    stored: posting [{ filename: "ghost" }] to [/api/files] on an empty
    system answers 201 and stores that record while the bucket stays
    empty. *)
Theorem C10_generic_create_bypasses_blob_store pe env st nested t b fp :
  let out := app pe env (request POST (type_path nested t) b fp) st in
  (bucket out.2 = bucket st /\
   tmp out.2 = tmp st /\
   filter is_blob_event (trace out.2) = filter is_blob_event (trace st)) /\
  (forall d, t = "files" -> out.1 = status_json 201 (Json_doc d) ->
     b !! "_id" = None ->
     collection out.2 FileModel = collection st FileModel ++ [d] /\
     (plain_keys b = true ->
      (exists d0,
         cast_doc (runtime env) (Date_now env) (new_ObjectId env) (schema FileModel)
           (<["id" := js_or (b !! "id") (VStr (generateId env))]> b) = Some d0 /\
         d = <["__v" := FNum 0]> d0) /\
      d !! "filename" = b !! "filename" ≫= castString (runtime env) /\
      d !! "path" = b !! "path" ≫= castString (runtime env))) /\
  (let ghost := app Sample.pe_s3 Sample.env
                  (request POST ["api"; "files"] Sample.ghost_file None) Sample.empty in
   plain_keys Sample.ghost_file = true /\
   Sample.ghost_file !! "_id" = None /\
   ghost.1 = status_json 201 (Json_doc Sample.ghost_doc) /\
   collection ghost.2 FileModel = [Sample.ghost_doc] /\
   Sample.ghost_doc !! "filename" = Some (FStr "ghost") /\
   "ghost" ∉ bucket ghost.2).
Proof.
  cbv zeta. split; [apply post_generic_quiet |]. split.
  - intros d -> Hout _. unfold app in *.
    rewrite app_post_item in * by done.
    change (getModel "files") with (AModel FileModel) in *.
    unfold run, bind in *.
    pose proof (connect_frame pe env st) as (Hdb & _).
    destruct (connectToDatabase pe env st) as [[[]|e] st1]; [| done].
    cbn [snd] in Hdb.
    assert (collection st1 FileModel = collection st FileModel) as Hcoll
      by (unfold collection; by rewrite Hdb).
    rewrite create_eq in *.
    set (obj := <["id" := js_or (b !! "id") (VStr (generateId env))]> b) in *.
    destruct (cast_doc (runtime env) (Date_now env) (new_ObjectId env) (schema FileModel) obj)
      as [d'|] eqn:Hd; [| done].
    destruct (negb (validate (schema FileModel) d')); [done |].
    rewrite (versioned_registry "files" FileModel d' eq_refl) in *.
    destruct (duplicate_key (schema FileModel) _ (collection st1 FileModel)); [done |].
    cbn in Hout. injection Hout as <-. unfold ret. cbn [snd].
    rewrite collection_set_collection, Hcoll.
    split; [done |]. intros _. split; [by exists d' |].
    assert (NoDup (schema FileModel).*1) as Hnd
      by (apply NoDup_ListNoDup; cbn; repeat constructor; cbn; intuition discriminate).
    rewrite !lookup_insert_ne by done.
    split.
    + rewrite (cast_doc_lookup _ _ _ _ _ _ "filename" (plain TString) Hd Hnd)
        by (apply list_elem_of_In; cbn; tauto).
      subst obj. rewrite lookup_insert_ne by done. by destruct (b !! "filename").
    + rewrite (cast_doc_lookup _ _ _ _ _ _ "path" (plain TString) Hd Hnd)
        by (apply list_elem_of_In; cbn; tauto).
      subst obj. rewrite lookup_insert_ne by done. by destruct (b !! "path").
  - destruct post_ghost_file as (H1 & H2 & H3 & H4).
    split; [done |]. split; [done |]. split; [done |]. split; [done |]. split; [done |].
    rewrite H4. apply not_elem_of_empty.
Qed.


(** ** Deleting twice *)

Lemma has_id_true id (d : Doc) : has_id id d = true <-> d !! "id" = Some (FStr id).
Proof. unfold has_id. apply bool_decide_eq_true. Qed.

(** Under unique ids, once the first record with an id is removed no
    record has that id. *)
Lemma find_remove_first_unique id c :
  unique_ids c -> List.find (has_id id) (remove_first (has_id id) c) = None.
Proof.
  unfold unique_ids. induction c as [|d c IH]; [done |].
  rewrite fmap_cons. intros [Hd Hc]%NoDup_cons. cbn.
  destruct (has_id id d) eqn:E.
  - destruct (List.find (has_id id) c) as [x|] eqn:Hx; [| done].
    apply List.find_some in Hx as [Hin Hid].
    apply has_id_true in E, Hid. exfalso. apply Hd.
    rewrite E, <- Hid. apply list_elem_of_fmap. exists x. split; [done |].
    by apply list_elem_of_In.
  - cbn. rewrite E. by apply IH.
Qed.

(** A generic DELETE answered with 204 removed the first record with the
    id from the collection. *)
Lemma delete_item_204 pe env st nested t m id b fp :
  getModel t = AModel m ->
  connects pe env st = true ->
  named id = true ->
  let out := app pe env (request DELETE (item_path nested t id) b fp) st in
  out.1 = status_send 204 ->
  collection out.2 m = remove_first (has_id id) (collection st m).
Proof.
  intros Hm Hc Hi. cbv zeta.
  destruct (tokens_named t (getModel_AModel_tokens _ _ Hm)) as [Hn _].
  unfold app. rewrite app_delete_item by done. rewrite Hm.
  unfold run. rewrite bind_connect_ok by done.
  unfold bind, findOne, deleteOne, effect, read, ret. cbn.
  rewrite !collection_emit, collection_connected.
  destruct (List.find (has_id id) (collection st m)) as [item|]; [| done].
  destruct (String.eqb t "files" && bool_decide (is_Some (s3 pe))).
  - unfold s3_deleteObject. destruct (valid_key (item !! "filename")) as [k|]; [| done].
    unfold bind, effect, throw. cbn.
    destruct (deleteObject_failure env) as [err|]; [done |].
    intros _. cbn. rewrite collection_set_collection. unfold collection. cbn.
    by rewrite (proj1 (connected_frame env st)).
  - intros _. cbn.
    by rewrite collection_set_collection, !collection_emit, collection_connected.
Qed.

(** The delete half of the delete-then-retry property: in a collection
    with unique ids, after a generic DELETE of an id was answered with
    204, a second DELETE of the same id is answered with 404. *)
Theorem delete_twice_answers_404 pe env env' st nested t m id b fp :
  getModel t = AModel m ->
  connects pe env st = true ->
  named id = true ->
  unique_ids (collection st m) ->
  let out := app pe env (request DELETE (item_path nested t id) b fp) st in
  out.1 = status_send 204 ->
  connects pe env' out.2 = true ->
  (app pe env' (request DELETE (item_path nested t id) b fp) out.2).1
  = status_json 404 (Json_error "Not found").
Proof.
  intros Hm Hc Hi Hu out H204 Hc'.
  pose proof (delete_item_204 pe env st nested t m id b fp Hm Hc Hi H204) as Hcoll.
  fold out in Hcoll.
  destruct (tokens_named t (getModel_AModel_tokens _ _ Hm)) as [Hn _].
  unfold app. rewrite app_delete_item by done. rewrite Hm.
  unfold run. rewrite bind_connect_ok by done.
  unfold bind at 1. rewrite findOne_eq, collection_connected.
  fold (app pe env (request DELETE (item_path nested t id) b fp) st). fold out.
  by rewrite Hcoll, find_remove_first_unique.
Qed.

Lemma delete_twice_witness :
  let out := app Sample.pe_s3 Sample.env (request DELETE ["api"; "notes"; "b"] ∅ None)
               Sample.three_notes in
  (app Sample.pe_s3 Sample.env (request DELETE ["api"; "notes"; "b"] ∅ None) out.2).1
  = status_json 404 (Json_error "Not found").
Proof.
  apply (delete_twice_answers_404 Sample.pe_s3 Sample.env Sample.env Sample.three_notes
           false "notes" Sample.note_model "b" ∅ None); try reflexivity.
  unfold unique_ids. apply NoDup_ListNoDup. vm_compute.
  repeat constructor; cbn; intuition discriminate.
Defined.

(** ** Identifiers *)

Lemma toString16_hex v : 0 <= v < 16 -> is_hex (toString16 v) = true.
Proof.
  intros H.
  assert (Hv : exists n, (n < 16)%nat /\ v = Z.of_nat n)
    by (exists (Z.to_nat v); split; lia).
  destruct Hv as (n & Hn & ->). unfold toString16. rewrite Nat2Z.id.
  do 16 (destruct n as [|n]; [reflexivity |]). lia.
Qed.

Lemma variant_digit r :
  0 <= r < 16 ->
  In (toString16 (Z.lor (Z.land r 3) 8)) (list_ascii_of_string "89ab").
Proof.
  intros H.
  assert (Hv : exists n, (n < 16)%nat /\ r = Z.of_nat n)
    by (exists (Z.to_nat r); split; lia).
  destruct Hv as (n & Hn & ->).
  do 16 (destruct n as [|n]; [cbn; tauto |]). lia.
Qed.

Lemma variant_hex r : 0 <= r < 16 -> is_hex (toString16 (Z.lor (Z.land r 3) 8)) = true.
Proof.
  intros H.
  assert (Hv : exists n, (n < 16)%nat /\ r = Z.of_nat n)
    by (exists (Z.to_nat r); split; lia).
  destruct Hv as (n & Hn & ->).
  do 16 (destruct n as [|n]; [reflexivity |]). lia.
Qed.

Example generateId_sample :
  generateId Sample.env = "01234567-89ab-4cde-b012-3456789abcde".
Proof. reflexivity. Qed.

(** The identifier generator: 36 characters, hyphens at the positions
    8, 13, 18 and 23, lower-case hexadecimal digits elsewhere, the version
    digit [4] at position 14 and a variant digit of [8]..[b] at position
    19, for every random source. *)
Theorem generateId_format env :
  let s := generateId env in
  String.length s = 36%nat /\
  (forall i c, String.get i s = Some c ->
     if existsb (Nat.eqb i) [8; 13; 18; 23]%nat then c = "-"%char else is_hex c = true) /\
  String.get 14 s = Some "4"%char /\
  (exists c, String.get 19 s = Some c /\ In c (list_ascii_of_string "89ab")).
Proof.
  cbv zeta. unfold generateId, id_template. cbn [replace_xy Ascii.eqb Bool.eqb orb].
  split; [reflexivity |]. split; [| split; [reflexivity |]].
  - intros i c H.
    do 36 (destruct i as [|i];
           [cbn in H; injection H as <-; cbn [existsb Nat.eqb orb];
            first [reflexivity
                  | apply toString16_hex, Z.mod_pos_bound; lia
                  | apply variant_hex, Z.mod_pos_bound; lia ] |]).
    cbn in H. discriminate.
  - eexists. split; [reflexivity |].
    apply variant_digit, Z.mod_pos_bound. lia.
Qed.


(** ** Unique ids *)

Lemma keeps_ret {A} (a : A) : keeps (ret a).
Proof. by intros st. Qed.

Lemma keeps_throw {A} e : keeps (throw (A:=A) e).
Proof. by intros st. Qed.

Lemma keeps_bind {A B} (m : M A) (k : A -> M B) :
  keeps m -> (forall a, keeps (k a)) -> keeps (bind m k).
Proof.
  intros Hm Hk st H. unfold bind. specialize (Hm st H).
  destruct (m st) as [[a|e] st']; cbn in *; [| done]. by apply Hk.
Qed.

Lemma keeps_same_db {A} (m : M A) : (forall st, db (m st).2 = db st) -> keeps m.
Proof. intros Hdb st H name. by rewrite Hdb. Qed.

Lemma keeps_connect pe env : keeps (connectToDatabase pe env).
Proof. apply keeps_same_db. intros st. apply (connect_frame pe env st). Qed.

Lemma unique_ids_set_collection m c st :
  unique_ids_everywhere st -> unique_ids c ->
  unique_ids_everywhere (set_collection m c st).
Proof.
  intros H Hc name. unfold set_collection. cbn.
  destruct (decide (name = modelName m)) as [-> | Hne].
  - by rewrite lookup_total_insert_eq.
  - rewrite lookup_total_insert_ne by done. apply H.
Qed.

(** Without a clash on the unique [id] path, the id of the document is
    not among those of the collection. *)
Lemma no_clash_fresh sch (d : Doc) c :
  has_unique_id sch ->
  duplicate_key sch d c = false ->
  d !! "id" ∉ (fun x : Doc => x !! "id") <$> c.
Proof.
  intros (sp & Hin & Hu) Hdup Hmem.
  apply list_elem_of_fmap in Hmem as (x & Hx & Hxc).
  enough (duplicate_key sch d c = true) by congruence.
  unfold duplicate_key. apply existsb_exists. exists x.
  split; [by apply list_elem_of_In |].
  unfold clashes. apply existsb_exists. exists ("id", sp).
  split; [by apply list_elem_of_In |].
  rewrite Hu. cbn. apply bool_decide_eq_true. unfold index_key. by rewrite Hx.
Qed.

Lemma keeps_create env m obj : has_unique_id (schema m) -> keeps (create env m obj).
Proof.
  intros Hs st H. rewrite create_eq.
  destruct (cast_doc _ _ _ _ _) as [d|]; [| done].
  destruct (negb _); [done |].
  destruct (duplicate_key _ _ _) eqn:Hdup; [done |]. cbn [snd].
  apply unique_ids_set_collection; [done |].
  unfold unique_ids. rewrite fmap_app. cbn.
  apply NoDup_app. split; [apply H |]. split; [| apply NoDup_singleton].
  intros x Hx Hx'. apply list_elem_of_singleton in Hx' as ->.
  by eapply no_clash_fresh.
Qed.

Lemma remove_first_sublist f c : remove_first f c `sublist_of` c.
Proof.
  induction c as [|d c IH]; cbn; [done |].
  destruct (f d); [by apply sublist_cons | by apply sublist_skip].
Qed.

Lemma unique_ids_remove_first f c : unique_ids c -> unique_ids (remove_first f c).
Proof.
  unfold unique_ids. intros H. eapply sublist_NoDup; [done |].
  apply fmap_sublist, remove_first_sublist.
Qed.

Lemma keeps_deleteOne m id : keeps (deleteOne m id).
Proof.
  intros st H. rewrite deleteOne_eq. cbn [snd].
  apply unique_ids_set_collection; [done |].
  apply unique_ids_remove_first, H.
Qed.

Lemma keeps_deleteMany m : keeps (deleteMany m).
Proof.
  intros st H. unfold deleteMany, bind, effect. cbn.
  apply (unique_ids_set_collection m [] (emit _ st)); [done | constructor].
Qed.

(** The collection around its first match. *)
Lemma find_split f (d d' : Doc) c :
  List.find f c = Some d ->
  exists l1 l2, c = l1 ++ d :: l2 /\
                remove_first f c = l1 ++ l2 /\
                replace_first f d' c = l1 ++ d' :: l2.
Proof.
  induction c as [|x c IH]; cbn; [done |].
  destruct (f x) eqn:E.
  - intros [= ->]. by exists [], c.
  - intros H. destruct (IH H) as (l1 & l2 & -> & -> & ->).
    by exists (x :: l1), l2.
Qed.

Lemma keeps_findOneAndUpdate env m id obj :
  has_unique_id (schema m) -> keeps (findOneAndUpdate env m id obj).
Proof.
  intros (sp & Hin & Hu) st H. unfold findOneAndUpdate.
  destruct (cast_update env (schema m) obj) as [u|]; [| done].
  unfold bind, effect, read, ret, throw. cbn. rewrite collection_emit.
  destruct (List.find (has_id id) (collection st m)) as [d|] eqn:Hf; [| done].
  destruct (changes_oid u d); [done |].
  destruct (duplicate_key _ _ _) eqn:Hdup; [done |]. cbn.
  apply (unique_ids_set_collection m _ (emit _ st)); [done |].
  destruct (find_split _ _ (u ∪ d) _ Hf) as (l1 & l2 & Hc & Hrm & Hrp).
  rewrite Hrp. rewrite Hrm in Hdup.
  pose proof (H (modelName m)) as Hun. fold (collection st m) in Hun.
  rewrite Hc in Hun. unfold unique_ids in *.
  rewrite fmap_app, fmap_cons in *.
  destruct (u !! "id") as [v|] eqn:Hv.
  - apply NoDup_app in Hun as (H1 & H12 & [H2' H2]%NoDup_cons).
    assert ((u ∪ d) !! "id" ∉ (fun x : Doc => x !! "id") <$> (l1 ++ l2)) as Hfresh.
    { apply (no_clash_fresh (written u (schema m))); [| done].
      exists sp. split; [| done]. unfold written.
      apply list_elem_of_In, filter_In. split; [by apply list_elem_of_In |].
      apply bool_decide_eq_true. by rewrite Hv. }
    rewrite fmap_app in Hfresh. apply not_elem_of_app in Hfresh as [Hf1 Hf2].
    apply NoDup_app. split; [done |]. split.
    + intros x Hx [-> | Hx']%elem_of_cons; [done |].
      eapply H12; [done |]. by right.
    + by apply NoDup_cons.
  - by rewrite lookup_union_r.
Qed.

Lemma keeps_try_next m req st :
  keeps m ->
  unique_ids_everywhere st -> unique_ids_everywhere (try_next m req st).2.
Proof.
  intros Hm H. unfold try_next. specialize (Hm st H).
  by destruct (m st) as [[r|e] st'].
Qed.

Lemma keeps_run_handlers hs p req st :
  Forall keeps_handler hs ->
  unique_ids_everywhere st -> unique_ids_everywhere (run_handlers hs p req st).2.
Proof.
  intros Hhs. revert req st. induction Hhs as [|h hs Hh Hhs IH]; intros req st H; [done |].
  cbn. specialize (Hh p req st H).
  destruct (h p req st) as [[r|[e|] req'] st']; cbn in *; [done | done |].
  by apply IH.
Qed.

Lemma keeps_dispatch rs req st :
  Forall (fun r => Forall keeps_handler (route_handlers r)) rs ->
  unique_ids_everywhere st -> unique_ids_everywhere (dispatch rs req st).2.
Proof.
  intros Hrs. revert req st. induction Hrs as [|r rs Hr Hrs IH]; intros req st H; [done |].
  cbn [dispatch]. destruct (bool_decide _); [| by apply IH].
  destruct (route_match r (path req)) as [p|]; [| by apply IH].
  pose proof (keeps_run_handlers _ p req st Hr H) as Hrun.
  destruct (run_handlers _ _ _ _) as [[res|[e|] req'] st']; cbn in *; [done | done |].
  by apply IH.
Qed.

Lemma registry_unique_id t m : getModel t = AModel m -> has_unique_id (schema m).
Proof.
  intros H. destruct (registry_schema t m H) as (_ & Hid & _). by exists id_path.
Qed.

Lemma FileModel_unique_id : has_unique_id (schema FileModel).
Proof. apply (registry_unique_id "files"). reflexivity. Qed.

Lemma keeps_the_model (imp : option Model) meth : keeps (the_model imp meth).
Proof. destruct imp; [apply keeps_ret | apply keeps_throw]. Qed.

Lemma keeps_find_sorted m : keeps (find_sorted m).
Proof. by apply keeps_same_db. Qed.

Lemma keeps_find_sorted_limit m n : keeps (find_sorted_limit m n).
Proof. by apply keeps_same_db. Qed.

Lemma keeps_findOne m id : keeps (findOne m id).
Proof. by apply keeps_same_db. Qed.

Section Handlers_keep_ids.
Variable pe : ProcessEnv.
Variable env : Env.

Lemma keeps_get_items : keeps_handler (get_items pe env).
Proof.
  intros p req st H. apply keeps_try_next; [| done].
  apply keeps_bind; [apply keeps_connect | intros _; cbv zeta].
  destruct (getModel (type_of p)); [apply keeps_ret | | apply keeps_throw].
  apply keeps_bind; [apply keeps_find_sorted | intros items; apply keeps_ret].
Qed.

Lemma keeps_post_item : keeps_handler (post_item pe env).
Proof.
  intros p req st H. unfold post_item.
  destruct (_ && _); [done |]. apply keeps_try_next; [| done].
  apply keeps_bind; [apply keeps_connect | intros _; cbv zeta].
  destruct (getModel (type_of p)) as [|m|name] eqn:Hm; [apply keeps_ret | |].
  - apply keeps_bind; [| intros d; apply keeps_ret].
    apply keeps_create. by eapply registry_unique_id.
  - destruct (String.eqb name "constructor"); [apply keeps_ret | apply keeps_throw].
Qed.

Lemma keeps_s3_deleteObject k : keeps (s3_deleteObject env k).
Proof.
  apply keeps_same_db. intros st. unfold s3_deleteObject.
  destruct (valid_key k); [| done]. unfold bind, effect, throw. cbn.
  by destruct (deleteObject_failure env).
Qed.

Lemma keeps_s3_getSignedUrl cl op k n : keeps (s3_getSignedUrl pe cl op k n).
Proof.
  apply keeps_same_db. intros st. unfold s3_getSignedUrl.
  by destruct (valid_key k).
Qed.

Lemma keeps_delete_item : keeps_handler (delete_item pe env).
Proof.
  intros p req st H. apply keeps_try_next; [| done].
  apply keeps_bind; [apply keeps_connect | intros _; cbv zeta].
  destruct (getModel (type_of p)) as [|m|name]; [apply keeps_ret | | apply keeps_throw].
  apply keeps_bind; [apply keeps_findOne | intros [item|]]; [| apply keeps_ret].
  apply keeps_bind.
  - destruct (_ && _); [apply keeps_s3_deleteObject | apply keeps_ret].
  - intros _. apply keeps_bind; [apply keeps_deleteOne | intros _; apply keeps_ret].
Qed.

Lemma keeps_update_item : keeps_handler (update_item pe env).
Proof.
  intros p req st H. apply keeps_try_next; [| done].
  apply keeps_bind; [apply keeps_connect | intros _; cbv zeta].
  destruct (getModel (type_of p)) as [|m|name] eqn:Hm; [apply keeps_ret | | apply keeps_throw].
  apply keeps_bind; [| intros d; apply keeps_ret].
  apply keeps_findOneAndUpdate. by eapply registry_unique_id.
Qed.

Lemma keeps_upload_wrapper : keeps_handler (upload_wrapper pe env).
Proof.
  intros p req st H. unfold upload_wrapper.
  pose proof (uploadMiddleware_frame pe env req st) as (Hdb & _).
  destruct (uploadMiddleware pe env req st) as [[req'|e] st']; cbn in *;
    intros name; by rewrite Hdb.
Qed.

Lemma keeps_upload_file : keeps_handler (upload_file pe env).
Proof.
  intros p req st H. apply keeps_try_next; [| done].
  apply keeps_bind; [apply keeps_connect | intros _].
  destruct (s3 pe); [| apply keeps_throw].
  destruct (file req) as [f|]; [| apply keeps_throw]. cbv zeta.
  change (the_model File "create") with (ret (A:=Model) FileModel).
  match goal with |- keeps (bind (ret ?a) ?k) => change (keeps (k a)) end.
  apply keeps_bind; [| intros d; apply keeps_ret].
  apply keeps_create, FileModel_unique_id.
Qed.

Lemma keeps_download_file : keeps_handler (download_file pe env).
Proof.
  intros p req st H. apply keeps_try_next; [| done].
  apply keeps_bind; [apply keeps_connect | intros _].
  destruct (s3 pe); [| apply keeps_throw].
  apply keeps_bind; [apply keeps_the_model | intros F].
  apply keeps_bind; [apply keeps_findOne | intros [f|]]; [| apply keeps_ret].
  apply keeps_bind; [apply keeps_s3_getSignedUrl | intros url; apply keeps_ret].
Qed.

Section Activity_handlers.
Variable A : option Model.
Hypothesis HA : forall act, A = Some act -> has_unique_id (schema act).

Lemma keeps_get_activity : keeps_handler (get_activity pe env A).
Proof.
  intros p req st H. apply keeps_try_next; [| done].
  apply keeps_bind; [apply keeps_connect | intros _].
  destruct A as [act|]; [| apply keeps_throw].
  apply keeps_bind; [apply keeps_find_sorted_limit | intros items; apply keeps_ret].
Qed.

Lemma keeps_post_activity : keeps_handler (post_activity pe env A).
Proof.
  intros p req st H. apply keeps_try_next; [| done].
  apply keeps_bind; [apply keeps_connect | intros _].
  destruct A as [act|]; [| apply keeps_throw]. cbv zeta.
  apply keeps_bind; [| intros d; apply keeps_ret].
  by apply keeps_create, HA.
Qed.

Lemma keeps_delete_activity : keeps_handler (delete_activity pe env A).
Proof.
  intros p req st H. apply keeps_try_next; [| done].
  apply keeps_bind; [apply keeps_connect | intros _].
  destruct A as [act|]; [| apply keeps_throw].
  apply keeps_bind; [apply keeps_deleteMany | intros _; apply keeps_ret].
Qed.

Lemma keeps_routes :
  Forall (fun r => Forall keeps_handler (route_handlers r)) (routes pe env A).
Proof.
  unfold routes.
  repeat first [ apply List.Forall_nil
               | apply List.Forall_cons
               | progress cbn [route_handlers] ].
  - apply keeps_get_activity.
  - apply keeps_post_activity.
  - apply keeps_delete_activity.
  - apply keeps_get_items.
  - apply keeps_post_item.
  - apply keeps_upload_wrapper.
  - apply keeps_upload_file.
  - apply keeps_download_file.
  - apply keeps_delete_item.
  - apply keeps_update_item.
Qed.
End Activity_handlers.
End Handlers_keep_ids.

(** The unique index at work: whatever the request (any method, path,
    body or upload) and whatever the world answers, if no two records of
    a collection shared their [id] before the request, none do after
    it. *)
Theorem ids_stay_unique pe env req st :
  unique_ids_everywhere st ->
  unique_ids_everywhere (app pe env req st).2.
Proof.
  intros H. unfold app, app_with. apply keeps_dispatch; [| done].
  apply keeps_routes. intros act Hact. by rewrite Activity_undefined in Hact.
Qed.

Lemma unique_ids_everywhere_empty : unique_ids_everywhere Sample.empty.
Proof. intros name. unfold unique_ids. cbn. rewrite lookup_total_empty. constructor. Qed.

Lemma ids_stay_unique_witness :
  unique_ids_everywhere
    (app Sample.pe_s3 Sample.env (request POST ["api"; "notes"] Sample.dated_note None)
       Sample.empty).2.
Proof.
  apply (ids_stay_unique Sample.pe_s3 Sample.env
           (request POST ["api"; "notes"] Sample.dated_note None) Sample.empty).
  apply unique_ids_everywhere_empty.
Defined.


(* ===================================================================== *)
(** * Further properties of the server *)
(* ===================================================================== *)

(** ** All requests *)

(** What holds of every handler holds of the application: [I] is kept by
    the handlers that call [next()], [Q] holds of every answer, of the
    answer of the error handler to every error thrown, and of the default
    404.  Only the routes of the request's method run. *)
Lemma dispatch_all (mth : Method) (I : State -> Prop) (Q : Response * State -> Prop) rs :
  (forall req st, I st -> Q (not_found req, st)) ->
  Forall (fun r =>
    route_method r = mth ->
    Forall (fun h : Handler =>
      forall p req st, method req = mth -> I st ->
        match h p req st with
        | (Respond res, st') => Q (res, st')
        | (Next (Some e) _, st') => Q (error_handler e st')
        | (Next None req', st') => method req' = mth /\ I st'
        end) (route_handlers r)) rs ->
  forall req st, method req = mth -> I st -> Q (dispatch rs req st).
Proof.
  intros Hnf Hrs. induction Hrs as [|r rs Hr Hrs IH]; intros req st Hm HI.
  - by apply Hnf.
  - cbn [dispatch]. case_bool_decide as Hrm; [| by apply IH].
    destruct (route_match r (path req)) as [p|]; [| by apply IH].
    rewrite Hm in Hrm. specialize (Hr Hrm).
    assert (Hrun : forall hs req st, Forall (fun h : Handler =>
              forall p req st, method req = mth -> I st ->
                match h p req st with
                | (Respond res, st') => Q (res, st')
                | (Next (Some e) _, st') => Q (error_handler e st')
                | (Next None req', st') => method req' = mth /\ I st'
                end) hs ->
            method req = mth -> I st ->
            match run_handlers hs p req st with
            | (Respond res, st') => Q (res, st')
            | (Next (Some e) _, st') => Q (error_handler e st')
            | (Next None req', st') => method req' = mth /\ I st'
            end).
    { clear. intros hs. induction hs as [|h hs IHh]; intros req st Hhs Hm HI; [done |].
      apply Forall_cons in Hhs as [Hh Hhs]. cbn [run_handlers].
      specialize (Hh p req st Hm HI).
      destruct (h p req st) as [[res|[e|] req'] st']; [done | done |].
      destruct Hh as [Hm' HI']. by apply IHh. }
    specialize (Hrun (route_handlers r) req st Hr Hm HI).
    destruct (run_handlers (route_handlers r) p req st) as [[res|[e|] req'] st'];
      [done | done |].
    destruct Hrun as [Hm' HI']. by apply IH.
Qed.

(** The same for a handler built by [try_next]. *)
Lemma try_next_all (I : State -> Prop) (Q : Response * State -> Prop) mth m req st :
  match m st with
  | (Ok res, st') => Q (res, st')
  | (Throw e, st') => Q (error_handler e st')
  end ->
  match try_next m req st with
  | (Respond res, st') => Q (res, st')
  | (Next (Some e) _, st') => Q (error_handler e st')
  | (Next None req', st') => method req' = mth /\ I st'
  end.
Proof. unfold try_next. by destruct (m st) as [[res|e] st']. Qed.

(** ** The shape of every response *)

Lemma envelope_error_handler e st : envelope (error_handler e st).1 = true.
Proof.
  unfold error_handler, envelope. cbn.
  destruct (String.eqb (message e) "") eqn:E; [done |]. by rewrite E.
Qed.

Lemma answers_ret r : envelope r = true -> answers_in_envelope (ret r).
Proof. by intros H st. Qed.

Lemma answers_throw e : answers_in_envelope (throw e).
Proof. by intros st. Qed.

Lemma answers_bind {A} (m : M A) (k : A -> M Response) :
  (forall a, answers_in_envelope (k a)) -> answers_in_envelope (bind m k).
Proof.
  intros Hk st. unfold bind. destruct (m st) as [[a|e] st']; [apply Hk | done].
Qed.

Lemma answers_try_next mth m req st :
  answers_in_envelope m ->
  match try_next m req st with
  | (Respond res, st') => envelope (res, st').1 = true
  | (Next (Some e) _, st') => envelope (error_handler e st').1 = true
  | (Next None req', st') => method req' = mth /\ True
  end.
Proof.
  intros Hm. unfold try_next. specialize (Hm st).
  destruct (m st) as [[res|e] st']; [done | apply envelope_error_handler].
Qed.

Lemma envelope_invalid_type t :
  envelope (status_json 404 (Json_error ("Invalid type: " +:+ t))) = true.
Proof. reflexivity. Qed.

(** Every response of the server, to any request in any state and world,
    has one of seven shapes: 200 with a list, a record or [null]; 201 with
    a record; 204 without a body; 302 with a signed URL that expires after
    60 seconds; 404 or 500 with a JSON error object whose message is not
    empty; or the default 404 page of Express when no route matches. *)
Theorem every_response_in_envelope pe env req st :
  envelope (app pe env req st).1 = true.
Proof.
  unfold app, app_with.
  apply (dispatch_all (method req) (fun _ => True)
           (fun out => envelope out.1 = true)); [done | | done | done].
  unfold routes.
  repeat first [ apply List.Forall_nil
               | apply List.Forall_cons
               | progress cbn [route_handlers]
               | intros _ ];
    intros p req0 st0 Hm _.
  - apply answers_try_next.
    apply answers_bind; intros _. rewrite Activity_undefined. apply answers_throw.
  - apply answers_try_next.
    apply answers_bind; intros _. rewrite Activity_undefined. apply answers_throw.
  - apply answers_try_next.
    apply answers_bind; intros _. rewrite Activity_undefined. apply answers_throw.
  - apply answers_try_next.
    apply answers_bind; intros _. cbv zeta.
    destruct (getModel (type_of p)); [by apply answers_ret | | apply answers_throw].
    apply answers_bind; intros items. by apply answers_ret.
  - unfold post_item. destruct (_ && _); [done |].
    apply answers_try_next.
    apply answers_bind; intros _. cbv zeta.
    destruct (getModel (type_of p)) as [|m|name]; [by apply answers_ret | |].
    + apply answers_bind; intros d. by apply answers_ret.
    + destruct (String.eqb name "constructor"); [by apply answers_ret | apply answers_throw].
  - unfold upload_wrapper.
    destruct (uploadMiddleware pe env req0 st0) as [[req'|e] st'] eqn:E;
      [| apply envelope_error_handler].
    split; [| done]. by destruct (single_request _ _ _ _ _ _ _ E) as (-> & _).
  - apply answers_try_next.
    apply answers_bind; intros _.
    destruct (s3 pe); [| apply answers_throw].
    destruct (file req0); [| apply answers_throw]. cbv zeta.
    apply answers_bind; intros F. apply answers_bind; intros d. by apply answers_ret.
  - apply answers_try_next.
    apply answers_bind; intros _.
    destruct (s3 pe); [| apply answers_throw].
    apply answers_bind; intros F. apply answers_bind; intros [f|]; [| by apply answers_ret].
    intros st1. unfold s3_getSignedUrl.
    by destruct (valid_key (f !! "filename")).
  - apply answers_try_next.
    apply answers_bind; intros _. cbv zeta.
    destruct (getModel (type_of p)); [by apply answers_ret | | apply answers_throw].
    apply answers_bind; intros [item|]; [| by apply answers_ret].
    apply answers_bind; intros _. apply answers_bind; intros _. by apply answers_ret.
  - apply answers_try_next.
    apply answers_bind; intros _. cbv zeta.
    destruct (getModel (type_of p)); [by apply answers_ret | | apply answers_throw].
    apply answers_bind; intros [d|]; by apply answers_ret.
Qed.

(** ** Reading never writes *)

Lemma unchanged_refl st : unchanged st st.
Proof. by unfold unchanged. Qed.

Lemma unchanged_trans st1 st2 st3 :
  unchanged st1 st2 -> unchanged st2 st3 -> unchanged st1 st3.
Proof. unfold unchanged. intros (-> & -> & -> & ->) (-> & -> & -> & ->). done. Qed.

Lemma unchanged_emit e st : is_db_write e = false -> unchanged st (emit e st).
Proof.
  intros H. unfold unchanged. cbn. rewrite filter_app, filter_cons, H.
  by rewrite filter_nil, app_nil_r.
Qed.

Lemma unchanged_error_handler e st0 st :
  unchanged st0 st -> unchanged st0 (error_handler e st).2.
Proof. intros H. eapply unchanged_trans; [done |]. by apply unchanged_emit. Qed.

Lemma stable_ret {A} (a : A) : stable (ret a).
Proof. intros st. apply unchanged_refl. Qed.

Lemma stable_throw {A} e : stable (throw (A:=A) e).
Proof. intros st. apply unchanged_refl. Qed.

Lemma stable_bind {A B} (m : M A) (k : A -> M B) :
  stable m -> (forall a, stable (k a)) -> stable (bind m k).
Proof.
  intros Hm Hk st. unfold bind. specialize (Hm st).
  destruct (m st) as [[a|e] st']; cbn in *; [| done].
  eapply unchanged_trans; [done | apply Hk].
Qed.

Lemma stable_connect pe env : stable (connectToDatabase pe env).
Proof.
  intros st. pose proof (connect_frame pe env st) as (? & ? & ? & ? & ?).
  by unfold unchanged.
Qed.

Lemma stable_find_sorted m : stable (find_sorted m).
Proof. intros st. by apply unchanged_emit. Qed.

Lemma stable_find_sorted_limit m n : stable (find_sorted_limit m n).
Proof. intros st. by apply unchanged_emit. Qed.

Lemma stable_findOne m id : stable (findOne m id).
Proof. intros st. by apply unchanged_emit. Qed.

Lemma stable_getSignedUrl pe cl op k n : stable (s3_getSignedUrl pe cl op k n).
Proof.
  intros st. unfold s3_getSignedUrl.
  destruct (valid_key k); [by apply unchanged_emit | apply unchanged_refl].
Qed.

Lemma stable_the_model (imp : option Model) meth : stable (the_model imp meth).
Proof. destruct imp; [apply stable_ret | apply stable_throw]. Qed.

Lemma stable_try_next st0 m req st :
  stable m -> unchanged st0 st ->
  match try_next m req st with
  | (Respond res, st') => unchanged st0 (res, st').2
  | (Next (Some e) _, st') => unchanged st0 (error_handler e st').2
  | (Next None req', st') => method req' = GET /\ unchanged st0 st'
  end.
Proof.
  intros Hm H. unfold try_next. specialize (Hm st).
  destruct (m st) as [[res|e] st']; cbn in *.
  - by eapply unchanged_trans.
  - apply (unchanged_error_handler e st0 st'). by eapply unchanged_trans.
Qed.

(** No GET writes anything: whatever the path, the body and the world,
    the collections, the bucket and the scratch directory are left as
    they were and no write reaches the database (a listing, a download and
    an unknown path alike). *)
Theorem get_writes_nothing pe env p b fp f st :
  let out := app pe env (mkRequest GET p b fp f) st in
  db out.2 = db st /\
  bucket out.2 = bucket st /\
  tmp out.2 = tmp st /\
  filter is_db_write (trace out.2) = filter is_db_write (trace st).
Proof.
  cbv zeta. fold (unchanged st (app pe env (mkRequest GET p b fp f) st).2).
  unfold app, app_with.
  apply (dispatch_all GET (unchanged st) (fun out => unchanged st out.2));
    [done | | done | apply unchanged_refl].
  unfold routes.
  repeat (apply List.Forall_cons;
          [ cbn [route_handlers route_method]; intros Hrm; try discriminate Hrm;
            repeat (apply List.Forall_cons; [intros p0 req0 st0 Hm H0 |]);
            try apply List.Forall_nil |]);
    try apply List.Forall_nil.
  - apply stable_try_next; [| done].
    apply stable_bind; [apply stable_connect | intros _].
    rewrite Activity_undefined. apply stable_throw.
  - apply stable_try_next; [| done].
    apply stable_bind; [apply stable_connect | intros _]. cbv zeta.
    destruct (getModel (type_of p0)); [apply stable_ret | | apply stable_throw].
    apply stable_bind; [apply stable_find_sorted | intros items; apply stable_ret].
  - apply stable_try_next; [| done].
    apply stable_bind; [apply stable_connect | intros _].
    destruct (s3 pe); [| apply stable_throw].
    apply stable_bind; [apply stable_the_model | intros F].
    apply stable_bind; [apply stable_findOne | intros [x|]]; [| apply stable_ret].
    apply stable_bind; [apply stable_getSignedUrl | intros url; apply stable_ret].
Qed.

(** ** Without a database *)


Lemma uploadMiddleware_db pe env req st :
  let out := uploadMiddleware pe env req st in
  cachedDb out.2 = cachedDb st /\ db out.2 = db st /\
  filter is_db_call (trace out.2) = filter is_db_call (trace st) /\
  (forall req', out.1 = Ok req' -> method req' = method req).
Proof.
  unfold uploadMiddleware, single.
  destruct (upload_failure env); [done |].
  destruct (file_part req) as [part|]; [| by repeat split; intros req' [= <-]].
  destruct (s3 pe).
  - destruct (over_limit env (part_size part)).
    + rewrite refused_part_eq. cbn. by rewrite !filter_app, !app_nil_r.
    + cbn. rewrite filter_app, app_nil_r. by repeat split; intros req' [= <-].
  - cbn. rewrite filter_app, app_nil_r. by repeat split; intros req' [= <-].
Qed.



Example missing_uri_message :
  (app Sample.pe_no_uri Sample.env (request GET ["api"; "notes"] ∅ None) Sample.empty).1
  = status_json 500 (Json_error "MONGODB_URI is missing in Environment Variables").
Proof. reflexivity. Qed.

(** ** One connection per request *)

Lemma no_connect_refl st : no_connect st st.
Proof. by unfold no_connect. Qed.

Lemma no_connect_trans st1 st2 st3 :
  no_connect st1 st2 -> no_connect st2 st3 -> no_connect st1 st3.
Proof. unfold no_connect. intros (-> & ->) (-> & ->). done. Qed.

Lemma no_connect_emit e st : is_connect e = false -> no_connect st (emit e st).
Proof.
  intros H. unfold no_connect. cbn. rewrite filter_app, filter_cons, H.
  by rewrite filter_nil, app_nil_r.
Qed.

Lemma calm_ret {A} (a : A) : calm (ret a).
Proof. intros st. apply no_connect_refl. Qed.

Lemma calm_throw {A} e : calm (throw (A:=A) e).
Proof. intros st. apply no_connect_refl. Qed.

Lemma calm_bind {A B} (m : M A) (k : A -> M B) :
  calm m -> (forall a, calm (k a)) -> calm (bind m k).
Proof.
  intros Hm Hk st. unfold bind. specialize (Hm st).
  destruct (m st) as [[a|e] st']; cbn in *; [| done].
  eapply no_connect_trans; [done | apply Hk].
Qed.

Lemma calm_find_sorted m : calm (find_sorted m).
Proof. intros st. by apply no_connect_emit. Qed.

Lemma calm_find_sorted_limit m n : calm (find_sorted_limit m n).
Proof. intros st. by apply no_connect_emit. Qed.

Lemma calm_findOne m id : calm (findOne m id).
Proof. intros st. by apply no_connect_emit. Qed.

Lemma calm_create env m obj : calm (create env m obj).
Proof.
  intros st. rewrite create_eq.
  destruct (cast_doc _ _ _ _ _) as [d|]; [| apply no_connect_refl].
  destruct (negb _); [apply no_connect_refl |].
  destruct (duplicate_key _ _ _); unfold no_connect; cbn;
    by rewrite filter_app, app_nil_r.
Qed.

Lemma calm_deleteOne m id : calm (deleteOne m id).
Proof.
  intros st. rewrite deleteOne_eq. unfold no_connect. cbn.
  by rewrite filter_app, app_nil_r.
Qed.

Lemma calm_deleteMany m : calm (deleteMany m).
Proof.
  intros st. unfold deleteMany, bind, effect, no_connect. cbn.
  by rewrite filter_app, app_nil_r.
Qed.

Lemma calm_findOneAndUpdate env m id obj : calm (findOneAndUpdate env m id obj).
Proof.
  intros st. unfold findOneAndUpdate.
  destruct (cast_update env (schema m) obj) as [u|]; [| apply no_connect_refl].
  unfold bind, effect, read, ret, throw, no_connect. cbn. rewrite collection_emit.
  destruct (List.find (has_id id) (collection st m)) as [d|]; cbn;
    [| by rewrite filter_app, app_nil_r].
  destruct (changes_oid u d); cbn; [by rewrite filter_app, app_nil_r |].
  destruct (duplicate_key _ _ _); cbn; by rewrite filter_app, app_nil_r.
Qed.

Lemma calm_deleteObject env k : calm (s3_deleteObject env k).
Proof.
  intros st. unfold s3_deleteObject.
  destruct (valid_key k); [| apply no_connect_refl].
  unfold bind, effect, throw, no_connect. cbn.
  destruct (deleteObject_failure env); cbn; by rewrite filter_app, app_nil_r.
Qed.

Lemma calm_getSignedUrl pe cl op k n : calm (s3_getSignedUrl pe cl op k n).
Proof.
  intros st. unfold s3_getSignedUrl.
  destruct (valid_key k); [by apply no_connect_emit | apply no_connect_refl].
Qed.

Lemma calm_the_model (imp : option Model) meth : calm (the_model imp meth).
Proof. destruct imp; [apply calm_ret | apply calm_throw]. Qed.

Lemma calm_uploadMiddleware pe env req : calm (uploadMiddleware pe env req).
Proof.
  intros st. unfold uploadMiddleware, single.
  destruct (upload_failure env); [apply no_connect_refl |].
  destruct (file_part req) as [part|]; [| apply no_connect_refl].
  destruct (s3 pe).
  - destruct (over_limit env (part_size part)).
    + rewrite refused_part_eq. unfold no_connect. cbn.
      by rewrite !filter_app, !app_nil_r.
    + unfold no_connect. cbn. by rewrite filter_app, app_nil_r.
  - unfold no_connect. cbn. by rewrite filter_app, app_nil_r.
Qed.

(** What [connectToDatabase] adds to the attempts. *)
Lemma connect_once pe env st :
  connects_once pe env st (connectToDatabase pe env st).2.
Proof.
  unfold connects_once, connectToDatabase.
  destruct (cachedDb st && (readyState env =? 1)) eqn:Hready.
  { exists []. rewrite app_nil_r. repeat split; auto. }
  unfold DB_URI. destruct (truthy_str (MONGODB_URI pe)) eqn:Huri; cbn [negb].
  2:{ exists []. rewrite app_nil_r. repeat split; auto. }
  destruct (connect_failure env); exists [MongooseConnect]; cbn;
    rewrite !filter_app; cbn; rewrite app_nil_r;
    (split; [done |]); (split; [lia |]); (split; [by intros [|] |]); done.
Qed.

Lemma connects_once_after pe env st st1 st2 :
  connects_once pe env st st1 -> no_connect st1 st2 -> connects_once pe env st st2.
Proof.
  intros (l & Htr & Hlen & Hnone & Hcached) (Hc & Ht).
  exists l. rewrite Ht, Hc. done.
Qed.

Lemma connects_once_before pe env st st1 st2 :
  no_connect st st1 -> connects_once pe env st1 st2 -> connects_once pe env st st2.
Proof.
  intros (Hc & Ht) (l & Htr & Hlen & Hnone & Hcached).
  exists l. rewrite <- Ht, <- Hc. done.
Qed.

(** A handler body that connects first and never again. *)
Lemma connect_then_calm pe env (k : M Response) req st0 st :
  calm k -> no_connect st0 st ->
  match try_next (connectToDatabase pe env >> k) req st with
  | (Respond res, st') => connects_once pe env st0 (res, st').2
  | (Next (Some e) _, st') => connects_once pe env st0 (error_handler e st').2
  | (Next None req', st') => method req' = method req /\ no_connect st0 st'
  end.
Proof.
  intros Hk H0. unfold try_next, bind.
  pose proof (connect_once pe env st) as H1.
  destruct (connectToDatabase pe env st) as [[[]|e] st1]; cbn in H1.
  - specialize (Hk st1). destruct (k st1) as [[res|e] st2]; cbn in *.
    + eapply connects_once_before; [done |]. by eapply connects_once_after.
    + eapply connects_once_before; [done |].
      eapply connects_once_after; [done |].
      eapply no_connect_trans; [done |]. by apply no_connect_emit.
  - eapply connects_once_before; [done |].
    eapply connects_once_after; [done |]. by apply no_connect_emit.
Qed.

(** Every request makes at most one connection attempt, and none when a
    cached connection is ready or when no connection string is set; a
    cached connection is never dropped. *)
Theorem one_connection_attempt_per_request pe env req st :
  let out := app pe env req st in
  exists attempts,
    filter is_connect (trace out.2) = filter is_connect (trace st) ++ attempts /\
    (length attempts <= 1)%nat /\
    (cachedDb st && (readyState env =? 1) = true \/ truthy_str (MONGODB_URI pe) = false ->
     attempts = []) /\
    (cachedDb st = true -> cachedDb out.2 = true).
Proof.
  cbv zeta. fold (connects_once pe env st (app pe env req st).2).
  unfold app, app_with.
  apply (dispatch_all (method req) (no_connect st)
           (fun out => connects_once pe env st out.2));
    [| | done | apply no_connect_refl].
  { intros req0 st0 (Hc & Ht). exists []. rewrite app_nil_r. cbn [snd].
    rewrite Ht, Hc. repeat split; auto. }
  unfold routes.
  repeat first [ apply List.Forall_nil
               | apply List.Forall_cons
               | progress cbn [route_handlers]
               | intros _ ];
    intros p req0 st0 Hm HI.
  - rewrite <- Hm. apply connect_then_calm; [| done].
    rewrite Activity_undefined. apply calm_throw.
  - rewrite <- Hm. apply connect_then_calm; [| done].
    rewrite Activity_undefined. apply calm_throw.
  - rewrite <- Hm. apply connect_then_calm; [| done].
    rewrite Activity_undefined. apply calm_throw.
  - rewrite <- Hm. apply connect_then_calm; [| done]. cbv zeta.
    destruct (getModel (type_of p)); [apply calm_ret | | apply calm_throw].
    apply calm_bind; [apply calm_find_sorted | intros items; apply calm_ret].
  - unfold post_item. destruct (_ && _); [done |].
    rewrite <- Hm. apply connect_then_calm; [| done]. cbv zeta.
    destruct (getModel (type_of p)) as [|m|name]; [apply calm_ret | |].
    + apply calm_bind; [apply calm_create | intros d; apply calm_ret].
    + destruct (String.eqb name "constructor"); [apply calm_ret | apply calm_throw].
  - unfold upload_wrapper.
    pose proof (calm_uploadMiddleware pe env req0 st0) as Hu.
    pose proof (uploadMiddleware_db pe env req0 st0) as (_ & _ & _ & Hmeth).
    destruct (uploadMiddleware pe env req0 st0) as [[req'|e] st']; cbn in *.
    + split; [rewrite (Hmeth req' eq_refl); done | by eapply no_connect_trans].
    + eapply connects_once_before; [apply HI |].
      eapply connects_once_before; [apply Hu |].
      eapply connects_once_before; [by apply (no_connect_emit (ConsoleError "Server Error:" e)) |].
      exists []. rewrite app_nil_r. repeat split; auto.
  - rewrite <- Hm. apply connect_then_calm; [| done].
    destruct (s3 pe); [| apply calm_throw].
    destruct (file req0); [| apply calm_throw]. cbv zeta.
    apply calm_bind; [apply calm_the_model | intros F].
    apply calm_bind; [apply calm_create | intros d; apply calm_ret].
  - rewrite <- Hm. apply connect_then_calm; [| done].
    destruct (s3 pe); [| apply calm_throw].
    apply calm_bind; [apply calm_the_model | intros F].
    apply calm_bind; [apply calm_findOne | intros [x|]]; [| apply calm_ret].
    apply calm_bind; [apply calm_getSignedUrl | intros url; apply calm_ret].
  - rewrite <- Hm. apply connect_then_calm; [| done]. cbv zeta.
    destruct (getModel (type_of p)); [apply calm_ret | | apply calm_throw].
    apply calm_bind; [apply calm_findOne | intros [item|]]; [| apply calm_ret].
    apply calm_bind.
    + destruct (_ && _); [apply calm_deleteObject | apply calm_ret].
    + intros _. apply calm_bind; [apply calm_deleteOne | intros _; apply calm_ret].
  - rewrite <- Hm. apply connect_then_calm; [| done]. cbv zeta.
    destruct (getModel (type_of p)); [apply calm_ret | | apply calm_throw].
    apply calm_bind; [apply calm_findOneAndUpdate | intros d; apply calm_ret].
Qed.

(** ** Upload, step by step *)

Ltac look :=
  repeat first [ rewrite lookup_insert_eq
               | rewrite lookup_insert_ne by done
               | rewrite lookup_empty ].

(** A part under the limit is accepted by every version of multer. *)
Lemma under_limit env size : size < fileSize_limit -> over_limit env size = false.
Proof.
  intros H. unfold over_limit.
  destruct (Z.ltb_spec fileSize_limit size); [lia |].
  destruct (Z.eqb_spec size fileSize_limit); [lia | done].
Qed.

(** multer with the S3 storage: the part goes to the bucket and [req.file]
    names it. *)
Lemma uploadMiddleware_s3 pe env client req part st :
  s3 pe = Some client ->
  upload_failure env = None ->
  file_part req = Some part ->
  part_size part < fileSize_limit ->
  uploadMiddleware pe env req st
  = (Ok (set_file (mkMulterFile (part_originalname part) (part_mimetype part)
                     (part_size part) (Some (upload_location pe env client part))
                     (Some (upload_key env part))) req),
     set_bucket ({[upload_key env part]} ∪ bucket st)
       (emit (S3Upload (upload_key env part)) st)).
Proof.
  intros Hs3 Hup Hpart Hsize. unfold uploadMiddleware, single.
  rewrite Hup, Hpart, Hs3, (under_limit env _ Hsize). reflexivity.
Qed.

Lemma generateId_not_empty env : String.eqb (generateId env) "" = false.
Proof. reflexivity. Qed.

(** The entry of the upload handler, cast against the File schema. *)
Lemma cast_upload_entry pe env client req part title description :
  castString (runtime env) (js_or (body req !! "title") (VStr (part_originalname part)))
  = Some title ->
  castString (runtime env) (js_or (body req !! "description") (VStr "")) = Some description ->
  cast_doc (runtime env) (Date_now env) (new_ObjectId env) (schema FileModel)
    (upload_entry env req
       (mkMulterFile (part_originalname part) (part_mimetype part) (part_size part)
          (Some (upload_location pe env client part)) (Some (upload_key env part))))
  = Some (uploaded_record pe env client part title description).
Proof.
  intros Ht Hd. unfold upload_entry, uploaded_record.
  cbn [object fmap option_fmap option_map location key originalname mimetype f_size].
  cbn [FileModel mongoose_model schema fileSchema List.app cast_doc].
  look. cbn [castPath ptype plain id_path date_path oid_path version_path
             apply_default pdefault castString castNumber castDate].
  rewrite Ht, Hd. reflexivity.
Qed.

(** The record of an upload already has the version key at 0. *)
Lemma versioned_uploaded_record pe env client part title description :
  versioned (schema FileModel) (uploaded_record pe env client part title description)
  = uploaded_record pe env client part title description.
Proof.
  rewrite (versioned_registry "files" FileModel _ eq_refl).
  apply insert_id. unfold uploaded_record. by look.
Qed.

(** The answer to an upload that multer accepted, case by case. *)
Lemma upload_accepted pe env st b part client :
  s3 pe = Some client ->
  upload_failure env = None ->
  part_size part < fileSize_limit ->
  connects pe env st = true ->
  let f := mkMulterFile (part_originalname part) (part_mimetype part) (part_size part)
             (Some (upload_location pe env client part)) (Some (upload_key env part)) in
  let req := request POST ["api"; "files"; "upload"] b (Some part) in
  let st1 := connected env (set_bucket ({[upload_key env part]} ∪ bucket st)
                              (emit (S3Upload (upload_key env part)) st)) in
  app pe env req st
  = match cast_doc (runtime env) (Date_now env) (new_ObjectId env) (schema FileModel)
            (upload_entry env (set_file f req) f) with
    | None => error_handler (ValidationError FileModel) st1
    | Some d0 =>
        if negb (validate (schema FileModel) d0)
        then error_handler (ValidationError FileModel) st1
        else if duplicate_key (schema FileModel) (versioned (schema FileModel) d0)
                  (collection st FileModel)
             then error_handler (DuplicateKeyError FileModel) (emit (DbCreate "File") st1)
             else (status_json 201 (Json_doc (versioned (schema FileModel) d0)),
                   set_collection FileModel
                     (collection st FileModel ++ [versioned (schema FileModel) d0])
                     (emit (DbCreate "File") st1))
    end.
Proof.
  intros Hs3 Hup Hsize Hc f req st1. subst req. unfold app. rewrite app_upload.
  rewrite (uploadMiddleware_s3 pe env client (request POST ["api"; "files"; "upload"] b (Some part))
             part st Hs3 Hup eq_refl Hsize).
  rewrite Hs3. cbn [file set_file request]. fold f.
  unfold run. rewrite bind_connect_ok by exact Hc. fold st1.
  change (the_model File "create") with (ret (A:=Model) FileModel).
  unfold bind at 1. unfold ret at 1. unfold bind at 1. rewrite create_eq.
  assert (collection st1 FileModel = collection st FileModel) as ->.
  { subst st1. rewrite collection_connected. reflexivity. }
  destruct (cast_doc _ _ _ _ _) as [d|]; [| done].
  destruct (negb _); [done |].
  by destruct (duplicate_key _ _ _).
Qed.

Lemma connected_store_events env st :
  filter is_store_event (trace (connected env st)) = filter is_store_event (trace st).
Proof.
  unfold connected. destruct (cachedDb st && (readyState env =? 1)); [done |].
  cbn. by rewrite !filter_app, !app_nil_r.
Qed.

Lemma validate_uploaded_record pe env client part title description :
  validate (schema FileModel) (uploaded_record pe env client part title description) = true.
Proof. reflexivity. Qed.

(** The accepted upload whose entry casts and clashes with nothing. *)
Lemma upload_answer pe env st b part client title description :
  s3 pe = Some client ->
  upload_failure env = None ->
  part_size part < fileSize_limit ->
  connects pe env st = true ->
  castString (runtime env) (js_or (b !! "title") (VStr (part_originalname part))) = Some title ->
  castString (runtime env) (js_or (b !! "description") (VStr "")) = Some description ->
  let d := uploaded_record pe env client part title description in
  duplicate_key (schema FileModel) d (collection st FileModel) = false ->
  app pe env (request POST ["api"; "files"; "upload"] b (Some part)) st
  = (status_json 201 (Json_doc d),
     set_collection FileModel (collection st FileModel ++ [d])
       (emit (DbCreate "File")
          (connected env (set_bucket ({[upload_key env part]} ∪ bucket st)
                            (emit (S3Upload (upload_key env part)) st))))).
Proof.
  intros Hs3 Hup Hsize Hc Ht Hd d Hdup.
  rewrite (upload_accepted pe env st b part client Hs3 Hup Hsize Hc).
  cbv zeta. erewrite cast_upload_entry; [| exact Ht | exact Hd].
  rewrite validate_uploaded_record, versioned_uploaded_record. fold d. by rewrite Hdup.
Qed.

(** A part under the size limit, uploaded while object storage is
    configured and the database answers, with a title and a description
    that cast to strings and no clash on a unique path: the part is stored
    under [uploads/<time>-<originalname>], where the time is the one
    multer-s3 read when it named the key; then one File record is created
    whose [filename] is this key and whose [path] is the location S3
    reported for it to the client of this server, with a generated id and,
    as [date], the time the handler read; the answer is 201 with that
    record. *)
Theorem upload_stores_object_then_record pe env st b part client title description :
  s3 pe = Some client ->
  upload_failure env = None ->
  part_size part < fileSize_limit ->
  connects pe env st = true ->
  castString (runtime env) (js_or (b !! "title") (VStr (part_originalname part))) = Some title ->
  castString (runtime env) (js_or (b !! "description") (VStr "")) = Some description ->
  let d := uploaded_record pe env client part title description in
  duplicate_key (schema FileModel) d (collection st FileModel) = false ->
  let out := app pe env (request POST ["api"; "files"; "upload"] b (Some part)) st in
  out.1 = status_json 201 (Json_doc d) /\
  collection out.2 FileModel = collection st FileModel ++ [d] /\
  bucket out.2 = {[upload_key env part]} ∪ bucket st /\
  filter is_store_event (trace out.2)
  = filter is_store_event (trace st) ++ [S3Upload (upload_key env part); DbCreate "File"] /\
  d !! "filename" = Some (FStr (upload_key env part)) /\
  d !! "path"
  = Some (FStr (S3_Location env (region client) (String_of (S3_BUCKET_NAME pe))
                  (upload_key env part))) /\
  d !! "date" = Some (FDate (Date_now env)) /\
  upload_key env part
  = "uploads/" +:+ String_of_number (runtime env) (key_Date_now env) +:+ "-"
    +:+ part_originalname part.
Proof.
  intros Hs3 Hup Hsize Hc Ht Hd d Hdup out. subst out.
  rewrite (upload_answer pe env st b part client title description Hs3 Hup Hsize Hc Ht Hd Hdup).
  fold d. cbn [fst snd].
  split; [done |]. split; [apply collection_set_collection |].
  split; [cbn; apply (connected_frame env) |].
  split.
  { cbn [set_collection trace emit]. rewrite filter_app, connected_store_events.
    cbn [set_bucket trace emit]. rewrite filter_app. by rewrite <- app_assoc. }
  subst d. unfold uploaded_record. repeat split; by look.
Qed.

Lemma upload_stores_object_then_record_witness :
  let d := uploaded_record Sample.pe_s3 Sample.env Sample.client Sample.part
             (FStr "a.txt") (FStr "") in
  let out := app Sample.pe_s3 Sample.env
               (request POST ["api"; "files"; "upload"] ∅ (Some Sample.part)) Sample.empty in
  out.1 = status_json 201 (Json_doc d) /\
  collection out.2 FileModel = collection Sample.empty FileModel ++ [d] /\
  bucket out.2 = {[upload_key Sample.env Sample.part]} ∪ bucket Sample.empty /\
  filter is_store_event (trace out.2)
  = filter is_store_event (trace Sample.empty)
    ++ [S3Upload (upload_key Sample.env Sample.part); DbCreate "File"] /\
  d !! "filename" = Some (FStr (upload_key Sample.env Sample.part)) /\
  d !! "path"
  = Some (FStr (S3_Location Sample.env (region Sample.client)
                  (String_of (S3_BUCKET_NAME Sample.pe_s3))
                  (upload_key Sample.env Sample.part))) /\
  d !! "date" = Some (FDate (Date_now Sample.env)) /\
  upload_key Sample.env Sample.part
  = "uploads/" +:+ String_of_number (runtime Sample.env) (key_Date_now Sample.env) +:+ "-"
    +:+ part_originalname Sample.part.
Proof.
  apply (upload_stores_object_then_record Sample.pe_s3 Sample.env Sample.empty ∅ Sample.part
           Sample.client (FStr "a.txt") (FStr "")); reflexivity.
Defined.

(** In the sample world the key carries the earlier of the two clock
    reads, the date the later one, and the path names the region of the
    client. *)
Example upload_sample_record :
  let d := uploaded_record Sample.pe_s3 Sample.env Sample.client Sample.part
             (FStr "a.txt") (FStr "") in
  d !! "filename" = Some (FStr "uploads/990-a.txt") /\
  d !! "path"
  = Some (FStr "https://bucket.s3.ap-south-2.amazonaws.com/uploads/990-a.txt") /\
  d !! "date" = Some (FDate 1000).
Proof. repeat split; vm_compute; reflexivity. Qed.

(** An upload is not atomic: once multer has stored the part, the object
    stays in the bucket whatever happens to the record.  The answer is
    either 201 with the one record that was added, or 500 with the
    database as it was and the object left behind. *)
Theorem upload_object_outlives_failed_record pe env st b part client :
  s3 pe = Some client ->
  upload_failure env = None ->
  part_size part < fileSize_limit ->
  let out := app pe env (request POST ["api"; "files"; "upload"] b (Some part)) st in
  upload_key env part ∈ bucket out.2 /\
  ((exists d, out.1 = status_json 201 (Json_doc d) /\
              collection out.2 FileModel = collection st FileModel ++ [d]) \/
   (status out.1 = 500 /\ db out.2 = db st)).
Proof.
  intros Hs3 Hup Hsize out. subst out. unfold app. rewrite app_upload.
  rewrite (uploadMiddleware_s3 pe env client (request POST ["api"; "files"; "upload"] b (Some part))
             part st Hs3 Hup eq_refl Hsize).
  rewrite Hs3. cbn [file set_file request].
  set (st1 := set_bucket _ _).
  change (the_model File "create") with (ret (A:=Model) FileModel).
  match goal with |- context [run ?m st1] => set (body := m) end.
  assert (quiet body) as Hq.
  { subst body. apply quiet_bind; [apply quiet_connect | intros _].
    apply quiet_bind; [apply quiet_ret | intros F].
    apply quiet_bind; [apply quiet_create | intros d; apply quiet_ret]. }
  destruct (run body st1) as [res st'] eqn:Hrun.
  generalize (quiet_run body st1 Hq). rewrite Hrun. intros (Hb & _).
  clear Hq. cbn [fst snd] in *.
  split; [rewrite Hb; by apply elem_of_union_l, elem_of_singleton |].
  subst body. unfold run in Hrun. unfold bind at 1 in Hrun.
  pose proof (connect_frame pe env st1) as (Hdb & _).
  destruct (connectToDatabase pe env st1) as [[[]|e] st2]; cbn [snd] in Hdb.
  2:{ injection Hrun as <- <-. right. cbn. by rewrite Hdb. }
  assert (collection st2 FileModel = collection st FileModel) as Hcoll.
  { unfold collection. by rewrite Hdb. }
  unfold bind at 1 in Hrun. unfold ret at 1 in Hrun. unfold bind at 1 in Hrun.
  rewrite create_eq, Hcoll in Hrun.
  destruct (cast_doc _ _ _ _ _) as [d|];
    [| injection Hrun as <- <-; right; cbn; by rewrite Hdb].
  destruct (negb _); [injection Hrun as <- <-; right; cbn; by rewrite Hdb |].
  destruct (duplicate_key _ _ _); injection Hrun as <- <-;
    [right; cbn; by rewrite Hdb |].
  left. eexists. split; [reflexivity |]. by rewrite collection_set_collection.
Qed.

Lemma upload_object_outlives_failed_record_witness :
  let out := app Sample.pe_no_uri Sample.env
               (request POST ["api"; "files"; "upload"] ∅ (Some Sample.part)) Sample.empty in
  upload_key Sample.env Sample.part ∈ bucket out.2 /\
  ((exists d, out.1 = status_json 201 (Json_doc d) /\
              collection out.2 FileModel = collection Sample.empty FileModel ++ [d]) \/
   (status out.1 = 500 /\ db out.2 = db Sample.empty)).
Proof.
  eapply (upload_object_outlives_failed_record Sample.pe_no_uri Sample.env Sample.empty ∅
            Sample.part); reflexivity.
Defined.

(** With the database out of reach the object is stored and no record
    names it. *)
Example upload_orphan :
  let out := app Sample.pe_no_uri Sample.env
               (request POST ["api"; "files"; "upload"] ∅ (Some Sample.part)) Sample.empty in
  out.1 = status_json 500 (Json_error "MONGODB_URI is missing in Environment Variables") /\
  bucket out.2 = {["uploads/990-a.txt"]} /\
  db out.2 = ∅.
Proof. repeat split; vm_compute; reflexivity. Qed.

(** ** Upload, then download *)

Lemma find_fresh_id i (d : Doc) c :
  d !! "id" = Some (FStr i) ->
  d !! "id" ∉ (fun x : Doc => x !! "id") <$> c ->
  List.find (has_id i) (c ++ [d]) = Some d.
Proof.
  intros Hd. induction c as [|x c IH]; cbn; intros Hnot.
  - by rewrite (proj2 (has_id_true i d) Hd).
  - apply not_elem_of_cons in Hnot as [Hx Hnot].
    destruct (has_id i x) eqn:E; [| by apply IH].
    apply has_id_true in E. congruence.
Qed.

(** Round trip: after an upload of a part under the size limit was
    answered with 201, a download of the id it generated redirects to the
    URL the client signs for [getObject] on the key the part was stored
    under, in the configured bucket, valid for 60 seconds. *)
Theorem upload_then_download pe env env' st b part client title description b' fp' :
  s3 pe = Some client ->
  upload_failure env = None ->
  part_size part < fileSize_limit ->
  connects pe env st = true ->
  castString (runtime env) (js_or (b !! "title") (VStr (part_originalname part))) = Some title ->
  castString (runtime env) (js_or (b !! "description") (VStr "")) = Some description ->
  duplicate_key (schema FileModel) (uploaded_record pe env client part title description)
    (collection st FileModel) = false ->
  let up := app pe env (request POST ["api"; "files"; "upload"] b (Some part)) st in
  connects pe env' up.2 = true ->
  (exists d, up.1 = status_json 201 (Json_doc d) /\
             d !! "id" = Some (FStr (generateId env)) /\
             d !! "filename" = Some (FStr (upload_key env part))) /\
  (app pe env' (request GET ["api"; "files"; "download"; generateId env] b' fp') up.2).1
  = redirect (mkSignedUrl client "getObject" (S3_BUCKET_NAME pe) (upload_key env part) 60).
Proof.
  intros Hs3 Hup Hsize Hc Ht Hd Hdup up. subst up.
  rewrite (upload_answer pe env st b part client title description Hs3 Hup Hsize Hc Ht Hd Hdup).
  cbn [fst snd]. intros Hc'. split.
  { eexists. split; [reflexivity |]. unfold uploaded_record. split; by look. }
  unfold app. rewrite app_download by reflexivity. rewrite Hs3.
  unfold run. rewrite bind_connect_ok by exact Hc'.
  change (the_model File "findOne") with (ret (A:=Model) FileModel).
  unfold bind at 1. unfold ret at 1. unfold bind at 1.
  rewrite findOne_eq, collection_connected, collection_set_collection.
  rewrite (find_fresh_id (generateId env)).
  - reflexivity.
  - reflexivity.
  - apply (no_clash_fresh (schema FileModel)); [apply FileModel_unique_id | done].
Qed.

Lemma upload_then_download_witness :
  let up := app Sample.pe_s3 Sample.env
              (request POST ["api"; "files"; "upload"] ∅ (Some Sample.part)) Sample.empty in
  (exists d, up.1 = status_json 201 (Json_doc d) /\
             d !! "id" = Some (FStr (generateId Sample.env)) /\
             d !! "filename" = Some (FStr (upload_key Sample.env Sample.part))) /\
  (app Sample.pe_s3 Sample.env
     (request GET ["api"; "files"; "download"; generateId Sample.env] ∅ None) up.2).1
  = redirect (mkSignedUrl Sample.client "getObject" (Some "bucket")
                (upload_key Sample.env Sample.part) 60).
Proof.
  apply (upload_then_download Sample.pe_s3 Sample.env Sample.env Sample.empty ∅ Sample.part
           Sample.client (FStr "a.txt") (FStr "")); reflexivity.
Defined.

(** ** Uploads that multer or the handler refuses *)

(** A part over the size limit of 50 MiB is refused by multer: the wrapper
    hands the error to the global handler, which answers 500 with the JSON
    error [File too large]; the handler proper never runs, so there is no
    connection attempt, no database call and no record. *)
Theorem oversized_upload_refused pe env st b part client :
  s3 pe = Some client ->
  upload_failure env = None ->
  50 * 1024 * 1024 < part_size part ->
  let out := app pe env (request POST ["api"; "files"; "upload"] b (Some part)) st in
  out.1 = status_json 500 (Json_error "File too large") /\
  db out.2 = db st /\
  cachedDb out.2 = cachedDb st /\
  filter (fun e => is_connect e || is_db_call e) (trace out.2)
  = filter (fun e => is_connect e || is_db_call e) (trace st).
Proof.
  intros Hs3 Hup Hsize out. subst out. unfold app. rewrite app_upload.
  unfold uploadMiddleware, single. rewrite Hup, Hs3. cbn [file_part request].
  assert (over_limit env (part_size part) = true) as ->.
  { unfold over_limit, fileSize_limit.
    by destruct (Z.ltb_spec (50 * 1024 * 1024) (part_size part)); [| lia]. }
  rewrite refused_part_eq. cbn. by rewrite !filter_app, !app_nil_r.
Qed.

Lemma oversized_upload_refused_witness :
  let out := app Sample.pe_s3 Sample.env
               (request POST ["api"; "files"; "upload"] ∅ (Some Sample.big_part)) Sample.empty in
  out.1 = status_json 500 (Json_error "File too large") /\
  db out.2 = db Sample.empty /\
  cachedDb out.2 = cachedDb Sample.empty /\
  filter (fun e => is_connect e || is_db_call e) (trace out.2)
  = filter (fun e => is_connect e || is_db_call e) (trace Sample.empty).
Proof.
  eapply (oversized_upload_refused Sample.pe_s3 Sample.env Sample.empty ∅ Sample.big_part);
    reflexivity.
Defined.

(** At the limit itself the answer depends on the installed multer; in
    the sample world it refuses a part of exactly 50 MiB, and the object
    it had stored by then is removed again. *)
Example upload_at_the_limit :
  let out := app Sample.pe_s3 Sample.env
               (request POST ["api"; "files"; "upload"] ∅ (Some Sample.limit_part))
               Sample.empty in
  part_size Sample.limit_part = fileSize_limit /\
  out.1 = status_json 500 (Json_error "File too large") /\
  collection out.2 FileModel = [] /\
  bucket out.2 = ∅ /\
  trace out.2 = [S3Upload "uploads/990-edge.bin";
                 S3DeleteObject (Some (FStr "uploads/990-edge.bin"));
                 ConsoleError "Server Error:" (MulterError "File too large")].
Proof. repeat split; vm_compute; reflexivity. Qed.

(** multer with the disk storage: the part goes to the scratch directory
    and [req.file] has neither key nor location. *)
Lemma uploadMiddleware_disk pe env req part st :
  s3 pe = None ->
  upload_failure env = None ->
  file_part req = Some part ->
  uploadMiddleware pe env req st
  = (Ok (set_file (mkMulterFile (part_originalname part) (part_mimetype part)
                     (part_size part) None None) req),
     add_tmp (disk_filename env) (emit (DiskWrite (disk_filename env)) st)).
Proof. intros Hs3 Hup Hpart. unfold uploadMiddleware, single. by rewrite Hup, Hpart, Hs3. Qed.

Lemma connect_store_events pe env st :
  filter is_store_event (trace (connectToDatabase pe env st).2)
  = filter is_store_event (trace st).
Proof.
  unfold connectToDatabase.
  destruct (cachedDb st && (readyState env =? 1)); [done |].
  destruct (negb (truthy_str (DB_URI pe))); [done |].
  destruct (connect_failure env); cbn; by rewrite !filter_app, !app_nil_r.
Qed.

(** In degraded mode multer falls back to the disk storage: an upload
    with a part writes it to the scratch directory first, and only then
    does the handler refuse the request.  The answer is 500 (with the
    configuration error when the database answers), no record is created,
    the bucket is not touched, and the scratch file stays. *)
Theorem degraded_upload_leaves_scratch_file pe env st b part :
  s3 pe = None ->
  upload_failure env = None ->
  let out := app pe env (request POST ["api"; "files"; "upload"] b (Some part)) st in
  status out.1 = 500 /\
  (connects pe env st = true ->
   out.1 = status_json 500 (Json_error "AWS S3 not configured. Check environment variables.")) /\
  tmp out.2 = tmp st ++ [disk_filename env] /\
  bucket out.2 = bucket st /\
  db out.2 = db st /\
  filter is_store_event (trace out.2)
  = filter is_store_event (trace st) ++ [DiskWrite (disk_filename env)].
Proof.
  intros Hs3 Hup out. subst out. unfold app. rewrite app_upload.
  rewrite (uploadMiddleware_disk pe env (request POST ["api"; "files"; "upload"] b (Some part))
             part st Hs3 Hup eq_refl).
  rewrite Hs3.
  set (st1 := add_tmp _ _).
  destruct (run _ st1) as [res st'] eqn:Hrun. cbn [fst snd].
  unfold run, bind in Hrun.
  pose proof (connect_frame pe env st1) as (Hdb & Hb & Ht & _).
  pose proof (connect_store_events pe env st1) as Htr.
  assert (connects pe env st = true -> connectToDatabase pe env st1 = (Ok tt, connected env st1))
    as Hok by (intros H; by apply connect_ok).
  destruct (connectToDatabase pe env st1) as [[[]|e] st2]; cbn [snd] in *;
    injection Hrun as <- <-; cbn [status status_json error_handler fst snd];
    (split; [done |]);
    (split; [| cbn; rewrite ?filter_app, Hdb, Hb, Ht, Htr; subst st1; cbn;
               rewrite filter_app; cbn; by rewrite ?app_nil_r]).
  - done.
  - intros H. by specialize (Hok H).
Qed.

Lemma degraded_upload_leaves_scratch_file_witness :
  let out := app Sample.pe_degraded Sample.env
               (request POST ["api"; "files"; "upload"] ∅ (Some Sample.part)) Sample.empty in
  status out.1 = 500 /\
  (connects Sample.pe_degraded Sample.env Sample.empty = true ->
   out.1 = status_json 500 (Json_error "AWS S3 not configured. Check environment variables.")) /\
  tmp out.2 = tmp Sample.empty ++ [disk_filename Sample.env] /\
  bucket out.2 = bucket Sample.empty /\
  db out.2 = db Sample.empty /\
  filter is_store_event (trace out.2)
  = filter is_store_event (trace Sample.empty) ++ [DiskWrite (disk_filename Sample.env)].
Proof.
  eapply (degraded_upload_leaves_scratch_file Sample.pe_degraded Sample.env Sample.empty ∅
            Sample.part); reflexivity.
Defined.

(** ** Updating a record *)

(** An update writes only paths the body gives. *)
Lemma cast_update_None env sch obj u p :
  cast_update env sch obj = Some u -> obj !! p = None -> u !! p = None.
Proof.
  revert u. induction sch as [|[q sq] sch IH]; intros u H Hp; cbn in H.
  - injection H as <-. apply lookup_empty.
  - destruct (cast_update env sch obj) as [u'|]; [| done].
    specialize (IH u' eq_refl Hp).
    destruct (obj !! q) as [v|] eqn:Hq; [| by injection H as <-].
    destruct (castPath (runtime env) (ptype sq) v) as [fv|]; [| done].
    injection H as <-. rewrite lookup_insert_ne; [done |]. congruence.
Qed.

(** It writes schema paths only. *)
Lemma cast_update_strict env sch obj u p :
  cast_update env sch obj = Some u -> p ∉ sch.*1 -> u !! p = None.
Proof.
  revert u. induction sch as [|[q sq] sch IH]; intros u H Hp; cbn in H.
  - injection H as <-. apply lookup_empty.
  - apply not_elem_of_cons in Hp as [Hne Hp]. cbn in Hne.
    destruct (cast_update env sch obj) as [u'|]; [| done].
    specialize (IH u' eq_refl Hp).
    destruct (obj !! q) as [v|]; [| by injection H as <-].
    destruct (castPath (runtime env) (ptype sq) v) as [fv|]; [| done].
    injection H as <-. by rewrite lookup_insert_ne.
Qed.

(** Each given schema path is written with the cast of its value. *)
Lemma cast_update_lookup env sch obj u p sp v :
  cast_update env sch obj = Some u ->
  NoDup sch.*1 ->
  (p, sp) ∈ sch ->
  obj !! p = Some v ->
  u !! p = castPath (runtime env) (ptype sp) v /\ is_Some (u !! p).
Proof.
  revert u. induction sch as [|[q sq] sch IH]; intros u H Hnd Hin Hv.
  - by apply elem_of_nil in Hin.
  - cbn in H, Hnd. apply NoDup_cons in Hnd as [Hq Hnd].
    destruct (cast_update env sch obj) as [u'|] eqn:Hu'; [| done].
    apply elem_of_cons in Hin as [[= -> ->] | Hin].
    + rewrite Hv in H.
      destruct (castPath (runtime env) (ptype sq) v) as [fv|]; [| done].
      injection H as <-. rewrite lookup_insert_eq. eauto.
    + assert (p <> q) as Hne.
      { intros ->. apply Hq. apply list_elem_of_fmap. by exists (q, sp). }
      specialize (IH u' eq_refl Hnd Hin Hv).
      destruct (obj !! q) as [w|]; [| by injection H as <-].
      destruct (castPath (runtime env) (ptype sq) w) as [fv|]; [| done].
      injection H as <-. by rewrite lookup_insert_ne.
Qed.

(** The answer of the generic PUT on an existing record, case by case. *)
Lemma update_item_found pe env st nested t m id b fp d u :
  getModel t = AModel m ->
  connects pe env st = true ->
  named id = true ->
  List.find (has_id id) (collection st m) = Some d ->
  cast_update env (schema m) b = Some u ->
  app pe env (request PUT (item_path nested t id) b fp) st
  = let st1 := emit (DbFindOneAndUpdate (modelName m) id) (connected env st) in
    if changes_oid u d then error_handler ImmutableFieldError st1
    else if duplicate_key (written u (schema m)) (u ∪ d)
              (remove_first (has_id id) (collection st m))
         then error_handler (DuplicateKeyError m) st1
         else (json (Json_doc (u ∪ d)),
               set_collection m (replace_first (has_id id) (u ∪ d) (collection st m)) st1).
Proof.
  intros Hm Hc Hi Hf Hu.
  destruct (tokens_named t (getModel_AModel_tokens _ _ Hm)) as [Hn _].
  unfold app. rewrite app_update_item by done. rewrite Hm.
  unfold run. rewrite bind_connect_ok by done.
  unfold bind at 1. unfold findOneAndUpdate. rewrite Hu.
  unfold bind, effect, read, ret, throw. cbn [fst snd].
  rewrite collection_emit, collection_connected, Hf. cbv zeta.
  destruct (changes_oid u d); [done |].
  by destruct (duplicate_key _ _ _).
Qed.

(** A PUT on an existing record, with a body whose keys are plain field
    names, overwrites the schema paths the body gives with the casts of
    their values and keeps every other path of the stored record; no
    default and no validator runs, so a required path can be set to
    [null].  (The update is refused only when it would change [_id] or
    break a unique index.) *)
Theorem put_overwrites_given_paths pe env st nested t m id b fp d u :
  getModel t = AModel m ->
  connects pe env st = true ->
  named id = true ->
  plain_keys b = true ->
  List.find (has_id id) (collection st m) = Some d ->
  cast_update env (schema m) b = Some u ->
  changes_oid u d = false ->
  duplicate_key (written u (schema m)) (u ∪ d)
    (remove_first (has_id id) (collection st m)) = false ->
  let out := app pe env (request PUT (item_path nested t id) b fp) st in
  exists d',
    out.1 = json (Json_doc d') /\
    collection out.2 m = replace_first (has_id id) d' (collection st m) /\
    (forall p sp v, (p, sp) ∈ schema m -> b !! p = Some v ->
                    d' !! p = castPath (runtime env) (ptype sp) v) /\
    (forall p, b !! p = None \/ p ∉ (schema m).*1 -> d' !! p = d !! p).
Proof.
  intros Hm Hc Hi _ Hf Hu Hoid Hdup out. subst out.
  rewrite (update_item_found pe env st nested t m id b fp d u Hm Hc Hi Hf Hu).
  cbv zeta. rewrite Hoid, Hdup. exists (u ∪ d). cbn [fst snd].
  split; [done |]. split; [apply collection_set_collection |].
  destruct (registry_schema t m Hm) as (Hnd & _).
  split.
  - intros p sp v Hin Hv.
    destruct (cast_update_lookup env _ _ _ _ _ _ Hu Hnd Hin Hv) as [Hp [fv Hfv]].
    rewrite <- Hp, Hfv. by apply lookup_union_Some_l.
  - intros p [Hp | Hp]; apply lookup_union_r.
    + by eapply cast_update_None.
    + by eapply cast_update_strict.
Qed.

Lemma put_overwrites_given_paths_witness :
  let b : jsobj := <["title" := VStr "new"]> ∅ in
  let out := app Sample.pe_s3 Sample.env (request PUT ["api"; "notes"; "b"] b None)
               Sample.three_notes in
  exists d',
    out.1 = json (Json_doc d') /\
    collection out.2 Sample.note_model
    = replace_first (has_id "b") d' (collection Sample.three_notes Sample.note_model) /\
    (forall p sp v, (p, sp) ∈ schema Sample.note_model -> b !! p = Some v ->
                    d' !! p = castPath (runtime Sample.env) (ptype sp) v) /\
    (forall p, b !! p = None \/ p ∉ (schema Sample.note_model).*1 ->
               d' !! p = Sample.note "b" 9 !! p).
Proof.
  apply (put_overwrites_given_paths Sample.pe_s3 Sample.env Sample.three_notes false "notes"
           Sample.note_model "b" (<["title" := VStr "new"]> ∅) None (Sample.note "b" 9)
           (<["title" := FStr "new"]> ∅)); vm_compute; reflexivity.
Defined.

(** The required validator guards a create and not an update: a note
    cannot be created with the title [null], and an existing note can be
    given it. *)
Example put_null_title :
  let b : jsobj := <["title" := VNull]> ∅ in
  status (app Sample.pe_s3 Sample.env (request POST ["api"; "notes"] b None)
            Sample.three_notes).1 = 500 /\
  (app Sample.pe_s3 Sample.env (request PUT ["api"; "notes"; "b"] b None)
     Sample.three_notes).1
  = json (Json_doc (<["title" := FNull]> (Sample.note "b" 9))).
Proof. split; vm_compute; reflexivity. Qed.

(** ** Updating twice *)

(** The answer of the generic PUT on a registered token, case by case. *)
Lemma update_item_registered pe env st nested t m id b fp :
  getModel t = AModel m ->
  connects pe env st = true ->
  named id = true ->
  app pe env (request PUT (item_path nested t id) b fp) st
  = match cast_update env (schema m) b with
    | None => error_handler (CastError m) (connected env st)
    | Some u =>
        let st1 := emit (DbFindOneAndUpdate (modelName m) id) (connected env st) in
        match List.find (has_id id) (collection st m) with
        | None => (json Json_null, st1)
        | Some d =>
            if changes_oid u d then error_handler ImmutableFieldError st1
            else if duplicate_key (written u (schema m)) (u ∪ d)
                      (remove_first (has_id id) (collection st m))
                 then error_handler (DuplicateKeyError m) st1
                 else (json (Json_doc (u ∪ d)),
                       set_collection m (replace_first (has_id id) (u ∪ d) (collection st m))
                         st1)
        end
    end.
Proof.
  intros Hm Hc Hi.
  destruct (tokens_named t (getModel_AModel_tokens _ _ Hm)) as [Hn _].
  unfold app. rewrite app_update_item by done. rewrite Hm.
  unfold run. rewrite bind_connect_ok by done.
  unfold bind at 1. unfold findOneAndUpdate.
  destruct (cast_update env (schema m) b) as [u|]; [| done].
  unfold bind, effect, read, ret, throw. cbn [fst snd].
  rewrite collection_emit, collection_connected. cbv zeta.
  destruct (List.find (has_id id) (collection st m)) as [d|]; [| done].
  destruct (changes_oid u d); [done |].
  by destruct (duplicate_key _ _ _).
Qed.

(** Once connected, the database keeps answering. *)
Lemma connects_connected pe env st :
  connects pe env st = true -> connects pe env (connected env st) = true.
Proof.
  unfold connects, connected.
  destruct (cachedDb st && (readyState env =? 1)) eqn:E; [by rewrite E |].
  cbn. intros ->. apply orb_true_r.
Qed.

(** The first match replaced by a match: what finding, removing and
    replacing again give. *)
Lemma replace_first_again (f : Doc -> bool) d d' c :
  List.find f c = Some d -> f d' = true ->
  List.find f (replace_first f d' c) = Some d' /\
  remove_first f (replace_first f d' c) = remove_first f c /\
  replace_first f d' (replace_first f d' c) = replace_first f d' c.
Proof.
  intros Hf Hd'. induction c as [|x c IH]; cbn in *; [done |].
  destruct (f x) eqn:E.
  - cbn. by rewrite Hd'.
  - cbn. rewrite E. destruct (IH Hf) as (-> & -> & ->). done.
Qed.

(** The unique paths of the registered models are [id] and [_id]. *)
Lemma registry_unique_paths t m p sp :
  getModel t = AModel m -> (p, sp) ∈ schema m -> unique sp = true ->
  p = "id" \/ p = "_id".
Proof.
  intros H Hin Hu. pose proof (getModel_AModel_tokens _ _ H) as Ht.
  apply list_elem_of_In in Ht. cbn in Ht.
  repeat (destruct Ht as [<- | Ht];
          [vm_compute in H; injection H as <-;
           apply list_elem_of_In in Hin; cbn in Hin;
           repeat (destruct Hin as [[= <- <-] | Hin]; [first [by left | by right | done] |]);
           destruct Hin |]).
  destruct Ht.
Qed.

(** An update that writes no unique path clashes with nothing. *)
Lemma no_unique_written sch (u x : Doc) c :
  (forall p sp, (p, sp) ∈ sch -> unique sp = true -> u !! p = None) ->
  duplicate_key (written u sch) x c = false.
Proof.
  intros H. unfold duplicate_key. apply not_true_is_false. intros Hex.
  apply existsb_exists in Hex as (y & _ & Hy).
  unfold clashes in Hy. apply existsb_exists in Hy as ([p sp] & Hin & Hp).
  unfold written in Hin. apply filter_In in Hin as [Hin Hw].
  apply andb_true_iff in Hp as [Hu _].
  apply bool_decide_eq_true in Hw. apply list_elem_of_In in Hin.
  rewrite (H p sp Hin Hu) in Hw. by destruct Hw.
Qed.

(** PUT is idempotent on a body that sets neither [id] nor [_id]: sent a
    second time, the same request gets the same answer and leaves the
    database as the first one left it. *)
Theorem put_twice_same pe env st nested t m id b fp :
  getModel t = AModel m ->
  connects pe env st = true ->
  named id = true ->
  b !! "id" = None ->
  b !! "_id" = None ->
  let once := app pe env (request PUT (item_path nested t id) b fp) st in
  let twice := app pe env (request PUT (item_path nested t id) b fp) once.2 in
  twice.1 = once.1 /\ db twice.2 = db once.2.
Proof.
  intros Hm Hc Hi Hid Hoid once twice. subst twice once.
  rewrite (update_item_registered pe env st nested t m id b fp Hm Hc Hi).
  pose proof (connects_connected pe env st Hc) as Hc1.
  pose proof (fun st0 => proj1 (connected_frame env st0)) as Hdb.
  destruct (cast_update env (schema m) b) as [u|] eqn:Hu.
  2:{ cbn [fst snd error_handler].
      rewrite (update_item_registered pe env _ nested t m id b fp Hm); [| exact Hc1 | exact Hi].
      rewrite Hu. cbn [fst snd error_handler db emit]. by rewrite Hdb. }
  cbv zeta.
  assert (forall x c, duplicate_key (written u (schema m)) x c = false) as Hnodup.
  { intros x c. apply no_unique_written. intros p sp Hin Hun.
    destruct (registry_unique_paths t m p sp Hm Hin Hun) as [-> | ->];
      by eapply cast_update_None. }
  assert (forall x, changes_oid u x = false) as Hsame.
  { intros x. unfold changes_oid. by rewrite (cast_update_None _ _ _ _ _ Hu Hoid). }
  destruct (List.find (has_id id) (collection st m)) as [d|] eqn:Hf.
  - rewrite Hsame, Hnodup. cbn [fst snd].
    rewrite (update_item_registered pe env _ nested t m id b fp Hm); [| exact Hc1 | exact Hi].
    rewrite Hu. cbv zeta.
    rewrite collection_set_collection.
    assert (has_id id (u ∪ d) = true) as Hd'.
    { apply List.find_some in Hf as [_ Hd]. apply has_id_true in Hd. apply has_id_true.
      rewrite lookup_union_r; [done |]. by eapply cast_update_None. }
    destruct (replace_first_again (has_id id) d (u ∪ d) _ Hf Hd') as (Hfind & _ & Hrep).
    rewrite Hfind, Hsame, Hnodup. cbn [fst snd].
    rewrite (assoc_L (∪)), (idemp_L (∪)), Hrep. split; [done |].
    cbn [set_collection db emit]. rewrite Hdb. cbn [set_collection db emit].
    by rewrite insert_insert_eq.
  - cbn [fst snd].
    rewrite (update_item_registered pe env _ nested t m id b fp Hm); [| exact Hc1 | exact Hi].
    rewrite Hu. cbv zeta. rewrite collection_emit, collection_connected, Hf.
    cbn [fst snd db emit]. by rewrite Hdb.
Qed.

Lemma put_twice_same_witness :
  let b : jsobj := <["title" := VStr "new"]> ∅ in
  let once := app Sample.pe_s3 Sample.env (request PUT ["api"; "notes"; "b"] b None)
                Sample.three_notes in
  let twice := app Sample.pe_s3 Sample.env (request PUT ["api"; "notes"; "b"] b None) once.2 in
  twice.1 = once.1 /\ db twice.2 = db once.2.
Proof.
  apply (put_twice_same Sample.pe_s3 Sample.env Sample.three_notes false "notes"
           Sample.note_model "b" (<["title" := VStr "new"]> ∅) None); reflexivity.
Defined.

(** ** Create, then read *)




(** ** Create, then delete *)

Lemma remove_fresh_id i (d : Doc) c :
  d !! "id" = Some (FStr i) ->
  d !! "id" ∉ (fun x : Doc => x !! "id") <$> c ->
  remove_first (has_id i) (c ++ [d]) = c.
Proof.
  intros Hd. induction c as [|x c IH]; cbn; intros Hnot.
  - by rewrite (proj2 (has_id_true i d) Hd).
  - apply not_elem_of_cons in Hnot as [Hx Hnot].
    destruct (has_id i x) eqn:E; [| by rewrite IH].
    apply has_id_true in E. congruence.
Qed.

(** What a 201 of the generic POST on a registered token says of the state
    it leaves. *)
Lemma post_item_201 pe env st nested t m b fp d :
  getModel t = AModel m ->
  connects pe env st = true ->
  let post := app pe env (request POST (type_path nested t) b fp) st in
  post.1 = status_json 201 (Json_doc d) ->
  collection post.2 m = collection st m ++ [d] /\
  (d !! "id" ∉ (fun x : Doc => x !! "id") <$> collection st m) /\
  (forall i, d !! "id" = Some (FStr i) -> named i = true) /\
  (forall p sp, (p, sp) ∈ schema m -> b !! p = None -> p <> "id" -> p <> "__v" ->
                d !! p = apply_default (Date_now env) (new_ObjectId env) p sp ∅ !! p).
Proof.
  intros Hm Hc post. subst post.
  rewrite (post_item_registered pe env st nested t m b fp Hm Hc). cbv zeta.
  destruct (registry_schema t m Hm) as (Hnd & Hid & _).
  destruct (cast_doc _ _ _ _ _) as [d0|] eqn:Hd0; [| discriminate].
  destruct (validate (schema m) d0) eqn:Hv; [| discriminate]. cbn [negb].
  destruct (duplicate_key _ _ _) eqn:Hdup; [discriminate |].
  cbn [fst snd]. intros [= <-].
  split; [apply collection_set_collection |].
  split; [apply (no_clash_fresh (schema m)); [by eapply registry_unique_id | done] |].
  split.
  - intros i Hi. rewrite lookup_insert_ne in Hi by done.
    unfold validate in Hv. rewrite forallb_forall in Hv.
    apply list_elem_of_In in Hid. specialize (Hv _ Hid). cbn in Hv.
    rewrite Hi in Hv. exact Hv.
  - intros p sp Hin Hb Hne Hnv. rewrite lookup_insert_ne by done.
    rewrite (cast_doc_lookup _ _ _ _ _ _ _ _ Hd0 Hnd Hin).
    by rewrite lookup_insert_ne, Hb.
Qed.

(** Round trip: a record created by a generic POST is deleted by a DELETE
    of its id, which answers 204 and leaves the collection as it was
    before the create; for the type [files] this holds in degraded
    mode. *)
Theorem created_record_is_deleted pe env env' st nested nested' t m b fp b' fp' d i :
  getModel t = AModel m ->
  connects pe env st = true ->
  String.eqb t "files" && bool_decide (is_Some (s3 pe)) = false ->
  let post := app pe env (request POST (type_path nested t) b fp) st in
  post.1 = status_json 201 (Json_doc d) ->
  d !! "id" = Some (FStr i) ->
  connects pe env' post.2 = true ->
  let del := app pe env' (request DELETE (item_path nested' t i) b' fp') post.2 in
  del.1 = status_send 204 /\ collection del.2 m = collection st m.
Proof.
  intros Hm Hc Hs3 post H201 Hi Hc' del. subst del.
  destruct (post_item_201 pe env st nested t m b fp d Hm Hc H201) as (Hcoll & Hfresh & Hnamed & _).
  fold post in Hcoll. specialize (Hnamed i Hi).
  destruct (tokens_named t (getModel_AModel_tokens _ _ Hm)) as [Hn _].
  destruct (app pe env' (request DELETE (item_path nested' t i) b' fp') post.2)
    as [res st2] eqn:Hdel.
  unfold app in Hdel. rewrite app_delete_item in Hdel by done. rewrite Hm, Hs3 in Hdel.
  unfold run in Hdel. rewrite bind_connect_ok in Hdel by done.
  unfold bind at 1 in Hdel. rewrite findOne_eq, collection_connected in Hdel.
  rewrite Hcoll, (find_fresh_id i d _ Hi Hfresh) in Hdel.
  unfold bind at 1 in Hdel. unfold ret at 1 in Hdel. unfold bind at 1 in Hdel.
  rewrite deleteOne_eq in Hdel. cbn [fst snd ret] in Hdel.
  rewrite collection_emit, collection_connected, Hcoll in Hdel.
  rewrite (remove_fresh_id i d _ Hi Hfresh) in Hdel.
  injection Hdel as <- <-. cbn [fst snd].
  by rewrite collection_set_collection.
Qed.

Lemma created_record_is_deleted_witness :
  let post := app Sample.pe_s3 Sample.env (request POST ["api"; "notes"] Sample.dated_note None)
                Sample.three_notes in
  let del := app Sample.pe_s3 Sample.env
               (request DELETE ["api"; "notes"; "01234567-89ab-4cde-b012-3456789abcde"] ∅ None)
               post.2 in
  del.1 = status_send 204 /\
  collection del.2 Sample.note_model = collection Sample.three_notes Sample.note_model.
Proof.
  apply (created_record_is_deleted Sample.pe_s3 Sample.env Sample.env Sample.three_notes
           false false "notes" Sample.note_model Sample.dated_note None ∅ None
           Sample.dated_note_doc "01234567-89ab-4cde-b012-3456789abcde"); reflexivity.
Defined.

(** ** File records without an object *)



(** ** Creates the schema refuses *)

Lemma schema_path_functional (sch : Schema) p sp1 sp2 :
  NoDup sch.*1 -> (p, sp1) ∈ sch -> (p, sp2) ∈ sch -> sp1 = sp2.
Proof.
  induction sch as [|[q sq] sch IH]; intros Hnd H1 H2; [by apply elem_of_nil in H1 |].
  cbn in Hnd. apply NoDup_cons in Hnd as [Hq Hnd].
  apply elem_of_cons in H1 as [E1 | H1], H2 as [E2 | H2].
  - congruence.
  - injection E1 as <- <-. exfalso. apply Hq. apply list_elem_of_fmap. by exists (p, sp2).
  - injection E2 as <- <-. exfalso. apply Hq. apply list_elem_of_fmap. by exists (p, sp1).
  - by apply IH.
Qed.

(** What the generic POST runs on a registered token. *)
Lemma post_item_run pe env st nested t m b fp :
  getModel t = AModel m ->
  app pe env (request POST (type_path nested t) b fp) st
  = run (connectToDatabase pe env >>
         let* savedItem :=
           create env m (<["id" := js_or (b !! "id") (VStr (generateId env))]> b) in
         ret (status_json 201 (Json_doc savedItem))) st.
Proof.
  intros Hm. destruct (tokens_named t (getModel_AModel_tokens _ _ Hm)) as [Hn Ha].
  unfold app. rewrite app_post_item by done. by rewrite Hm.
Qed.

(** A generic POST whose body leaves out a required string path (the
    [title] of a note or a code snippet, the [name] of a project or a
    contact), or gives it as [null] or as the empty string, is rejected by
    the schema validator: 500 with a JSON error, no collection changes and
    no write reaches the database. *)
Theorem create_without_required_path_rejected pe env st nested t m b fp p :
  getModel t = AModel m ->
  (p, required_String) ∈ schema m ->
  b !! p = None \/ b !! p = Some VNull \/ b !! p = Some (VStr "") ->
  let out := app pe env (request POST (type_path nested t) b fp) st in
  status out.1 = 500 /\
  (exists msg, rbody out.1 = Json_error msg /\ msg <> "") /\
  db out.2 = db st /\
  filter is_db_write (trace out.2) = filter is_db_write (trace st).
Proof.
  intros Hm Hin Hb. cbv zeta.
  fold (rejected st (app pe env (request POST (type_path nested t) b fp) st)).
  rewrite (post_item_run pe env st nested t m b fp Hm).
  destruct (registry_schema t m Hm) as (Hnd & Hid & _).
  assert (p <> "id") as Hne.
  { intros ->. by pose proof (schema_path_functional _ _ _ _ Hnd Hin Hid). }
  unfold run, bind at 1.
  pose proof (connect_frame pe env st) as (Hdb & _ & _ & Htr & _).
  destruct (connectToDatabase pe env st) as [[[]|e] st1]; cbn [snd] in *;
    [| by apply error_handler_rejected].
  unfold bind. rewrite create_eq.
  destruct (cast_doc _ _ _ _ _) as [d|] eqn:Hd; [| by apply error_handler_rejected].
  assert (validate (schema m) d = false) as ->.
  { apply not_true_is_false. intros Hv. unfold validate in Hv.
    rewrite forallb_forall in Hv. apply list_elem_of_In in Hin as Hin'.
    specialize (Hv _ Hin'). cbn in Hv.
    rewrite (cast_doc_lookup _ _ _ _ _ _ _ _ Hd Hnd Hin) in Hv.
    rewrite lookup_insert_ne in Hv by done.
    destruct Hb as [Hb | [Hb | Hb]]; rewrite Hb in Hv; cbn in Hv; discriminate. }
  by apply error_handler_rejected.
Qed.

Lemma create_without_required_path_witness :
  let out := app Sample.pe_s3 Sample.env (request POST ["api"; "notes"] ∅ None)
               Sample.three_notes in
  status out.1 = 500 /\
  (exists msg, rbody out.1 = Json_error msg /\ msg <> "") /\
  db out.2 = db Sample.three_notes /\
  filter is_db_write (trace out.2) = filter is_db_write (trace Sample.three_notes).
Proof.
  apply (create_without_required_path_rejected Sample.pe_s3 Sample.env Sample.three_notes
           false "notes" Sample.note_model ∅ None "title").
  - reflexivity.
  - apply list_elem_of_In. cbn. tauto.
  - left. reflexivity.
Defined.

(** A generic POST whose body gives an [id] that a record of the
    collection already has is refused by the unique index: the answer is
    500 and nothing is stored. *)
Theorem create_with_taken_id_rejected pe env st nested t m b fp s d0 :
  getModel t = AModel m ->
  b !! "id" = Some (VStr s) ->
  s <> "" ->
  d0 ∈ collection st m ->
  d0 !! "id" = Some (FStr s) ->
  let out := app pe env (request POST (type_path nested t) b fp) st in
  status out.1 = 500 /\ db out.2 = db st.
Proof.
  intros Hm Hb Hs Hd0 Hid0. cbv zeta.
  rewrite (post_item_run pe env st nested t m b fp Hm).
  destruct (registry_schema t m Hm) as (Hnd & Hid & _).
  destruct (run _ st) as [res st'] eqn:Hrun. cbn [fst snd].
  unfold run, bind at 1 in Hrun.
  pose proof (connect_frame pe env st) as (Hdb & _).
  destruct (connectToDatabase pe env st) as [[[]|e] st1]; cbn [snd] in *;
    [| by injection Hrun as <- <-].
  unfold bind in Hrun. rewrite create_eq in Hrun.
  destruct (cast_doc _ _ _ _ _) as [d|] eqn:Hd; [| by injection Hrun as <- <-].
  destruct (negb _); [by injection Hrun as <- <- |].
  assert (duplicate_key (schema m) (versioned (schema m) d) (collection st1 m) = true)
    as Hdup.
  { unfold duplicate_key. apply existsb_exists. exists d0. split.
    - apply list_elem_of_In. unfold collection. by rewrite Hdb.
    - unfold clashes. apply existsb_exists. exists ("id", id_path).
      split; [by apply list_elem_of_In |]. cbn. apply bool_decide_eq_true.
      unfold index_key. rewrite versioned_lookup_ne by done.
      rewrite (cast_doc_lookup _ _ _ _ _ _ _ _ Hd Hnd Hid), lookup_insert_eq, Hb, Hid0.
      cbn. destruct (String.eqb_spec s ""); done. }
  rewrite Hdup in Hrun. by injection Hrun as <- <-.
Qed.

Lemma create_with_taken_id_witness :
  let b : jsobj := <["id" := VStr "b"]> (<["title" := VStr "again"]> ∅) in
  let out := app Sample.pe_s3 Sample.env (request POST ["api"; "notes"] b None)
               Sample.three_notes in
  status out.1 = 500 /\ db out.2 = db Sample.three_notes.
Proof.
  apply (create_with_taken_id_rejected Sample.pe_s3 Sample.env Sample.three_notes
           false "notes" Sample.note_model _ None "b" (Sample.note "b" 9)).
  - reflexivity.
  - reflexivity.
  - discriminate.
  - apply list_elem_of_In. vm_compute. tauto.
  - reflexivity.
Defined.

(** ** One resource, several paths *)

(** [files] is the only token of the File model. *)
Lemma files_token t m :
  getModel t = AModel m -> String.eqb t "files" = String.eqb (modelName m) "File".
Proof.
  intros H. pose proof (getModel_AModel_tokens _ _ H) as Ht.
  apply list_elem_of_In in Ht. cbn in Ht.
  repeat (destruct Ht as [<- | Ht]; [vm_compute in H; by injection H as <- |]).
  destruct Ht.
Qed.

(** Two tokens of the same model name the same resource, on both path
    forms: a code subtype and its collection name ([python] and
    [pythonCodes]) under [/api/] and under [/api/codes/] get the same
    answer and leave the same state, for each of the four generic
    routes. *)
Theorem alias_tokens_agree pe env st nested nested' t t' m id b fp :
  getModel t = AModel m ->
  getModel t' = AModel m ->
  named id = true ->
  app pe env (request GET (type_path nested t) b fp) st
  = app pe env (request GET (type_path nested' t') b fp) st /\
  app pe env (request POST (type_path nested t) b fp) st
  = app pe env (request POST (type_path nested' t') b fp) st /\
  app pe env (request DELETE (item_path nested t id) b fp) st
  = app pe env (request DELETE (item_path nested' t' id) b fp) st /\
  app pe env (request PUT (item_path nested t id) b fp) st
  = app pe env (request PUT (item_path nested' t' id) b fp) st.
Proof.
  intros Hm Hm' Hi.
  destruct (tokens_named t (getModel_AModel_tokens _ _ Hm)) as [Hn Ha].
  destruct (tokens_named t' (getModel_AModel_tokens _ _ Hm')) as [Hn' Ha'].
  repeat split.
  - unfold app. rewrite !app_get_items by done. by rewrite Hm, Hm'.
  - by rewrite !(post_item_run pe env st _ _ m).
  - unfold app. rewrite !app_delete_item by done. rewrite Hm, Hm'.
    by rewrite (files_token t m Hm), (files_token t' m Hm').
  - unfold app. rewrite !app_update_item by done. by rewrite Hm, Hm'.
Qed.

Lemma alias_tokens_agree_witness :
  let st := Sample.three_notes in
  let b : jsobj := <["title" := VStr "hello.py"]> ∅ in
  app Sample.pe_s3 Sample.env (request GET (type_path false "python") b None) st
  = app Sample.pe_s3 Sample.env (request GET (type_path true "pythonCodes") b None) st /\
  app Sample.pe_s3 Sample.env (request POST (type_path false "python") b None) st
  = app Sample.pe_s3 Sample.env (request POST (type_path true "pythonCodes") b None) st /\
  app Sample.pe_s3 Sample.env (request DELETE (item_path false "python" "x") b None) st
  = app Sample.pe_s3 Sample.env (request DELETE (item_path true "pythonCodes" "x") b None) st /\
  app Sample.pe_s3 Sample.env (request PUT (item_path false "python" "x") b None) st
  = app Sample.pe_s3 Sample.env (request PUT (item_path true "pythonCodes" "x") b None) st.
Proof.
  apply (alias_tokens_agree Sample.pe_s3 Sample.env Sample.three_notes false true
           "python" "pythonCodes" (mongoose_model "PythonCode" codeSchema) "x"); reflexivity.
Defined.

(** ** The older server file *)










(** Where the two files differ: with [AWS_REGION] unset, the same upload
    is recorded with the location of another region, and the same
    download is redirected to a URL signed by another client. *)
Example server_files_differ_on_client :
  let upload := request POST ["api"; "files"; "upload"] ∅ (Some Sample.part) in
  let download := request GET ["api"; "files"; "download"; "f1"] ∅ None in
  (exists d, (app Sample.pe_s3 Sample.env upload Sample.empty).1
             = status_json 201 (Json_doc d) /\
             d !! "path"
             = Some (FStr "https://bucket.s3.ap-south-2.amazonaws.com/uploads/990-a.txt")) /\
  (exists d, (app_part_000 Sample.pe_s3 Sample.env upload Sample.empty).1
             = status_json 201 (Json_doc d) /\
             d !! "path"
             = Some (FStr "https://bucket.s3.us-east-1.amazonaws.com/uploads/990-a.txt")) /\
  (app Sample.pe_s3 Sample.env download Sample.with_file).1
  = redirect (mkSignedUrl (mkS3Client "AKIA" (Some "secret") "ap-south-2" (Some "v4"))
                "getObject" (Some "bucket") "uploads/1-a.txt" 60) /\
  (app_part_000 Sample.pe_s3 Sample.env download Sample.with_file).1
  = redirect (mkSignedUrl (mkS3Client "AKIA" (Some "secret") "us-east-1" None)
                "getObject" (Some "bucket") "uploads/1-a.txt" 60).
Proof.
  cbv zeta. split; [eexists; split; [vm_compute; reflexivity | vm_compute; reflexivity] |].
  split; [eexists; split; [vm_compute; reflexivity | vm_compute; reflexivity] |].
  split; vm_compute; reflexivity.
Qed.

(** No token of the registry, and no member of [Object.prototype], reads
    [activity] in any spelling. *)
Lemma getModel_activity t : lit "activity" t = true -> getModel t = Undefined.
Proof.
  intros H. unfold getModel, get_property. cbn [existsb assoc modelMap Object_prototype].
  repeat match goal with
  | |- context [String.eqb t ?s] =>
      destruct (String.eqb_spec t s); [subst t; vm_compute in H; discriminate |]
  end.
  reflexivity.
Qed.

(** In [part_000] there is no activity route: [/api/activity], in any
    spelling, falls to the generic routes, where [activity] is an unknown
    type.  GET and POST answer 404 with [Invalid type: activity], DELETE
    matches no route at all and gets the default page of Express; nothing
    is stored.  (The later file answers 500 to all three.) *)
Theorem part_000_activity_is_an_unknown_type pe env st a t b fp :
  lit "api" a = true ->
  lit "activity" t = true ->
  connects pe env st = true ->
  let answer meth := app_part_000 pe env (request meth [a; t] b fp) st in
  (answer GET).1 = status_json 404 (Json_error ("Invalid type: " +:+ t)) /\
  (answer POST).1 = status_json 404 (Json_error ("Invalid type: " +:+ t)) /\
  (answer DELETE).1 = mkResponse 404 (Html ("Cannot DELETE " +:+ path_string [a; t])) /\
  (forall meth, db (answer meth).2 = db st) /\
  (forall meth, meth <> PUT ->
                status (app pe env (request meth [a; t] b fp) st).1 = 500).
Proof.
  intros Ha Ht Hc answer. subst answer. cbv beta.
  assert (named t = true) as Hn by (by destruct t).
  assert (match_type [a; t] = Some (mkParams (Some t) None None)) as Hmt
    by (cbn; by rewrite Ha, Hn).
  assert (type_of (mkParams (Some t) None None) = t) as Hty
    by (apply (type_of_params false t None Hn)).
  assert (forall meth,
            app_part_000 pe env (request meth [a; t] b fp) st
            = match meth with
              | GET | POST =>
                  (status_json 404 (Json_error ("Invalid type: " +:+ t)), connected env st)
              | _ => (not_found (request meth [a; t] b fp), st)
              end) as Hans.
  { intros meth. unfold app_part_000, routes_part_000, Part_000.routes. destruct meth.
    - erewrite dispatch_hit; [| reflexivity | exact Hmt | reflexivity | reflexivity].
      cbv zeta. rewrite Hty, (getModel_activity t Ht).
      unfold run. by rewrite bind_connect_ok.
    - skip_by_method.
      erewrite dispatch_hit; [| reflexivity | exact Hmt | reflexivity |].
      2:{ unfold post_item. cbn [p_type].
          rewrite bool_decide_eq_false_2; [reflexivity |].
          intros [= ->]. vm_compute in Ht. discriminate. }
      cbv zeta. rewrite Hty, (getModel_activity t Ht).
      unfold run. by rewrite bind_connect_ok.
    - do 5 skip_by_method. rewrite dispatch_skip_path by reflexivity. reflexivity.
    - do 4 skip_by_method. rewrite dispatch_skip_path by reflexivity.
      skip_by_method. reflexivity. }
  rewrite !Hans. split; [done |]. split; [done |]. split; [done |]. split.
  - intros meth. rewrite Hans. destruct meth; cbn [snd]; try done;
      apply (connected_frame env st).
  - assert (match_activity [a; t] = Some no_params) as Hma by (cbn; by rewrite Ha, Ht).
    intros meth Hmeth. unfold app, app_with, routes. rewrite Activity_undefined.
    destruct meth; [| | done |].
    + erewrite dispatch_hit; [| reflexivity | exact Hma | reflexivity | reflexivity].
      unfold run, bind. by destruct (connectToDatabase pe env st) as [[[]|e] st1].
    + skip_by_method.
      erewrite dispatch_hit; [| reflexivity | exact Hma | reflexivity | reflexivity].
      unfold run, bind. by destruct (connectToDatabase pe env st) as [[[]|e] st1].
    + do 2 skip_by_method.
      erewrite dispatch_hit; [| reflexivity | exact Hma | reflexivity | reflexivity].
      unfold run, bind. by destruct (connectToDatabase pe env st) as [[[]|e] st1].
Qed.

Lemma part_000_activity_witness :
  let answer meth :=
    app_part_000 Sample.pe_s3 Sample.env (request meth ["api"; "Activity"] ∅ None)
      Sample.three_notes in
  (answer GET).1 = status_json 404 (Json_error ("Invalid type: " +:+ "Activity")) /\
  (answer POST).1 = status_json 404 (Json_error ("Invalid type: " +:+ "Activity")) /\
  (answer DELETE).1
  = mkResponse 404 (Html ("Cannot DELETE " +:+ path_string ["api"; "Activity"])) /\
  (forall meth, db (answer meth).2 = db Sample.three_notes) /\
  (forall meth, meth <> PUT ->
                status (app Sample.pe_s3 Sample.env (request meth ["api"; "Activity"] ∅ None)
                          Sample.three_notes).1 = 500).
Proof.
  apply (part_000_activity_is_an_unknown_type Sample.pe_s3 Sample.env Sample.three_notes
           "api" "Activity" ∅ None); reflexivity.
Defined.

(** ** The upload guard of the generic POST *)

Lemma toLowerCase_a c : toLowerCase_ascii c = "a"%char -> c = "a"%char \/ c = "A"%char.
Proof.
  destruct c as [[] [] [] [] [] [] [] []]; vm_compute; intros H;
    first [discriminate H | by left | by right].
Qed.

Lemma toLowerCase_p c : toLowerCase_ascii c = "p"%char -> c = "p"%char \/ c = "P"%char.
Proof.
  destruct c as [[] [] [] [] [] [] [] []]; vm_compute; intros H;
    first [discriminate H | by left | by right].
Qed.

Lemma toLowerCase_i c : toLowerCase_ascii c = "i"%char -> c = "i"%char \/ c = "I"%char.
Proof.
  destruct c as [[] [] [] [] [] [] [] []]; vm_compute; intros H;
    first [discriminate H | by left | by right].
Qed.

(** The spellings of the literal segment [api]. *)
Lemma lit_api a :
  lit "api" a = true ->
  a ∈ ["api"; "apI"; "aPi"; "aPI"; "Api"; "ApI"; "APi"; "API"].
Proof.
  unfold lit. intros H. apply String.eqb_eq in H.
  destruct a as [|c1 [|c2 [|c3 [|c4 a]]]]; try discriminate H.
  cbn in H. injection H as H1 H2 H3.
  destruct (toLowerCase_a _ H1) as [-> | ->], (toLowerCase_p _ H2) as [-> | ->],
    (toLowerCase_i _ H3) as [-> | ->]; apply list_elem_of_In; cbn; tauto.
Qed.

(** The guard of the generic POST is dead code: on every request its
    route matches, [req.params.type === 'files'] leaves a path of the form
    [/api/files], which does not contain [upload]. *)
Lemma upload_guard_never_fires req p :
  match_type (path req) = Some p ->
  bool_decide (p_type p = Some "files") && includes (path_string (path req)) "upload" = false.
Proof.
  intros H. unfold match_type in H.
  destruct (path req) as [|a [|t [|s [|x l]]]]; try discriminate H.
  - destruct (lit "api" a) eqn:Ha; [| discriminate H].
    destruct (named t); [| discriminate H]. injection H as <-. cbn [p_type].
    case_bool_decide as Ht; [| done]. injection Ht as ->.
    apply lit_api, list_elem_of_In in Ha. cbn in Ha.
    repeat (destruct Ha as [<- | Ha]; [reflexivity |]). destruct Ha.
  - destruct (_ && _); [| discriminate H]. by injection H as <-.
Qed.

(** The generic POST never defers to a later route: whenever its route
    matches, it answers the request itself or hands an error to the
    error handler.  An upload reaches its handler through the route
    order alone. *)
Theorem generic_post_never_defers pe env req p st :
  match_type (path req) = Some p ->
  match (post_item pe env p req st).1 with
  | Respond _ | Next (Some _) _ => True
  | Next None _ => False
  end.
Proof.
  intros H. unfold post_item. rewrite (upload_guard_never_fires req p H).
  unfold try_next.
  match goal with |- context [?m st] => destruct (m st) as [[r|e] st'] end; done.
Qed.

Lemma generic_post_never_defers_witness :
  match (post_item Sample.pe_s3 Sample.env (mkParams (Some "files") None None)
           (request POST ["API"; "files"] Sample.ghost_file None) Sample.empty).1 with
  | Respond _ | Next (Some _) _ => True
  | Next None _ => False
  end.
Proof.
  apply (generic_post_never_defers Sample.pe_s3 Sample.env
           (request POST ["API"; "files"] Sample.ghost_file None)
           (mkParams (Some "files") None None) Sample.empty).
  reflexivity.
Defined.

(** ** Writing the activity log *)

(** [POST /api/activity] reads three fields of the body and nothing else:
    two bodies that agree on [action], [itemType] and [itemName] get the
    same answer and leave the same state, whatever model is bound to
    [Activity].  In particular a client cannot choose the [id] or the
    [date] of an entry (the generic POST lets it choose both). *)
Theorem activity_entry_ignores_other_fields pe env A st b b' fp :
  b !! "action" = b' !! "action" ->
  b !! "itemType" = b' !! "itemType" ->
  b !! "itemName" = b' !! "itemName" ->
  app_with pe env A (request POST ["api"; "activity"] b fp) st
  = app_with pe env A (request POST ["api"; "activity"] b' fp) st.
Proof. intros H1 H2 H3. rewrite !app_post_activity. by rewrite H1, H2, H3. Qed.

Lemma activity_entry_ignores_other_fields_witness :
  let b : jsobj := <["action" := VStr "created"]> ∅ in
  let b' : jsobj := <["id" := VStr "mine"]> (<["date" := VNum 5]> b) in
  app_with Sample.pe_s3 Sample.env (Some Sample.note_model)
    (request POST ["api"; "activity"] b None) Sample.three_notes
  = app_with Sample.pe_s3 Sample.env (Some Sample.note_model)
      (request POST ["api"; "activity"] b' None) Sample.three_notes.
Proof.
  apply (activity_entry_ignores_other_fields Sample.pe_s3 Sample.env (Some Sample.note_model)
           Sample.three_notes); reflexivity.
Defined.

Lemma app_delete_activity pe env A b fp st :
  app_with pe env A (request DELETE ["api"; "activity"] b fp) st
  = run (connectToDatabase pe env >>
         match A with
         | None => throw (new_Error "Activity Model is not defined.")
         | Some act => deleteMany act >> ret (status_send 204)
         end) st.
Proof.
  unfold app_with, routes. do 2 skip_by_method.
  by erewrite dispatch_hit; [| reflexivity | reflexivity | reflexivity | reflexivity].
Qed.

(** If a model is bound to the import [Activity], then, while the
    database answers, [DELETE /api/activity] answers 204, empties the
    log in one [deleteMany] call, and leaves every other collection, the
    bucket and the scratch directory as they were. *)
Theorem activity_clear_with_a_model pe env st act b fp :
  connects pe env st = true ->
  let out := app_with pe env (Some act) (request DELETE ["api"; "activity"] b fp) st in
  out.1 = status_send 204 /\
  collection out.2 act = [] /\
  (forall m, modelName m <> modelName act -> collection out.2 m = collection st m) /\
  bucket out.2 = bucket st /\
  filter is_store_event (trace out.2)
  = filter is_store_event (trace st) ++ [DbDeleteMany (modelName act)].
Proof.
  intros Hc out. subst out. rewrite app_delete_activity.
  unfold run. rewrite bind_connect_ok by done.
  unfold deleteMany, bind, effect, ret. cbn [fst snd].
  split; [done |]. split; [apply collection_set_collection |]. split; [| split].
  - intros m Hne. unfold collection. cbn [set_collection db emit].
    rewrite lookup_total_insert_ne by done.
    by rewrite (proj1 (connected_frame env st)).
  - cbn. apply (connected_frame env st).
  - cbn [set_collection trace emit]. by rewrite filter_app, connected_store_events.
Qed.

Lemma activity_clear_witness :
  let out := app_with Sample.pe_s3 Sample.env (Some Sample.note_model)
               (request DELETE ["api"; "activity"] ∅ None) Sample.three_notes in
  out.1 = status_send 204 /\
  collection out.2 Sample.note_model = [] /\
  (forall m, modelName m <> modelName Sample.note_model ->
             collection out.2 m = collection Sample.three_notes m) /\
  bucket out.2 = bucket Sample.three_notes /\
  filter is_store_event (trace out.2)
  = filter is_store_event (trace Sample.three_notes)
    ++ [DbDeleteMany (modelName Sample.note_model)].
Proof.
  apply (activity_clear_with_a_model Sample.pe_s3 Sample.env Sample.three_notes
           Sample.note_model ∅ None).
  reflexivity.
Defined.
